(** * MyFinance: the double-entry ledger rules of the database

    A shallow embedding of the SQL that guards [public.transaction_entries]:
    the table definition, its row-level-security policy, the PL/pgSQL
    function [validate_transaction_entries] and the deferred constraint
    trigger that runs it, together with the parts of the first migration they
    rest on ([company_users], [user_roles], [has_role], [transactions]) and
    the row payload built by the transaction form's [onSubmit]. *)

From Stdlib Require Import ZArith NArith QArith Field List String Bool Lia Arith.
Import ListNotations.

(** ** The [numeric] column type *)

(** PostgreSQL [numeric] without precision or scale, the type of
    [transaction_entries.amount]: an exact decimal [unscaled * 10^-scale] of
    any scale, or one of the special values.  Arithmetic is exact; the scale
    of a sum is the larger of the two scales. *)
Module Numeric.

Inductive t : Type :=
| Fin (unscaled : Z) (scale : nat)
| NaN
| PInf
| NInf.

Definition zero : t := Fin 0 0.

(** [u * 10^-s] written at the scale [s' >= s]. *)
Definition rescale (u : Z) (s s' : nat) : Z :=
  (u * 10 ^ Z.of_nat (s' - s))%Z.

Definition add (a b : t) : t :=
  match a, b with
  | NaN, _ | _, NaN => NaN
  | PInf, NInf | NInf, PInf => NaN
  | PInf, _ | _, PInf => PInf
  | NInf, _ | _, NInf => NInf
  | Fin u s, Fin v r =>
      let m := Nat.max s r in
      Fin (rescale u s m + rescale v r m) m
  end.

(** SQL [=] on numeric: by value, so [0.00 = 0]; [NaN] equals itself. *)
Definition eqb (a b : t) : bool :=
  match a, b with
  | Fin u s, Fin v r =>
      let m := Nat.max s r in
      (rescale u s m =? rescale v r m)%Z
  | NaN, NaN | PInf, PInf | NInf, NInf => true
  | _, _ => false
  end.

(** SQL [<>]. *)
Definition neqb (a b : t) : bool := negb (eqb a b).

Definition is_zero (a : t) : bool := eqb a zero.

End Numeric.

(** The rational a finite value stands for. *)
Definition decimal (u : Z) (s : nat) : Q :=
  (inject_Z u / inject_Z (10 ^ Z.of_nat s))%Q.

(** ** Aggregates *)

(** [SUM(amount)]: SQL NULL ([None]) over no rows. *)
Definition SUM (l : list Numeric.t) : option Numeric.t :=
  match l with
  | [] => None
  | x :: r => Some (fold_left Numeric.add r x)
  end.

Definition COALESCE {A : Type} (o : option A) (d : A) : A :=
  match o with
  | Some v => v
  | None => d
  end.

(** [COUNT( * )], read into [v_count].  The variable is declared [int]; row
    counts are kept as unbounded integers here. *)
Definition COUNT {A : Type} (l : list A) : Z := Z.of_nat (List.length l).

(** ** Tables *)

Definition uuid : Type := N.

(** [create type public.app_role as enum ('admin','collaborator','accountant')] *)
Inductive app_role : Type := admin | collaborator | accountant.

Definition app_role_eqb (a b : app_role) : bool :=
  match a, b with
  | admin, admin | collaborator, collaborator | accountant, accountant => true
  | _, _ => false
  end.

(** [public.user_roles (user_id, role)] *)
Module user_roles.
Record row : Type := mk { user_id : uuid; role : app_role }.
End user_roles.

(** [public.company_users (company_id, user_id, role)] *)
Module company_users.
Record row : Type := mk { company_id : uuid; user_id : uuid; role : app_role }.
End company_users.

(** [public.transactions]: the header.  Of its columns the model keeps the
    key, the tenant and the two the form's [onSubmit] edits that stand for
    "header changes" ([amount], [description]); the recurrence link and the
    other references are left out. *)
Module transactions.
Record row : Type := mk {
  id : uuid;
  company_id : uuid;
  amount : Numeric.t;
  description : string
}.
End transactions.

(** [public.transaction_entries]: one debit or credit line.
<<
  id uuid PRIMARY KEY DEFAULT gen_random_uuid(),
  transaction_id uuid NOT NULL REFERENCES public.transactions(id) ON DELETE CASCADE,
  company_id uuid NOT NULL,
  account_id uuid NOT NULL REFERENCES public.accounts(id),
  amount numeric NOT NULL,
>>
    [cost_center_id] is the nullable column the generated types list for the
    table; the timestamps, and with them the BEFORE UPDATE trigger that sets
    [updated_at], are left out. *)
Module transaction_entries.
Record row : Type := mk {
  id : uuid;
  transaction_id : uuid;
  company_id : uuid;
  account_id : uuid;
  cost_center_id : option uuid;
  amount : Numeric.t
}.
End transaction_entries.

Abbreviation entry := transaction_entries.row.
Abbreviation header := transactions.row.

Record database : Type := mkdb {
  user_roles_tbl : list user_roles.row;
  company_users_tbl : list company_users.row;
  accounts_tbl : list uuid;
  transactions_tbl : list header;
  entries_tbl : list entry
}.

Definition with_entries (db : database) (es : list entry) : database :=
  mkdb (user_roles_tbl db) (company_users_tbl db) (accounts_tbl db)
       (transactions_tbl db) es.

Definition with_user_roles (db : database) (urs : list user_roles.row) : database :=
  mkdb urs (company_users_tbl db) (accounts_tbl db)
       (transactions_tbl db) (entries_tbl db).

Definition with_transactions (db : database) (hs : list header) : database :=
  mkdb (user_roles_tbl db) (company_users_tbl db) (accounts_tbl db)
       hs (entries_tbl db).

(** ** Sessions and row-level security *)

(** The acting principal: [auth.uid()] (NULL for an anonymous request) and
    whether the session's role is exempt from row security (table owner,
    superuser, or a role with BYPASSRLS such as the service role). *)
Record session : Type := mksession {
  auth_uid : option uuid;
  bypass_rls : bool
}.

(** [public.has_role(_user_id, _role)] *)
Definition has_role (db : database) (_user_id : option uuid) (_role : app_role) : bool :=
  match _user_id with
  | None => false
  | Some u =>
      existsb (fun ur => (user_roles.user_id ur =? u)%N
                         && app_role_eqb (user_roles.role ur) _role)
              (user_roles_tbl db)
  end.

(** The expression every "Company members manage ..." policy uses:
<<
  EXISTS (SELECT 1 FROM public.company_users cu
          WHERE cu.company_id = <row>.company_id AND cu.user_id = auth.uid())
>> *)
Definition company_member (db : database) (company : uuid) (uid : option uuid) : bool :=
  match uid with
  | None => false
  | Some u =>
      existsb (fun cu => (company_users.company_id cu =? company)%N
                         && (company_users.user_id cu =? u)%N)
              (company_users_tbl db)
  end.

(** A policy FOR ALL (the only kind on the modelled tables), applying to
    every role. *)
Record policy (R : Type) : Type := mkpolicy {
  permissive : bool;
  USING : session -> database -> R -> bool;
  WITH_CHECK : session -> database -> R -> bool
}.
Arguments mkpolicy {R} _ _ _.
Arguments permissive {R} _.
Arguments USING {R} _ _ _ _.
Arguments WITH_CHECK {R} _ _ _ _.

(** How PostgreSQL combines the policies of a table: a row passes when at
    least one permissive policy passes and every restrictive policy does.  A
    table with restrictive policies only lets no row pass. *)
Definition combine {R : Type} (ps : list (policy R))
  (qual : policy R -> bool) : bool :=
  existsb (fun p => permissive p && qual p) ps
  && forallb (fun p => permissive p || qual p) ps.

Definition row_security_using {R : Type} (ps : list (policy R))
  (s : session) (db : database) (r : R) : bool :=
  bypass_rls s || combine ps (fun p => USING p s db r).

Definition row_security_with_check {R : Type} (ps : list (policy R))
  (s : session) (db : database) (r : R) : bool :=
  bypass_rls s || combine ps (fun p => WITH_CHECK p s db r).

(** [CREATE POLICY "Company members manage transaction entries"
     ON public.transaction_entries AS RESTRICTIVE FOR ALL USING (...) WITH CHECK (...)] *)
Definition Company_members_manage_transaction_entries : policy entry :=
  mkpolicy false
    (fun s db e => company_member db (transaction_entries.company_id e) (auth_uid s))
    (fun s db e => company_member db (transaction_entries.company_id e) (auth_uid s)).

Definition transaction_entries_policies : list (policy entry) :=
  [Company_members_manage_transaction_entries].

(** [create policy "Company members manage transactions" on public.transactions
     for all using (...) with check (...)] *)
Definition Company_members_manage_transactions : policy header :=
  mkpolicy true
    (fun s db h => company_member db (transactions.company_id h) (auth_uid s))
    (fun s db h => company_member db (transactions.company_id h) (auth_uid s)).

Definition transactions_policies : list (policy header) :=
  [Company_members_manage_transactions].

(** The qualification of "Company members manage companies", the one place
    where the global admin role enters a FOR ALL policy:
    [EXISTS (...company_users...) OR public.has_role(auth.uid(), 'admin')],
    on the company with identifier [company]. *)
Definition Company_members_manage_companies_qual
  (s : session) (db : database) (company : uuid) : bool :=
  company_member db company (auth_uid s) || has_role db (auth_uid s) admin.

(** The access decision on a ledger line: which existing rows a statement
    or query of the session reaches, and which new rows it may write. *)
Definition entry_visible (s : session) (db : database) (e : entry) : bool :=
  row_security_using transaction_entries_policies s db e.

Definition entry_writable (s : session) (db : database) (e : entry) : bool :=
  row_security_with_check transaction_entries_policies s db e.

Definition header_visible (s : session) (db : database) (h : header) : bool :=
  row_security_using transactions_policies s db h.

Definition header_writable (s : session) (db : database) (h : header) : bool :=
  row_security_with_check transactions_policies s db h.

(** ** The validation function *)

Inductive trigger_event : Type :=
| ev_INSERT (NEW : entry)
| ev_UPDATE (OLD NEW : entry)
| ev_DELETE (OLD : entry).

Inductive plpgsql_result : Type :=
| RETURN_NULL
| RAISE_EXCEPTION (message : string).

Definition msg_too_few_lines : string :=
  "Cada lançamento deve ter pelo menos duas linhas (débito e crédito)".

Definition msg_unbalanced : string :=
  "Soma dos valores das linhas do lançamento deve ser igual a zero".

(** [v_tx_id]: [NEW.transaction_id] for INSERT and UPDATE, else
    [OLD.transaction_id]. *)
Definition v_tx_id (ev : trigger_event) : uuid :=
  match ev with
  | ev_INSERT NEW => transaction_entries.transaction_id NEW
  | ev_UPDATE _ NEW => transaction_entries.transaction_id NEW
  | ev_DELETE OLD => transaction_entries.transaction_id OLD
  end.

(** Every stored line of a header. *)
Definition all_lines (db : database) (tx : uuid) : list entry :=
  filter (fun e => (transaction_entries.transaction_id e =? tx)%N) (entries_tbl db).

(** [FROM public.transaction_entries WHERE transaction_id = v_tx_id], as the
    function reads it: it is not SECURITY DEFINER, so the query runs under
    the row security of the session whose commit fires the trigger. *)
Definition lines_of (s : session) (db : database) (tx : uuid) : list entry :=
  filter (entry_visible s db) (all_lines db tx).

Definition v_sum (s : session) (db : database) (tx : uuid) : Numeric.t :=
  COALESCE (SUM (map transaction_entries.amount (lines_of s db tx))) Numeric.zero.

Definition v_count (s : session) (db : database) (tx : uuid) : Z :=
  COUNT (lines_of s db tx).

(** [public.validate_transaction_entries()] *)
Definition validate_transaction_entries
  (s : session) (db : database) (ev : trigger_event) : plpgsql_result :=
  let tx := v_tx_id ev in
  if (v_count s db tx <? 2)%Z then RAISE_EXCEPTION msg_too_few_lines
  else if Numeric.neqb (v_sum s db tx) Numeric.zero then RAISE_EXCEPTION msg_unbalanced
  else RETURN_NULL.

(** ** Statements, the deferred trigger queue and commit *)

Inductive sql_error : Type :=
| unique_violation
| foreign_key_violation
| row_security_violation
| raise_exception (message : string).

Inductive result (A : Type) : Type :=
| OK (a : A)
| Error (e : sql_error).
Arguments OK {A} a.
Arguments Error {A} e.

Definition bind {A B : Type} (r : result A) (k : A -> result B) : result B :=
  match r with
  | OK a => k a
  | Error e => Error e
  end.

Notation "x <- r ;; k" := (bind r (fun x => k))
  (at level 61, r at next level, right associativity).

(** An open ambient transaction: the rows as the session now sees its own
    writes, and the row events queued for
    [validate_transaction_entries_trigger]
    ([AFTER INSERT OR UPDATE OR DELETE ... DEFERRABLE INITIALLY DEFERRED FOR EACH ROW]). *)
Record txn : Type := mktxn {
  cur : database;
  pending : list trigger_event
}.

Inductive statement : Type :=
| INSERT_transaction_entries (rows : list entry)
| UPDATE_transaction_entries (where_ : entry -> bool) (set : entry -> entry)
| DELETE_transaction_entries (where_ : entry -> bool)
| INSERT_transactions (rows : list header)
| UPDATE_transactions (where_ : header -> bool) (set : header -> header)
| DELETE_transactions (where_ : header -> bool).

Definition mem (x : uuid) (l : list uuid) : bool := existsb (N.eqb x) l.

Fixpoint distinct (l : list uuid) : bool :=
  match l with
  | [] => true
  | x :: r => negb (mem x r) && distinct r
  end.

Definition entry_ids (db : database) : list uuid :=
  map transaction_entries.id (entries_tbl db).

Definition header_ids (db : database) : list uuid :=
  map transactions.id (transactions_tbl db).

(** The two foreign keys of a line the model checks. *)
Definition references_ok (db : database) (e : entry) : bool :=
  mem (transaction_entries.transaction_id e) (header_ids db)
  && mem (transaction_entries.account_id e) (accounts_tbl db).

Definition insert_entry (s : session) (t : txn) (r : entry) : result txn :=
  let db := cur t in
  if negb (entry_writable s db r) then Error row_security_violation
  else if mem (transaction_entries.id r) (entry_ids db) then Error unique_violation
  else if negb (references_ok db r) then Error foreign_key_violation
  else OK (mktxn (with_entries db (entries_tbl db ++ [r]))
                 (pending t ++ [ev_INSERT r])).

Definition insert_header (s : session) (t : txn) (r : header) : result txn :=
  let db := cur t in
  if negb (header_writable s db r) then Error row_security_violation
  else if mem (transactions.id r) (header_ids db) then Error unique_violation
  else OK (mktxn (with_transactions db (transactions_tbl db ++ [r])) (pending t)).

Fixpoint insert_all {R : Type} (ins : txn -> R -> result txn)
  (t : txn) (rows : list R) : result txn :=
  match rows with
  | [] => OK t
  | r :: rest => t' <- ins t r ;; insert_all ins t' rest
  end.

Definition update_entries (s : session) (t : txn)
  (where_ : entry -> bool) (set : entry -> entry) : result txn :=
  let db := cur t in
  let hit e := where_ e && entry_visible s db e in
  let olds := filter hit (entries_tbl db) in
  let db' := with_entries db (map (fun e => if hit e then set e else e) (entries_tbl db)) in
  if negb (forallb (fun e => entry_writable s db (set e)) olds)
  then Error row_security_violation
  else if negb (distinct (entry_ids db')) then Error unique_violation
  else if negb (forallb (fun e => references_ok db (set e)) olds)
  then Error foreign_key_violation
  else OK (mktxn db' (pending t ++ map (fun e => ev_UPDATE e (set e)) olds)).

Definition delete_entries (s : session) (t : txn) (where_ : entry -> bool) : result txn :=
  let db := cur t in
  let hit e := where_ e && entry_visible s db e in
  OK (mktxn (with_entries db (filter (fun e => negb (hit e)) (entries_tbl db)))
            (pending t ++ map ev_DELETE (filter hit (entries_tbl db)))).

(** A header's key may not change while lines reference it (the foreign key
    has no ON UPDATE action). *)
Definition update_headers (s : session) (t : txn)
  (where_ : header -> bool) (set : header -> header) : result txn :=
  let db := cur t in
  let hit h := where_ h && header_visible s db h in
  let olds := filter hit (transactions_tbl db) in
  let db' := with_transactions db
               (map (fun h => if hit h then set h else h) (transactions_tbl db)) in
  if negb (forallb (fun h => header_writable s db (set h)) olds)
  then Error row_security_violation
  else if negb (distinct (header_ids db')) then Error unique_violation
  else if existsb (fun h => negb (transactions.id (set h) =? transactions.id h)%N
                            && negb (match all_lines db (transactions.id h) with
                                     | [] => true
                                     | _ => false
                                     end)) olds
  then Error foreign_key_violation
  else OK (mktxn db' (pending t)).

(** [ON DELETE CASCADE]: the lines of a deleted header are deleted with it,
    whatever the session's row security on the lines, and each of them is a
    row DELETE on [transaction_entries], queued like any other. *)
Definition delete_headers (s : session) (t : txn) (where_ : header -> bool) : result txn :=
  let db := cur t in
  let hit h := where_ h && header_visible s db h in
  let gone := map transactions.id (filter hit (transactions_tbl db)) in
  let cascaded e := mem (transaction_entries.transaction_id e) gone in
  OK (mktxn (mkdb (user_roles_tbl db) (company_users_tbl db) (accounts_tbl db)
                  (filter (fun h => negb (hit h)) (transactions_tbl db))
                  (filter (fun e => negb (cascaded e)) (entries_tbl db)))
            (pending t ++ map ev_DELETE (filter cascaded (entries_tbl db)))).

Definition exec (s : session) (t : txn) (st : statement) : result txn :=
  match st with
  | INSERT_transaction_entries rows => insert_all (insert_entry s) t rows
  | UPDATE_transaction_entries w f => update_entries s t w f
  | DELETE_transaction_entries w => delete_entries s t w
  | INSERT_transactions rows => insert_all (insert_header s) t rows
  | UPDATE_transactions w f => update_headers s t w f
  | DELETE_transactions w => delete_headers s t w
  end.

Fixpoint exec_all (s : session) (t : txn) (sts : list statement) : result txn :=
  match sts with
  | [] => OK t
  | st :: rest => t' <- exec s t st ;; exec_all s t' rest
  end.

(** [SELECT * FROM public.transaction_entries WHERE ...] *)
Definition SELECT_transaction_entries (s : session) (db : database)
  (where_ : entry -> bool) : list entry :=
  filter (fun e => where_ e && entry_visible s db e) (entries_tbl db).

(** At COMMIT the queued events fire in order, each running the validation
    function on the rows as they are now; the first exception stops the
    firing.  The first component lists the header of every invocation. *)
Fixpoint fire_deferred (s : session) (db : database) (q : list trigger_event)
  : list uuid * plpgsql_result :=
  match q with
  | [] => ([], RETURN_NULL)
  | ev :: rest =>
      match validate_transaction_entries s db ev with
      | RAISE_EXCEPTION m => ([v_tx_id ev], RAISE_EXCEPTION m)
      | RETURN_NULL =>
          let (log, r) := fire_deferred s db rest in (v_tx_id ev :: log, r)
      end
  end.

Inductive outcome : Type :=
| Committed
| Aborted (e : sql_error).

(** One ambient transaction from [BEGIN] to [COMMIT]: a failing statement or
    an exception of the deferred trigger aborts it and leaves the database
    as it was. *)
Definition run_transaction (s : session) (db : database) (sts : list statement)
  : outcome * database :=
  match exec_all s (mktxn db []) sts with
  | Error e => (Aborted e, db)
  | OK t =>
      match snd (fire_deferred s (cur t) (pending t)) with
      | RETURN_NULL => (Committed, cur t)
      | RAISE_EXCEPTION m => (Aborted (raise_exception m), db)
      end
  end.

(** The invocations of the validation function at the commit of a
    transaction whose statements all ran. *)
Definition invocations (s : session) (db : database) (sts : list statement) : list uuid :=
  match exec_all s (mktxn db []) sts with
  | Error _ => []
  | OK t => fst (fire_deferred s (cur t) (pending t))
  end.

(** A history of transactions, each committed or rolled back. *)
Fixpoint run_history (db : database) (h : list (session * list statement)) : database :=
  match h with
  | [] => db
  | (s, sts) :: rest => run_history (snd (run_transaction s db sts)) rest
  end.

(** ** Vocabulary of the specification *)

(** The two violations of the balance check and the error each surfaces as. *)
Inductive Violation : Type := TooFewLines | Unbalanced.

Definition surfaced (v : Violation) : sql_error :=
  match v with
  | TooFewLines => raise_exception msg_too_few_lines
  | Unbalanced => raise_exception msg_unbalanced
  end.

Definition line_count (db : database) (tx : uuid) : Z := COUNT (all_lines db tx).

Definition line_sum (db : database) (tx : uuid) : Numeric.t :=
  COALESCE (SUM (map transaction_entries.amount (all_lines db tx))) Numeric.zero.

(** The core contract for one header: it has no line, or at least two lines
    summing to zero. *)
Definition header_ok (db : database) (tx : uuid) : bool :=
  match all_lines db tx with
  | [] => true
  | _ => (2 <=? line_count db tx)%Z && Numeric.is_zero (line_sum db tx)
  end.

Definition ledger_invariant (db : database) : bool :=
  forallb (fun e => header_ok db (transaction_entries.transaction_id e)) (entries_tbl db).

(** The session's row security hides none of the header's lines. *)
Definition sees_lines (s : session) (db : database) (tx : uuid) : Prop :=
  forall e, In e (all_lines db tx) -> entry_visible s db e = true.

(** The denormalised tenant of every line is its header's. *)
Definition tenant_consistent (db : database) : bool :=
  forallb (fun e =>
    forallb (fun h =>
      negb (transactions.id h =? transaction_entries.transaction_id e)%N
      || (transaction_entries.company_id e =? transactions.company_id h)%N)
      (transactions_tbl db))
    (entries_tbl db).

(** The statements on ledger lines that leave the tenant of a line alone:
    an INSERT whose rows carry the tenant of the header they name, an UPDATE
    that changes neither [transaction_id] nor [company_id], any DELETE. *)
Definition keeps_tenant (db : database) (st : statement) : Prop :=
  match st with
  | INSERT_transaction_entries rows =>
      forall r h, In r rows -> In h (transactions_tbl db) ->
        transactions.id h = transaction_entries.transaction_id r ->
        transaction_entries.company_id r = transactions.company_id h
  | UPDATE_transaction_entries _ f =>
      forall e, transaction_entries.transaction_id (f e) = transaction_entries.transaction_id e
                /\ transaction_entries.company_id (f e) = transaction_entries.company_id e
  | DELETE_transaction_entries _ => True
  | _ => False
  end.

(** An UPDATE of lines that leaves every row under its header; the other
    statements always do. *)
Definition keeps_header (st : statement) : Prop :=
  match st with
  | UPDATE_transaction_entries _ f =>
      forall e, transaction_entries.transaction_id (f e)
                = transaction_entries.transaction_id e
  | _ => True
  end.

Definition on_transaction_entries (st : statement) : bool :=
  match st with
  | INSERT_transaction_entries _
  | UPDATE_transaction_entries _ _
  | DELETE_transaction_entries _ => true
  | _ => false
  end.

(** The rows of tenant [company] among the ledger lines. *)
Definition tenant_lines (db : database) (company : uuid) : list entry :=
  filter (fun e => (transaction_entries.company_id e =? company)%N) (entries_tbl db).

(** Every header with a queued check has no line left. *)
Definition queued_headers_empty (t : txn) : Prop :=
  forall ev, In ev (pending t) -> all_lines (cur t) (v_tx_id ev) = [].

(** *** The scheduler as the specification words it *)

Module Spec.

(** [check(headerId)] of the Balance Invariant Checker. *)
Definition check (s : session) (db : database) (headerId : uuid) : option Violation :=
  if (v_count s db headerId <? 2)%Z then Some TooFewLines
  else if Numeric.neqb (v_sum s db headerId) Numeric.zero then Some Unbalanced
  else None.

(** The dirty headers of an ambient transaction, duplicates collapsed, in
    the order they were first touched. *)
Fixpoint dirty_from (seen : list uuid) (q : list trigger_event) : list uuid :=
  match q with
  | [] => []
  | ev :: rest =>
      if mem (v_tx_id ev) seen then dirty_from seen rest
      else v_tx_id ev :: dirty_from (v_tx_id ev :: seen) rest
  end.

Definition dirty_headers (q : list trigger_event) : list uuid := dirty_from [] q.

(** On Committing: run the checker for each dirty header; the first
    violation aborts. *)
Fixpoint committing (s : session) (db : database) (dirty : list uuid)
  : option Violation :=
  match dirty with
  | [] => None
  | h :: rest =>
      match check s db h with
      | Some v => Some v
      | None => committing s db rest
      end
  end.

(** The structured failure of section 6: the exception message names the
    header, and for an unbalanced header gives the sum. *)
Definition failure_names_header : Prop :=
  exists header_of : string -> uuid,
    forall s db ev m,
      validate_transaction_entries s db ev = RAISE_EXCEPTION m ->
      header_of m = v_tx_id ev.

Definition failure_includes_sum : Prop :=
  exists sum_of : string -> Numeric.t,
    forall s db ev,
      validate_transaction_entries s db ev = RAISE_EXCEPTION msg_unbalanced ->
      Numeric.eqb (sum_of msg_unbalanced) (v_sum s db (v_tx_id ev)) = true.

(** One check per distinct affected header at a commit that passes. *)
Definition checked_once_per_header
  (s : session) (db : database) (sts : list statement) : Prop :=
  forall h, In h (invocations s db sts) ->
    count_occ N.eq_dec (invocations s db sts) h = 1%nat.

(** [canAccess(principal, tenantId)]: a membership, or the global admin
    capability. *)
Definition canAccess (s : session) (db : database) (tenantId : uuid) : bool :=
  company_member db tenantId (auth_uid s) || has_role db (auth_uid s) admin.

End Spec.

Definition as_result (v : option Violation) : plpgsql_result :=
  match v with
  | None => RETURN_NULL
  | Some TooFewLines => RAISE_EXCEPTION msg_too_few_lines
  | Some Unbalanced => RAISE_EXCEPTION msg_unbalanced
  end.

(** ** The rows the transaction form writes *)

(** A line of the form after [onSubmit] has signed its amount. *)
Record signedLine : Type := mksignedLine {
  sl_account_id : uuid;
  sl_cost_center_id : option uuid;
  sl_amount : Numeric.t
}.

(** The payload of [supabase.from("transaction_entries").insert(...)] in
    [onSubmit]; [gen] stands for the identifiers [gen_random_uuid()] gives the
    rows, the [k]-th row on. *)
Fixpoint onSubmit_rows (gen : nat -> uuid) (k : nat)
  (transactionId currentCompany_id : uuid) (signedLines : list signedLine) : list entry :=
  match signedLines with
  | [] => []
  | line :: rest =>
      transaction_entries.mk (gen k) transactionId currentCompany_id
        (sl_account_id line) (sl_cost_center_id line) (sl_amount line)
      :: onSubmit_rows gen (S k) transactionId currentCompany_id rest
  end.

(** A row with another amount, all else equal. *)
Definition with_amount (e : entry) (a : Numeric.t) : entry :=
  transaction_entries.mk (transaction_entries.id e)
    (transaction_entries.transaction_id e) (transaction_entries.company_id e)
    (transaction_entries.account_id e) (transaction_entries.cost_center_id e) a.

(** ** Sample data *)

Module Sample.

Local Open Scope N_scope.

Definition service_role : session := mksession None true.
(** A user with rows in [company_users] for companies 1 and 2. *)
Definition member : session := mksession (Some 100) false.
(** A user with the global admin role and no membership. *)
Definition global_admin : session := mksession (Some 200) false.

Definition line (i tx company account : uuid) (amount : Numeric.t) : entry :=
  transaction_entries.mk i tx company account None amount.

Definition head (i company : uuid) : header :=
  transactions.mk i company (Numeric.Fin 10000 2) "venda".

Definition tx_is (h : uuid) (e : entry) : bool :=
  (transaction_entries.transaction_id e =? h)%N.

Definition id_is (i : uuid) (e : entry) : bool :=
  (transaction_entries.id e =? i)%N.

Definition header_is (i : uuid) (h : header) : bool :=
  (transactions.id h =? i)%N.

(** No header and no line yet. *)
Definition db0 : database :=
  mkdb [user_roles.mk 200 admin]
       [company_users.mk 1 100 collaborator; company_users.mk 2 100 accountant]
       [10; 11] [] [].

(** Headers 1 and 2 of company 1, each with two balancing lines. *)
Definition setup : list statement :=
  [ INSERT_transactions [head 1 1; head 2 1];
    INSERT_transaction_entries
      [ line 1 1 1 10 (Numeric.Fin 10000 2); line 2 1 1 11 (Numeric.Fin (-10000) 2);
        line 3 2 1 10 (Numeric.Fin 50 0); line 4 2 1 11 (Numeric.Fin (-5000) 2) ] ].

Definition db1 : database :=
  Eval vm_compute in snd (run_transaction service_role db0 setup).

(** Line 1 moves from header 1 to header 2 with amount 0. *)
Definition move_line : list statement :=
  [ UPDATE_transaction_entries (id_is 1)
      (fun e => transaction_entries.mk (transaction_entries.id e) 2
                  (transaction_entries.company_id e) (transaction_entries.account_id e)
                  (transaction_entries.cost_center_id e) (Numeric.Fin 0 0)) ].

(** The edit pattern: all lines of header 1 out, three new lines in. *)
Definition new_lines : list entry :=
  [ line 5 1 1 10 (Numeric.Fin 30000 2); line 6 1 1 11 (Numeric.Fin (-150) 0);
    line 7 1 1 11 (Numeric.Fin (-1500) 1) ].

Definition replace_lines : list statement :=
  [ DELETE_transaction_entries (tx_is 1); INSERT_transaction_entries new_lines ].

(** A header with one line only. *)
Definition one_line : list statement :=
  [ INSERT_transactions [head 3 1];
    INSERT_transaction_entries [ line 8 3 1 10 (Numeric.Fin 5000 2) ] ].

(** A header with two lines summing to 10.00. *)
Definition off_by_ten : list statement :=
  [ INSERT_transactions [head 3 1];
    INSERT_transaction_entries
      [ line 8 3 1 10 (Numeric.Fin 10000 2); line 9 3 1 11 (Numeric.Fin (-9000) 2) ] ].

(** A header with two lines summing to 20.00. *)
Definition off_by_twenty : list statement :=
  [ INSERT_transactions [head 4 1];
    INSERT_transaction_entries
      [ line 8 4 1 10 (Numeric.Fin 10000 2); line 9 4 1 11 (Numeric.Fin (-8000) 2) ] ].

(** Two lines of amount zero, at different scales. *)
Definition zero_lines : list statement :=
  [ INSERT_transactions [head 3 1];
    INSERT_transaction_entries
      [ line 8 3 1 10 (Numeric.Fin 0 0); line 9 3 1 11 (Numeric.Fin 0 2) ] ].

(** Lines of company 2 under a header of company 1. *)
Definition foreign_lines : list statement :=
  [ INSERT_transactions [head 3 1];
    INSERT_transaction_entries
      [ line 8 3 2 10 (Numeric.Fin 10000 2); line 9 3 2 11 (Numeric.Fin (-10000) 2) ] ].

(** Two lines of one thousandth each way. *)
Definition thousandths : list statement :=
  [ INSERT_transactions [head 3 1];
    INSERT_transaction_entries
      [ line 8 3 1 10 (Numeric.Fin 1 3); line 9 3 1 11 (Numeric.Fin (-1) 3) ] ].

(** The lines of header 1 re-tagged with company 2. *)
Definition retag : list statement :=
  [ UPDATE_transaction_entries (tx_is 1)
      (fun e => transaction_entries.mk (transaction_entries.id e)
                  (transaction_entries.transaction_id e) 2
                  (transaction_entries.account_id e)
                  (transaction_entries.cost_center_id e)
                  (transaction_entries.amount e)) ].

Definition delete_header : list statement := [ DELETE_transactions (header_is 1) ].

End Sample.

From Stdlib Require Import Permutation.

(** ** Further vocabulary *)

(** The headers of tenant [company]. *)
Definition tenant_headers (db : database) (company : uuid) : list header :=
  filter (fun h => (transactions.company_id h =? company)%N) (transactions_tbl db).

(** What the keys of the two tables ask of a stored state: the primary keys
    are unique, and every line names a stored header and a stored account. *)
Definition integrity (db : database) : Prop :=
  distinct (entry_ids db) = true
  /\ distinct (header_ids db) = true
  /\ forall e, In e (entries_tbl db) -> references_ok db e = true.

(** A statement other than a DELETE on [transactions]. *)
Definition no_header_delete (st : statement) : Prop :=
  match st with
  | DELETE_transactions _ => False
  | _ => True
  end.

(** A history in which no UPDATE moves a line to another header. *)
Definition no_moves (h : list (session * list statement)) : Prop :=
  Forall (fun p => Forall keeps_header (snd p)) h.

(** ** Principals, companies and their policies *)

(** [public.companies]: key, name and the checked regime. *)
Module companies.
Record row : Type := mk {
  id : uuid;
  name : string;
  default_regime : option string
}.
End companies.

(** The tables the ledger model leaves out: [auth.users] (by key) and
    [public.companies], beside the database of the ledger. *)
Record realm : Type := mkrealm {
  realm_db : database;
  auth_users_tbl : list uuid;
  companies_tbl : list companies.row
}.

Definition with_db (a : realm) (db : database) : realm :=
  mkrealm db (auth_users_tbl a) (companies_tbl a).

Definition with_company_users (db : database) (cus : list company_users.row) : database :=
  mkdb (user_roles_tbl db) cus (accounts_tbl db) (transactions_tbl db) (entries_tbl db).

Inductive command : Type := FOR_SELECT | FOR_INSERT | FOR_UPDATE | FOR_DELETE.

Definition command_eqb (a b : command) : bool :=
  match a, b with
  | FOR_SELECT, FOR_SELECT | FOR_INSERT, FOR_INSERT
  | FOR_UPDATE, FOR_UPDATE | FOR_DELETE, FOR_DELETE => true
  | _, _ => false
  end.

(** A policy as CREATE POLICY states it: permissive or restrictive, the
    command it is for ([None]: ALL), and the USING and WITH CHECK expressions
    it gives. *)
Record table_policy (R : Type) : Type := mktable_policy {
  tp_permissive : bool;
  tp_for : option command;
  tp_using : option (session -> database -> R -> bool);
  tp_with_check : option (session -> database -> R -> bool)
}.
Arguments mktable_policy {R} _ _ _ _.
Arguments tp_permissive {R} _.
Arguments tp_for {R} _.
Arguments tp_using {R} _.
Arguments tp_with_check {R} _.

Definition applies {R : Type} (c : command) (p : table_policy R) : bool :=
  match tp_for p with
  | None => true
  | Some c' => command_eqb c c'
  end.

(** A policy without USING restricts no existing row; one without WITH CHECK
    checks new rows by its USING. *)
Definition using_qual {R : Type} (p : table_policy R)
  (s : session) (db : database) (r : R) : bool :=
  match tp_using p with
  | Some f => f s db r
  | None => true
  end.

Definition check_qual {R : Type} (p : table_policy R)
  (s : session) (db : database) (r : R) : bool :=
  match tp_with_check p with
  | Some f => f s db r
  | None => using_qual p s db r
  end.

(** The policies that apply to a command pass when a permissive one passes
    and every restrictive one does. *)
Definition policies_pass {R : Type} (ps : list (table_policy R)) (c : command)
  (qual : table_policy R -> bool) : bool :=
  existsb (fun p => tp_permissive p && qual p) (filter (applies c) ps)
  && forallb (fun p => tp_permissive p || qual p) (filter (applies c) ps).

Definition can_select {R : Type} (ps : list (table_policy R))
  (s : session) (db : database) (r : R) : bool :=
  bypass_rls s || policies_pass ps FOR_SELECT (fun p => using_qual p s db r).

(** A new row; with RETURNING it must be readable too. *)
Definition can_insert {R : Type} (ps : list (table_policy R)) (returning : bool)
  (s : session) (db : database) (r : R) : bool :=
  bypass_rls s
  || (policies_pass ps FOR_INSERT (fun p => check_qual p s db r)
      && (negb returning
          || policies_pass ps FOR_SELECT (fun p => using_qual p s db r))).

(** The rows an UPDATE or DELETE with a WHERE clause reaches, and the rows an
    UPDATE may leave. *)
Definition can_update_old {R : Type} (ps : list (table_policy R))
  (s : session) (db : database) (r : R) : bool :=
  bypass_rls s
  || (policies_pass ps FOR_UPDATE (fun p => using_qual p s db r)
      && policies_pass ps FOR_SELECT (fun p => using_qual p s db r)).

Definition can_update_new {R : Type} (ps : list (table_policy R))
  (s : session) (db : database) (r : R) : bool :=
  bypass_rls s
  || (policies_pass ps FOR_UPDATE (fun p => check_qual p s db r)
      && policies_pass ps FOR_SELECT (fun p => using_qual p s db r)).

Definition can_delete {R : Type} (ps : list (table_policy R))
  (s : session) (db : database) (r : R) : bool :=
  bypass_rls s
  || (policies_pass ps FOR_DELETE (fun p => using_qual p s db r)
      && policies_pass ps FOR_SELECT (fun p => using_qual p s db r)).

(** [auth.uid() = user_id] *)
Definition uid_is (s : session) (u : uuid) : bool :=
  match auth_uid s with
  | Some v => (v =? u)%N
  | None => false
  end.

(** ["Users can view own roles" on public.user_roles for select] *)
Definition user_roles_policies : list (table_policy user_roles.row) :=
  [ mktable_policy true (Some FOR_SELECT)
      (Some (fun s _ r => uid_is s (user_roles.user_id r))) None ].

(** ["Users see own company links" for select] and
    ["Admins manage company_users" FOR ALL]. *)
Definition company_users_policies : list (table_policy company_users.row) :=
  [ mktable_policy true (Some FOR_SELECT)
      (Some (fun s _ r => uid_is s (company_users.user_id r))) None;
    mktable_policy true None
      (Some (fun s db _ => has_role db (auth_uid s) admin))
      (Some (fun s db _ => has_role db (auth_uid s) admin)) ].

(** ["Members can view their companies" for select] and
    ["Company members manage companies" FOR ALL]. *)
Definition companies_policies : list (table_policy companies.row) :=
  [ mktable_policy true (Some FOR_SELECT)
      (Some (fun s db c => company_member db (companies.id c) (auth_uid s))) None;
    mktable_policy true None
      (Some (fun s db c => Company_members_manage_companies_qual s db (companies.id c)))
      (Some (fun s db c => Company_members_manage_companies_qual s db (companies.id c))) ].

Inductive realm_error : Type :=
| violates (e : sql_error)
| check_violation
| invalid_text_representation
| auth_api_error.

Inductive attempt (A : Type) : Type :=
| Done (a : A)
| Failed (e : realm_error).
Arguments Done {A} a.
Arguments Failed {A} e.

(** One request on these tables: a single statement, committed at once.
    The kinds are INSERT, UPDATE and DELETE on [user_roles] and on
    [company_users], and INSERT on [companies]; UPDATE and DELETE on
    [companies], with their cascades, are left out. *)
Inductive realm_statement : Type :=
| INSERT_user_roles (r : user_roles.row)
| UPDATE_user_roles (where_ : user_roles.row -> bool) (set : user_roles.row -> user_roles.row)
| DELETE_user_roles (where_ : user_roles.row -> bool)
| INSERT_company_users (r : company_users.row)
| UPDATE_company_users (where_ : company_users.row -> bool)
    (set : company_users.row -> company_users.row)
| DELETE_company_users (where_ : company_users.row -> bool)
| INSERT_companies (returning : bool) (r : companies.row).

(** [unique (user_id, role)] and [unique (company_id, user_id)], as keys. *)
Definition user_roles_key (r : user_roles.row) : uuid * app_role :=
  (user_roles.user_id r, user_roles.role r).

Definition company_users_key (r : company_users.row) : uuid * uuid :=
  (company_users.company_id r, company_users.user_id r).

Definition role_key_eqb (a b : uuid * app_role) : bool :=
  (fst a =? fst b)%N && app_role_eqb (snd a) (snd b).

Definition link_key_eqb (a b : uuid * uuid) : bool :=
  (fst a =? fst b)%N && (snd a =? snd b)%N.

Fixpoint unique_by {K : Type} (eqb : K -> K -> bool) (l : list K) : bool :=
  match l with
  | [] => true
  | x :: r => negb (existsb (eqb x) r) && unique_by eqb r
  end.

Definition company_ids (a : realm) : list uuid :=
  map companies.id (companies_tbl a).

(** [default_regime text check (default_regime in ('cash','accrual'))] *)
Definition default_regime_ok (c : companies.row) : bool :=
  match companies.default_regime c with
  | None => true
  | Some r => String.eqb r "cash" || String.eqb r "accrual"
  end.

Definition with_user_roles_in (a : realm) (urs : list user_roles.row) : realm :=
  with_db a (with_user_roles (realm_db a) urs).

Definition with_company_users_in (a : realm) (cus : list company_users.row) : realm :=
  with_db a (with_company_users (realm_db a) cus).

Definition exec_realm (s : session) (a : realm) (st : realm_statement) : attempt realm :=
  let db := realm_db a in
  match st with
  | INSERT_user_roles r =>
      if negb (can_insert user_roles_policies false s db r)
      then Failed (violates row_security_violation)
      else if existsb (role_key_eqb (user_roles_key r))
                (map user_roles_key (user_roles_tbl db))
      then Failed (violates unique_violation)
      else if negb (mem (user_roles.user_id r) (auth_users_tbl a))
      then Failed (violates foreign_key_violation)
      else Done (with_user_roles_in a (user_roles_tbl db ++ [r]))
  | UPDATE_user_roles w f =>
      let hit r := w r && can_update_old user_roles_policies s db r in
      let olds := filter hit (user_roles_tbl db) in
      let rows' := map (fun r => if hit r then f r else r) (user_roles_tbl db) in
      if negb (forallb (fun r => can_update_new user_roles_policies s db (f r)) olds)
      then Failed (violates row_security_violation)
      else if negb (unique_by role_key_eqb (map user_roles_key rows'))
      then Failed (violates unique_violation)
      else if negb (forallb (fun r => mem (user_roles.user_id (f r)) (auth_users_tbl a)) olds)
      then Failed (violates foreign_key_violation)
      else Done (with_user_roles_in a rows')
  | DELETE_user_roles w =>
      let hit r := w r && can_delete user_roles_policies s db r in
      Done (with_user_roles_in a (filter (fun r => negb (hit r)) (user_roles_tbl db)))
  | INSERT_company_users r =>
      if negb (can_insert company_users_policies false s db r)
      then Failed (violates row_security_violation)
      else if existsb (link_key_eqb (company_users_key r))
                (map company_users_key (company_users_tbl db))
      then Failed (violates unique_violation)
      else if negb (mem (company_users.company_id r) (company_ids a)
                    && mem (company_users.user_id r) (auth_users_tbl a))
      then Failed (violates foreign_key_violation)
      else Done (with_company_users_in a (company_users_tbl db ++ [r]))
  | UPDATE_company_users w f =>
      let hit r := w r && can_update_old company_users_policies s db r in
      let olds := filter hit (company_users_tbl db) in
      let rows' := map (fun r => if hit r then f r else r) (company_users_tbl db) in
      if negb (forallb (fun r => can_update_new company_users_policies s db (f r)) olds)
      then Failed (violates row_security_violation)
      else if negb (unique_by link_key_eqb (map company_users_key rows'))
      then Failed (violates unique_violation)
      else if negb (forallb (fun r => mem (company_users.company_id (f r)) (company_ids a)
                                      && mem (company_users.user_id (f r)) (auth_users_tbl a))
                      olds)
      then Failed (violates foreign_key_violation)
      else Done (with_company_users_in a rows')
  | DELETE_company_users w =>
      let hit r := w r && can_delete company_users_policies s db r in
      Done (with_company_users_in a
              (filter (fun r => negb (hit r)) (company_users_tbl db)))
  | INSERT_companies returning c =>
      if negb (default_regime_ok c) then Failed check_violation
      else if negb (can_insert companies_policies returning s db c)
      then Failed (violates row_security_violation)
      else if mem (companies.id c) (company_ids a)
      then Failed (violates unique_violation)
      else Done (mkrealm db (auth_users_tbl a) (companies_tbl a ++ [c]))
  end.

Fixpoint exec_realm_all (s : session) (a : realm) (sts : list realm_statement) : realm :=
  match sts with
  | [] => a
  | st :: rest =>
      match exec_realm s a st with
      | Done a' => exec_realm_all s a' rest
      | Failed _ => exec_realm_all s a rest
      end
  end.

(** [SELECT ... FROM public.company_users WHERE ...] *)
Definition SELECT_company_users (s : session) (db : database)
  (where_ : company_users.row -> bool) : list company_users.row :=
  filter (fun r => where_ r && can_select company_users_policies s db r)
         (company_users_tbl db).

(** Every membership names a stored company. *)
Definition links_reference_companies (a : realm) : Prop :=
  forall cu, In cu (company_users_tbl (realm_db a)) ->
    In (company_users.company_id cu) (company_ids a).

(** ** Linking a new user to a company *)

(** A row of [auth.users] as the trigger function reads it: the key, and
    [raw_user_meta_data ->> key] as a function of the key (NULL: [None]). *)
Module auth_users.
Record row : Type := mk {
  id : uuid;
  raw_user_meta_data : string -> option string
}.
End auth_users.

(** Input of the enum [public.app_role]: one of its three labels, exactly. *)
Definition app_role_in (label : string) : option app_role :=
  if String.eqb label "admin" then Some admin
  else if String.eqb label "collaborator" then Some collaborator
  else if String.eqb label "accountant" then Some accountant
  else None.

Section NewUser.

(** Input of the type [uuid] from text, and [None] where PostgreSQL rejects
    the text. *)
Variable uuid_in : string -> option uuid.

(** [(text)::uuid] *)
Definition cast_uuid (t : option string) : attempt (option uuid) :=
  match t with
  | None => Done None
  | Some x =>
      match uuid_in x with
      | Some u => Done (Some u)
      | None => Failed invalid_text_representation
      end
  end.

(** [(text)::public.app_role] *)
Definition cast_app_role (t : option string) : attempt (option app_role) :=
  match t with
  | None => Done None
  | Some x =>
      match app_role_in x with
      | Some r => Done (Some r)
      | None => Failed invalid_text_representation
      end
  end.

(** [public.handle_new_user_company_link()], SECURITY DEFINER: its INSERT is
    not subject to the policies of [company_users]. *)
Definition handle_new_user_company_link (a : realm) (NEW : auth_users.row)
  : attempt realm :=
  match cast_uuid (auth_users.raw_user_meta_data NEW "company_id") with
  | Failed e => Failed e
  | Done v_company_id =>
      match cast_app_role (auth_users.raw_user_meta_data NEW "role") with
      | Failed e => Failed e
      | Done r =>
          let v_role := COALESCE r collaborator in
          match v_company_id with
          | None => Done a
          | Some c =>
              let link := company_users.mk c (auth_users.id NEW) v_role in
              if existsb (link_key_eqb (company_users_key link))
                   (map company_users_key (company_users_tbl (realm_db a)))
              then Failed (violates unique_violation)
              else if negb (mem c (company_ids a)
                            && mem (auth_users.id NEW) (auth_users_tbl a))
              then Failed (violates foreign_key_violation)
              else Done (with_company_users_in a
                           (company_users_tbl (realm_db a) ++ [link]))
          end
      end
  end.

(** The INSERT into [auth.users] with its trigger
    [on_auth_user_created_company_link]: an exception of the function undoes
    the insert. *)
Definition create_user (a : realm) (NEW : auth_users.row) : attempt realm :=
  if mem (auth_users.id NEW) (auth_users_tbl a)
  then Failed (violates unique_violation)
  else handle_new_user_company_link
         (mkrealm (realm_db a) (auth_users_tbl a ++ [auth_users.id NEW]) (companies_tbl a))
         NEW.

End NewUser.

(** ** What the pages do with these tables *)

(** The company part of [init] in [AuthProvider], for the signed-in user of
    the session; [new_company_id] is the key the database gives the company. *)
Definition init_companies (s : session) (a : realm) (new_company_id : uuid) : realm :=
  match auth_uid s with
  | None => a
  | Some user_id =>
      match SELECT_company_users s (realm_db a)
              (fun r => (company_users.user_id r =? user_id)%N) with
      | _ :: _ => a
      | [] =>
          match exec_realm s a
                  (INSERT_companies true
                     (companies.mk new_company_id "Empresa Principal" (Some "cash"%string))) with
          | Failed _ => a
          | Done a1 =>
              match exec_realm s a1
                      (INSERT_company_users
                         (company_users.mk new_company_id user_id admin)) with
              | Done a2 => a2
              | Failed _ => a1
              end
          end
      end
  end.

(** [onSubmit] and [confirmDelete] of the Users page, by the title of the
    toast they show; [currentCompany] is set. *)
Definition Users_onSubmit_new (s : session) (a : realm)
  (currentCompany user_id : uuid) (role : app_role) : string * realm :=
  match exec_realm s a
          (INSERT_company_users (company_users.mk currentCompany user_id role)) with
  | Failed _ => ("Erro ao criar vínculo"%string, a)
  | Done a' => ("Vínculo criado"%string, a')
  end.

Definition Users_onSubmit_edit (s : session) (a : realm)
  (editing : company_users.row -> bool) (role : app_role) : string * realm :=
  match exec_realm s a
          (UPDATE_company_users editing
             (fun r => company_users.mk (company_users.company_id r)
                         (company_users.user_id r) role)) with
  | Failed _ => ("Erro ao atualizar vínculo"%string, a)
  | Done a' => ("Vínculo atualizado"%string, a')
  end.

Definition Users_confirmDelete (s : session) (a : realm)
  (deleteId : company_users.row -> bool) : string * realm :=
  match exec_realm s a (DELETE_company_users deleteId) with
  | Failed _ => ("Erro ao remover vínculo"%string, a)
  | Done a' => ("Vínculo removido"%string, a')
  end.

(** ** Sample principals *)

Module SampleRealm.

Local Open Scope N_scope.

(** Users 100 (member of companies 1 and 2), 200 (global admin, no
    membership) and 300 (neither); companies 1 and 2. *)
Definition realm1 : realm :=
  mkrealm Sample.db1 [100; 200; 300]
    [companies.mk 1 "Aurora" (Some "cash"%string); companies.mk 2 "Boreal" None].

Definition newcomer : session := mksession (Some 300) false.

Definition attempts : list realm_statement :=
  [ INSERT_user_roles (user_roles.mk 300 admin);
    INSERT_company_users (company_users.mk 1 300 admin);
    UPDATE_company_users (fun _ => true)
      (fun r => company_users.mk (company_users.company_id r) 300 admin);
    DELETE_company_users (fun _ => true);
    DELETE_user_roles (fun _ => true);
    INSERT_companies false (companies.mk 7 "Minha" None) ].

(** A toy reading of uuid text, for the examples. *)
Definition toy_uuid_in (t : string) : option uuid :=
  if String.eqb t "00000000-0000-0000-0000-000000000001" then Some 1
  else if String.eqb t "00000000-0000-0000-0000-000000000002" then Some 2
  else None.

Definition meta (company role : option string) (key : string) : option string :=
  if String.eqb key "company_id" then company
  else if String.eqb key "role" then role
  else None.

End SampleRealm.

(** ** The transactions page *)


Inductive dialogMode : Type := mode_create | mode_edit | mode_duplicate.

(** [u * 10^-s] rounded to [s'] decimals, half away from zero. *)
Definition round_to (u : Z) (s s' : nat) : Z :=
  if (s <=? s')%nat then Numeric.rescale u s s'
  else
    let d := (10 ^ Z.of_nat (s - s'))%Z in
    (Z.sgn u * ((Z.abs u + d / 2) / d))%Z.

(** What the column [amount numeric(14,2) not null] of [transactions] makes
    of the number of a payload: rounded to two decimals, and refused from
    10^12 on.  A number that is not finite travels as null and is refused. *)
Definition numeric_14_2 (x : Numeric.t) : option Numeric.t :=
  match x with
  | Numeric.Fin u s =>
      let v := round_to u s 2 in
      if (Z.abs v <? 10 ^ 14)%Z then Some (Numeric.Fin v 2) else None
  | _ => None
  end.

(** The requests of [onSubmit] once the form's own checks have passed, by the
    title of the toast that ends it.  [totalDebits] and [description] are the
    values its header payload carries, [new_id] and [gen] the keys the
    database gives the new header and the new lines.  A payload amount the
    column does not take fails the header request. *)
Definition onSubmit_requests (s : session) (db : database) (currentCompany : uuid)
  (mode : dialogMode) (editingId : option uuid)
  (totalDebits : Numeric.t) (description : string)
  (new_id : uuid) (gen : nat -> uuid) (signedLines : list signedLine)
  : string * database :=
  let save_lines (transactionId : uuid) (db' : database) : string * database :=
    match run_transaction s db'
            [INSERT_transaction_entries
               (onSubmit_rows gen 0 transactionId currentCompany signedLines)] with
    | (Aborted _, db'') => ("Erro ao salvar linhas do lançamento"%string, db'')
    | (Committed, db'') =>
        (match mode with
         | mode_edit => "Lançamento atualizado com sucesso"%string
         | _ => "Lançamento registrado com sucesso"%string
         end, db'')
    end in
  match mode, editingId with
  | mode_edit, Some id =>
      match numeric_14_2 totalDebits with
      | None => ("Erro ao atualizar lançamento"%string, db)
      | Some amount =>
          match run_transaction s db
                  [UPDATE_transactions
                     (fun h => (transactions.id h =? id)%N
                               && (transactions.company_id h =? currentCompany)%N)
                     (fun h => transactions.mk (transactions.id h)
                                 (transactions.company_id h) amount description)] with
          | (Aborted _, db1) => ("Erro ao atualizar lançamento"%string, db1)
          | (Committed, db1) =>
              match run_transaction s db1
                      [DELETE_transaction_entries
                         (fun e => (transaction_entries.transaction_id e =? id)%N
                                   && (transaction_entries.company_id e =? currentCompany)%N)] with
              | (Aborted _, db2) => ("Erro ao atualizar linhas do lançamento"%string, db2)
              | (Committed, db2) => save_lines id db2
              end
          end
      end
  | _, _ =>
      match numeric_14_2 totalDebits with
      | None => ("Erro ao salvar lançamento"%string, db)
      | Some amount =>
          match run_transaction s db
                  [INSERT_transactions
                     [transactions.mk new_id currentCompany amount description]] with
          | (Aborted _, db1) => ("Erro ao salvar lançamento"%string, db1)
          | (Committed, db1) => save_lines new_id db1
          end
      end
  end.

(** ** The invite function *)

Module InvitePayload.
Record t : Type := mk {
  email : option string;
  role : option string;
  companyId : option string;
  redirectUrl : option string
}.
End InvitePayload.

(** A request as the handler reads it: the method, the Authorization header,
    and the body as [req.json()] gives it ([None]: reading it throws). *)
Record request : Type := mkrequest {
  method : string;
  Authorization : option string;
  json : option InvitePayload.t
}.

Inductive response_body : Type :=
| no_body
| error_body (message : string)
| auth_error_body (e : realm_error)
| user_body (id : uuid).

Record response : Type := mkresponse {
  status : nat;
  body : response_body
}.

(** [authHeader.replace("Bearer ", "")] for a header that starts so. *)
Definition token_of (authHeader : string) : string :=
  String.substring 7 (String.length authHeader - 7) authHeader.

(** The [data] of the invitation, as [raw_user_meta_data ->> key] reads it. *)
Definition invite_data (companyId role : string) (key : string) : option string :=
  if String.eqb key "company_id" then Some companyId
  else if String.eqb key "role" then Some role
  else None.

Section Invite.

(** The library calls the handler makes: the uuid input of the database, the
    user of a token ([auth.getUser]), and the string operations. *)
Variable uuid_in : string -> option uuid.
Variable getUser : string -> option uuid.
Variable trim : string -> string.
Variable toLowerCase : string -> string.
Variable js_length : string -> nat.

(** [auth.admin.inviteUserByEmail]: [new_user] is the key the invited user
    gets, [None] when the auth service refuses before it stores anything.
    The user is stored with the data as metadata, which runs the trigger on
    [auth.users]. *)
Definition inviteUserByEmail (a : realm) (new_user : option uuid)
  (companyId role : string) : attempt (uuid * realm) :=
  match new_user with
  | None => Failed auth_api_error
  | Some id =>
      match create_user uuid_in a (auth_users.mk id (invite_data companyId role)) with
      | Done a' => Done (id, a')
      | Failed e => Failed e
      end
  end.

(** The handler of [Deno.serve] in the function invite-user.  A field of the
    body fails [!x] when it is undefined or the empty string. *)
Definition serve (a : realm) (req : request) (new_user : option uuid)
  : response * realm :=
  if String.eqb (method req) "OPTIONS" then (mkresponse 200 no_body, a)
  else if negb (String.eqb (method req) "POST")
  then (mkresponse 405 (error_body "Método não permitido"), a)
  else
    match Authorization req with
    | None => (mkresponse 401 (error_body "Não autenticado"), a)
    | Some authHeader =>
        if negb (String.prefix "Bearer " authHeader)
        then (mkresponse 401 (error_body "Não autenticado"), a)
        else
          match getUser (token_of authHeader) with
          | None => (mkresponse 401 (error_body "Token inválido"), a)
          | Some user =>
              match json req with
              | None => (mkresponse 500 (error_body "Erro interno ao enviar convite"), a)
              | Some body =>
                  let email :=
                    option_map (fun e => toLowerCase (trim e)) (InvitePayload.email body) in
                  match email, InvitePayload.companyId body, InvitePayload.role body with
                  | Some email, Some companyId, Some role =>
                      if String.eqb email "" || String.eqb companyId ""
                         || String.eqb role ""
                      then (mkresponse 400 (error_body "Dados de convite inválidos"), a)
                      else if (255 <? js_length email)%nat
                      then (mkresponse 400 (error_body "E-mail muito longo"), a)
                      else if negb (has_role (realm_db a) (Some user) admin)
                      then (mkresponse 403 (error_body "Permissão negada"), a)
                      else
                        match inviteUserByEmail a new_user companyId role with
                        | Failed e => (mkresponse 400 (auth_error_body e), a)
                        | Done (id, a') => (mkresponse 200 (user_body id), a')
                        end
                  | _, _, _ =>
                      (mkresponse 400 (error_body "Dados de convite inválidos"), a)
                  end
              end
          end
    end.

End Invite.

Module SampleInvite.

Definition getUser (token : string) : option uuid :=
  if String.eqb token "t-admin" then Some 200%N
  else if String.eqb token "t-member" then Some 100%N
  else None.

Definition invite (token company : string) : request :=
  mkrequest "POST" (Some ("Bearer " ++ token)%string)
    (Some (InvitePayload.mk (Some "ana@example.com"%string) (Some "accountant"%string)
             (Some company) None)).

End SampleInvite.

(** ** Loading a transaction into the form *)

Inductive side : Type := debit | credit.

(** A line of the form; an empty string in an id field is [None]. *)
Record formLine : Type := mkformLine {
  fl_account_id : option uuid;
  fl_side : side;
  fl_cost_center_id : option uuid;
  fl_amount : string
}.

(** What [loadTransactionIntoForm] leaves in the dialog. *)
Record dialog : Type := mkdialog {
  dl_description : string;
  dl_lines : list formLine;
  dl_dialogMode : dialogMode;
  dl_editingId : option uuid
}.

(** [SELECT ... FROM public.transactions WHERE ...] *)
Definition SELECT_transactions (s : session) (db : database)
  (where_ : header -> bool) : list header :=
  filter (fun h => where_ h && header_visible s db h) (transactions_tbl db).

(** [line.amount >= 0] on the number of the response; the values that are
    not finite arrive as the strings NaN, Infinity and -Infinity. *)
Definition non_negative (x : Numeric.t) : bool :=
  match x with
  | Numeric.Fin u _ => (0 <=? u)%Z
  | Numeric.PInf => true
  | _ => false
  end.

Section Load.

(** [Math.abs(amount).toLocaleString("pt-BR", ...)] with two decimals. *)
Variable abs_toLocaleString : Numeric.t -> string.

(** [loadTransactionIntoForm], with [currentCompany] set: the title of the
    error toast, or the dialog it opens. *)
Definition loadTransactionIntoForm (s : session) (db : database)
  (currentCompany id : uuid) (mode : dialogMode) : string + dialog :=
  match SELECT_transactions s db
          (fun h => (transactions.id h =? id)%N
                    && (transactions.company_id h =? currentCompany)%N) with
  | [header] =>
      let entries :=
        SELECT_transaction_entries s db
          (fun e => (transaction_entries.transaction_id e =? id)%N
                    && (transaction_entries.company_id e =? currentCompany)%N) in
      let lines :=
        match entries with
        | [] => [ mkformLine None debit None "0,00";
                  mkformLine None credit None "0,00" ]
        | _ =>
            map (fun line =>
                   mkformLine (Some (transaction_entries.account_id line))
                     (if non_negative (transaction_entries.amount line)
                      then debit else credit)
                     (transaction_entries.cost_center_id line)
                     (abs_toLocaleString (transaction_entries.amount line)))
                entries
        end in
      inr (mkdialog (transactions.description header) lines mode
             (match mode with mode_edit => Some id | _ => None end))
  | _ => inl "Erro ao carregar lançamento"%string
  end.

End Load.
(** ** Basic facts *)

(** *** Lists *)

Lemma filter_all {A : Type} (f : A -> bool) (l : list A) :
  (forall x, In x l -> f x = true) -> filter f l = l.
Proof.
  induction l as [|x l IH]; intros H; simpl.
  - reflexivity.
  - rewrite (H x (or_introl eq_refl)). f_equal. apply IH.
    intros y Hy. apply H. now right.
Qed.

Lemma filter_none {A : Type} (f : A -> bool) (l : list A) :
  (forall x, In x l -> f x = false) -> filter f l = [].
Proof.
  induction l as [|x l IH]; intros H; simpl.
  - reflexivity.
  - rewrite (H x (or_introl eq_refl)). apply IH.
    intros y Hy. apply H. now right.
Qed.

Lemma filter_filter_none {A : Type} (f g : A -> bool) (l : list A) :
  (forall x, In x l -> g x = true -> f x = false) ->
  filter f (filter g l) = [].
Proof.
  intros H. apply filter_none. intros x Hx.
  apply filter_In in Hx. destruct Hx as [Hin Hg]. now apply H.
Qed.

Lemma filter_map_unaffected {A : Type} (p : A -> bool) (g : A -> A) (l : list A) :
  (forall x, In x l -> g x = x \/ (p x = false /\ p (g x) = false)) ->
  filter p (map g l) = filter p l.
Proof.
  induction l as [|x l IH]; intros H; cbn [map filter].
  - reflexivity.
  - rewrite IH by (intros y Hy; apply H; now right).
    destruct (H x (or_introl eq_refl)) as [->|[H1 H2]]; [reflexivity|].
    now rewrite H1, H2.
Qed.

Lemma filter_filter_unaffected {A : Type} (p hit : A -> bool) (l : list A) :
  (forall x, In x l -> hit x = true -> p x = false) ->
  filter p (filter (fun x => negb (hit x)) l) = filter p l.
Proof.
  induction l as [|x l IH]; intros H; cbn [filter].
  - reflexivity.
  - specialize (IH (fun y Hy => H y (or_intror Hy))).
    destruct (hit x) eqn:Eh; cbn [negb filter].
    + now rewrite IH, (H x (or_introl eq_refl) Eh).
    + now rewrite IH.
Qed.

Lemma mem_In (x : uuid) (l : list uuid) : mem x l = true <-> In x l.
Proof.
  unfold mem. rewrite existsb_exists. split.
  - intros (y & Hy & E). apply N.eqb_eq in E. now subst.
  - intros H. exists x. split; [assumption|apply N.eqb_refl].
Qed.

(** *** Amounts *)

Lemma rescale_same (u : Z) (s : nat) : Numeric.rescale u s s = u.
Proof.
  unfold Numeric.rescale. rewrite Nat.sub_diag. simpl. lia.
Qed.

Lemma rescale_zero (s s' : nat) : Numeric.rescale 0 s s' = 0%Z.
Proof. reflexivity. Qed.

Lemma is_zero_Fin (u : Z) (s : nat) :
  Numeric.is_zero (Numeric.Fin u s) = (u =? 0)%Z.
Proof.
  unfold Numeric.is_zero, Numeric.eqb, Numeric.zero.
  rewrite Nat.max_0_r, rescale_same, rescale_zero. reflexivity.
Qed.

Lemma is_zero_inv (a : Numeric.t) :
  Numeric.is_zero a = true -> exists s, a = Numeric.Fin 0 s.
Proof.
  destruct a as [u s| | |]; try discriminate.
  rewrite is_zero_Fin. intros H. apply Z.eqb_eq in H. subst. now exists s.
Qed.

Lemma add_zeros (s r : nat) :
  Numeric.add (Numeric.Fin 0 s) (Numeric.Fin 0 r) = Numeric.Fin 0 (Nat.max s r).
Proof. reflexivity. Qed.

Lemma fold_add_zeros (l : list Numeric.t) :
  Forall (fun a => Numeric.is_zero a = true) l ->
  forall s, exists r, fold_left Numeric.add l (Numeric.Fin 0 s) = Numeric.Fin 0 r.
Proof.
  induction 1 as [|a l Ha _ IH]; intros s; cbn [fold_left].
  - now exists s.
  - destruct (is_zero_inv a Ha) as [r ->]. rewrite add_zeros. apply IH.
Qed.

Lemma SUM_zeros (l : list Numeric.t) :
  Forall (fun a => Numeric.is_zero a = true) l ->
  Numeric.is_zero (COALESCE (SUM l) Numeric.zero) = true.
Proof.
  destruct l as [|a l]; intros H; cbn [SUM COALESCE].
  - reflexivity.
  - inversion H as [|? ? Ha Hl]; subst.
    destruct (is_zero_inv a Ha) as [s ->].
    destruct (fold_add_zeros l Hl s) as [r ->].
    now rewrite is_zero_Fin.
Qed.

(** Sums and comparisons of finite values are those of the rationals. *)

Lemma pow10_nonzero (k : nat) : ~ (inject_Z (10 ^ Z.of_nat k) == 0)%Q.
Proof.
  intros H. unfold Qeq in H. simpl in H. rewrite Z.mul_1_r in H.
  assert (0 < 10 ^ Z.of_nat k)%Z by (apply Z.pow_pos_nonneg; lia). lia.
Qed.

Lemma decimal_rescale (u : Z) (s m : nat) :
  (s <= m)%nat -> (decimal (Numeric.rescale u s m) m == decimal u s)%Q.
Proof.
  intros Hle. unfold decimal, Numeric.rescale.
  assert (E : (10 ^ Z.of_nat m = 10 ^ Z.of_nat (m - s) * 10 ^ Z.of_nat s)%Z).
  { rewrite <- Z.pow_add_r by lia. f_equal. lia. }
  rewrite E, !inject_Z_mult.
  field. split; apply pow10_nonzero.
Qed.

Lemma decimal_add (u v : Z) (s r : nat) :
  match Numeric.add (Numeric.Fin u s) (Numeric.Fin v r) with
  | Numeric.Fin x m => (decimal x m == decimal u s + decimal v r)%Q
  | _ => False
  end.
Proof.
  cbn [Numeric.add].
  rewrite <- (decimal_rescale u s (Nat.max s r)) by lia.
  rewrite <- (decimal_rescale v r (Nat.max s r)) by lia.
  unfold decimal at 1. rewrite inject_Z_plus. unfold decimal. field. apply pow10_nonzero.
Qed.

Lemma decimal_eqb (u v : Z) (s r : nat) :
  Numeric.eqb (Numeric.Fin u s) (Numeric.Fin v r) = true
  <-> (decimal u s == decimal v r)%Q.
Proof.
  cbn [Numeric.eqb].
  rewrite <- (decimal_rescale u s (Nat.max s r)) by lia.
  rewrite <- (decimal_rescale v r (Nat.max s r)) by lia.
  rewrite Z.eqb_eq. unfold decimal. split.
  - now intros ->.
  - intros H.
    assert (H' : (inject_Z (Numeric.rescale u s (Nat.max s r))
                  == inject_Z (Numeric.rescale v r (Nat.max s r)))%Q).
    { apply (Qmult_inj_r _ _ (/ inject_Z (10 ^ Z.of_nat (Nat.max s r)))).
      - intros Hz. apply (pow10_nonzero (Nat.max s r)).
        rewrite <- (Qinv_involutive (inject_Z _)). rewrite Hz. reflexivity.
      - exact H. }
    unfold Qeq in H'. simpl in H'. lia.
Qed.

Lemma neqb_zero (a : Numeric.t) :
  Numeric.neqb a Numeric.zero = negb (Numeric.is_zero a).
Proof. reflexivity. Qed.

Lemma msg_distinct : msg_too_few_lines <> msg_unbalanced.
Proof. discriminate. Qed.

(** *** Row security *)

Lemma entry_visible_eq (s : session) (db : database) (e : entry) :
  entry_visible s db e = bypass_rls s.
Proof.
  unfold entry_visible, row_security_using, combine. simpl.
  now rewrite orb_false_r.
Qed.

Lemma entry_writable_eq (s : session) (db : database) (e : entry) :
  entry_writable s db e = bypass_rls s.
Proof.
  unfold entry_writable, row_security_with_check, combine. simpl.
  now rewrite orb_false_r.
Qed.

Lemma bypass_sees_lines (s : session) (db : database) (tx : uuid) :
  bypass_rls s = true -> sees_lines s db tx.
Proof. intros H e _. now rewrite entry_visible_eq. Qed.

Lemma sees_lines_of (s : session) (db : database) (tx : uuid) :
  sees_lines s db tx -> lines_of s db tx = all_lines db tx.
Proof. intros H. unfold lines_of. now apply filter_all. Qed.

Lemma sees_v_count (s : session) (db : database) (tx : uuid) :
  sees_lines s db tx -> v_count s db tx = line_count db tx.
Proof. intros H. unfold v_count, line_count. now rewrite sees_lines_of. Qed.

Lemma sees_v_sum (s : session) (db : database) (tx : uuid) :
  sees_lines s db tx -> v_sum s db tx = line_sum db tx.
Proof. intros H. unfold v_sum, line_sum. now rewrite sees_lines_of. Qed.

(** *** The three results of the validation function *)

Lemma validate_cases (s : session) (db : database) (ev : trigger_event) :
  ((v_count s db (v_tx_id ev) < 2)%Z
   /\ validate_transaction_entries s db ev = RAISE_EXCEPTION msg_too_few_lines)
  \/ ((2 <= v_count s db (v_tx_id ev))%Z
      /\ Numeric.is_zero (v_sum s db (v_tx_id ev)) = false
      /\ validate_transaction_entries s db ev = RAISE_EXCEPTION msg_unbalanced)
  \/ ((2 <= v_count s db (v_tx_id ev))%Z
      /\ Numeric.is_zero (v_sum s db (v_tx_id ev)) = true
      /\ validate_transaction_entries s db ev = RETURN_NULL).
Proof.
  unfold validate_transaction_entries. rewrite neqb_zero.
  destruct (Z.ltb_spec (v_count s db (v_tx_id ev)) 2) as [Hc|Hc].
  - left. now split.
  - right. destruct (Numeric.is_zero (v_sum s db (v_tx_id ev))); simpl.
    + right. now repeat split.
    + left. now repeat split.
Qed.

Lemma validate_same_header (s : session) (db : database) (ev ev' : trigger_event) :
  v_tx_id ev = v_tx_id ev' ->
  validate_transaction_entries s db ev = validate_transaction_entries s db ev'.
Proof. unfold validate_transaction_entries. now intros ->. Qed.

(** *** Firing the queue *)

Lemma fire_deferred_pass (s : session) (db : database) (q : list trigger_event) :
  (forall ev, In ev q -> validate_transaction_entries s db ev = RETURN_NULL) ->
  fire_deferred s db q = (map v_tx_id q, RETURN_NULL).
Proof.
  induction q as [|ev q IH]; intros H; simpl.
  - reflexivity.
  - rewrite (H ev (or_introl eq_refl)), IH; [reflexivity|].
    intros ev' H'. apply H. now right.
Qed.

Lemma fire_deferred_raise (s : session) (db : database) (q : list trigger_event) (m : string) :
  snd (fire_deferred s db q) = RAISE_EXCEPTION m ->
  exists ev, In ev q /\ validate_transaction_entries s db ev = RAISE_EXCEPTION m.
Proof.
  induction q as [|ev q IH]; simpl; [discriminate|].
  destruct (validate_transaction_entries s db ev) as [|m'] eqn:E.
  - destruct (fire_deferred s db q) as [log r]. simpl in *. intros H.
    destruct (IH H) as (ev' & Hin & Hv). exists ev'. auto.
  - simpl. intros [= ->]. exists ev. auto.
Qed.

Lemma fire_deferred_fail (s : session) (db : database) (q : list trigger_event)
  (ev : trigger_event) (m : string) :
  In ev q ->
  validate_transaction_entries s db ev = RAISE_EXCEPTION m ->
  exists m', snd (fire_deferred s db q) = RAISE_EXCEPTION m'.
Proof.
  induction q as [|ev0 q IH]; simpl; [tauto|].
  intros Hin Hv.
  destruct (validate_transaction_entries s db ev0) as [|m0] eqn:E.
  - destruct Hin as [->|Hin]; [congruence|].
    destruct (IH Hin Hv) as [m' Hm'].
    destruct (fire_deferred s db q) as [log r]. simpl in *. now exists m'.
  - exists m0. reflexivity.
Qed.

(** *** Commit and rollback *)

Lemma run_transaction_commit (s : session) (db : database) (sts : list statement) (t : txn) :
  exec_all s (mktxn db []) sts = OK t ->
  (forall ev, In ev (pending t) ->
     validate_transaction_entries s (cur t) ev = RETURN_NULL) ->
  run_transaction s db sts = (Committed, cur t).
Proof.
  intros He Hv. unfold run_transaction. rewrite He.
  now rewrite (fire_deferred_pass s (cur t) (pending t) Hv).
Qed.

Lemma run_transaction_abort (s : session) (db : database) (sts : list statement)
  (t : txn) (ev : trigger_event) (m : string) :
  exec_all s (mktxn db []) sts = OK t ->
  In ev (pending t) ->
  validate_transaction_entries s (cur t) ev = RAISE_EXCEPTION m ->
  exists m', run_transaction s db sts = (Aborted (raise_exception m'), db)
             /\ exists ev', In ev' (pending t)
                  /\ validate_transaction_entries s (cur t) ev' = RAISE_EXCEPTION m'.
Proof.
  intros He Hin Hv. unfold run_transaction. rewrite He.
  destruct (fire_deferred_fail s (cur t) (pending t) ev m Hin Hv) as [m' Hm'].
  exists m'. rewrite Hm'. split; [reflexivity|].
  now apply fire_deferred_raise.
Qed.

Lemma run_transaction_rollback (s : session) (db db' : database)
  (sts : list statement) (e : sql_error) :
  run_transaction s db sts = (Aborted e, db') -> db' = db.
Proof.
  unfold run_transaction.
  destruct (exec_all s (mktxn db []) sts) as [t|e0].
  - destruct (snd (fire_deferred s (cur t) (pending t))); now intros [= <-].
  - now intros [= <-].
Qed.

(** The exception a commit surfaces when one header alone fails. *)
Lemma run_transaction_abort_only (s : session) (db : database) (sts : list statement)
  (t : txn) (ev : trigger_event) (m : string) :
  exec_all s (mktxn db []) sts = OK t ->
  In ev (pending t) ->
  validate_transaction_entries s (cur t) ev = RAISE_EXCEPTION m ->
  (forall ev', In ev' (pending t) ->
     v_tx_id ev' = v_tx_id ev
     \/ validate_transaction_entries s (cur t) ev' = RETURN_NULL) ->
  run_transaction s db sts = (Aborted (raise_exception m), db).
Proof.
  intros He Hin Hv Honly.
  destruct (run_transaction_abort s db sts t ev m He Hin Hv)
    as (m' & Hrun & ev' & Hin' & Hv').
  rewrite Hrun. destruct (Honly ev' Hin') as [Hsame|Hnull].
  - rewrite (validate_same_header s (cur t) ev' ev Hsame) in Hv'. congruence.
  - congruence.
Qed.

(** What a successful multi-row INSERT leaves behind. *)
Lemma insert_entries_ok (s : session) (rows : list entry) :
  forall t t', insert_all (insert_entry s) t rows = OK t' ->
    entries_tbl (cur t') = entries_tbl (cur t) ++ rows
    /\ pending t' = pending t ++ map ev_INSERT rows
    /\ transactions_tbl (cur t') = transactions_tbl (cur t)
    /\ company_users_tbl (cur t') = company_users_tbl (cur t)
    /\ user_roles_tbl (cur t') = user_roles_tbl (cur t)
    /\ accounts_tbl (cur t') = accounts_tbl (cur t)
    /\ (forall r, In r rows -> entry_writable s (cur t) r = true).
Proof.
  induction rows as [|r rows IH]; intros t t'; cbn [insert_all bind].
  - intros [= <-]. rewrite !app_nil_r. repeat split. intros r [].
  - unfold insert_entry at 1.
    destruct (entry_writable s (cur t) r) eqn:Ew; cbn [negb]; [|discriminate].
    destruct (mem (transaction_entries.id r) (entry_ids (cur t))); [discriminate|].
    destruct (references_ok (cur t) r); cbn [negb]; [|discriminate].
    cbn [bind]. intros H. apply IH in H. cbn [cur pending with_entries entries_tbl
      transactions_tbl company_users_tbl user_roles_tbl accounts_tbl] in H.
    destruct H as (H1 & H2 & H3 & H4 & H5 & H6 & H7).
    rewrite H1, H2, <- !app_assoc. repeat split; try assumption.
    intros r' [<-|Hr']; [assumption|].
    specialize (H7 r' Hr'). rewrite entry_writable_eq in *. assumption.
Qed.

Lemma all_lines_entries (db db' : database) (tx : uuid) :
  entries_tbl db = entries_tbl db' -> all_lines db tx = all_lines db' tx.
Proof. unfold all_lines. now intros ->. Qed.

Lemma insert_headers_ok (s : session) (rows : list header) :
  forall t t', insert_all (insert_header s) t rows = OK t' ->
    entries_tbl (cur t') = entries_tbl (cur t) /\ pending t' = pending t.
Proof.
  induction rows as [|r rows IH]; intros t t'; cbn [insert_all bind].
  - now intros [= <-].
  - unfold insert_header at 1.
    destruct (negb (header_writable s (cur t) r)); [discriminate|].
    destruct (mem (transactions.id r) (header_ids (cur t))); [discriminate|].
    cbn [bind]. intros H. apply IH in H. exact H.
Qed.

Lemma validate_no_lines (s : session) (db : database) (ev : trigger_event) :
  all_lines db (v_tx_id ev) = [] ->
  validate_transaction_entries s db ev = RAISE_EXCEPTION msg_too_few_lines.
Proof.
  intros H. unfold validate_transaction_entries, v_count, lines_of.
  now rewrite H.
Qed.

Lemma in_all_lines (db : database) (tx : uuid) (e : entry) :
  In e (all_lines db tx)
  <-> In e (entries_tbl db) /\ transaction_entries.transaction_id e = tx.
Proof.
  unfold all_lines. rewrite filter_In, N.eqb_eq. reflexivity.
Qed.

(** *** What a session under row security can queue *)

Lemma filter_nil_sub {A : Type} (p q : A -> bool) (l : list A) :
  filter p l = [] -> filter p (filter q l) = [].
Proof.
  intros H. apply filter_none. intros x Hx. apply filter_In in Hx.
  destruct Hx as [Hx _]. destruct (p x) eqn:Ep; [|reflexivity].
  assert (Hin : In x (filter p l)) by (apply filter_In; auto).
  rewrite H in Hin. destruct Hin.
Qed.

(** After the cascade of a header delete no line names a deleted header. *)
Lemma cascade_leaves_no_line (gone : list uuid) (es : list entry) (e : entry) :
  mem (transaction_entries.transaction_id e) gone = true ->
  filter (fun x => (transaction_entries.transaction_id x
                    =? transaction_entries.transaction_id e)%N)
         (filter (fun x => negb (mem (transaction_entries.transaction_id x) gone)) es)
  = [].
Proof.
  intros Hc. apply filter_filter_none. intros x _ Hx.
  apply N.eqb_neq. intros Hxe. rewrite Hxe, Hc in Hx. discriminate.
Qed.

Lemma exec_queued_headers_empty (s : session) (t t' : txn) (st : statement) :
  bypass_rls s = false ->
  exec s t st = OK t' ->
  queued_headers_empty t -> queued_headers_empty t'.
Proof.
  intros Hb He Hq.
  assert (Hhit : forall (w : entry -> bool) db x, w x && entry_visible s db x = false).
  { intros w db x. rewrite entry_visible_eq, Hb. apply andb_false_r. }
  destruct st as [rows|w f|w|rows|w f|w]; cbn [exec] in He.
  - destruct (insert_entries_ok s rows t t' He) as (Hes & Hp & _ & _ & _ & _ & Hwr).
    destruct rows as [|r rows].
    + rewrite app_nil_r in Hes, Hp. intros ev Hev. rewrite Hp in Hev.
      rewrite (all_lines_entries (cur t') (cur t) _ Hes). now apply Hq.
    + specialize (Hwr r (or_introl eq_refl)). rewrite entry_writable_eq in Hwr.
      congruence.
  - unfold update_entries in He.
    destruct (negb (forallb _ _)); [discriminate|].
    destruct (negb (distinct _)); [discriminate|].
    destruct (negb (forallb _ _)); [discriminate|].
    injection He as <-. intros ev Hev. cbn [cur pending] in *.
    rewrite (filter_none _ (entries_tbl (cur t))) in Hev by (intros; apply Hhit).
    cbn [map] in Hev. rewrite app_nil_r in Hev.
    unfold all_lines. cbn [entries_tbl with_entries].
    rewrite filter_map_unaffected; [now apply Hq|].
    intros x _. left. now rewrite Hhit.
  - unfold delete_entries in He. injection He as <-.
    intros ev Hev. cbn [cur pending] in *.
    rewrite (filter_none _ (entries_tbl (cur t))) in Hev by (intros; apply Hhit).
    cbn [map] in Hev. rewrite app_nil_r in Hev.
    unfold all_lines. cbn [entries_tbl with_entries].
    apply filter_nil_sub. now apply Hq.
  - destruct (insert_headers_ok s rows t t' He) as [Hes Hp].
    intros ev Hev. rewrite Hp in Hev.
    rewrite (all_lines_entries (cur t') (cur t) _ Hes). now apply Hq.
  - unfold update_headers in He.
    destruct (negb (forallb _ _)); [discriminate|].
    destruct (negb (distinct _)); [discriminate|].
    destruct (existsb _ _); [discriminate|].
    injection He as <-. exact Hq.
  - unfold delete_headers in He. injection He as <-.
    intros ev Hev. cbn [cur pending] in *. unfold all_lines. cbn [entries_tbl].
    apply in_app_or in Hev. destruct Hev as [Hev|Hev].
    + apply filter_nil_sub. now apply Hq.
    + apply in_map_iff in Hev. destruct Hev as (e & <- & He).
      apply filter_In in He. destruct He as [_ Hc]. cbn [v_tx_id].
      now apply cascade_leaves_no_line.
Qed.

Lemma exec_all_queued_headers_empty (s : session) (sts : list statement) :
  bypass_rls s = false ->
  forall t t', exec_all s t sts = OK t' ->
    queued_headers_empty t -> queued_headers_empty t'.
Proof.
  intros Hb. induction sts as [|st sts IH]; intros t t'; cbn [exec_all bind].
  - now intros [= <-].
  - destruct (exec s t st) as [t1|] eqn:E1; cbn [bind]; [|discriminate].
    intros He Hq. apply (IH t1 t' He).
    now apply (exec_queued_headers_empty s t t1 st).
Qed.

(** At commit, the session sees every line of every header it queued a
    check for: it is exempt from row security, or those headers have no line. *)
Lemma pending_headers_seen (s : session) (db : database) (sts : list statement) (t : txn) :
  exec_all s (mktxn db []) sts = OK t ->
  forall ev, In ev (pending t) -> sees_lines s (cur t) (v_tx_id ev).
Proof.
  intros He ev Hev. destruct (bypass_rls s) eqn:Hb.
  - now apply bypass_sees_lines.
  - assert (Hq : queued_headers_empty t).
    { apply (exec_all_queued_headers_empty s sts Hb (mktxn db []) t He).
      intros ev0 []. }
    intros e Hin. rewrite (Hq ev Hev) in Hin. destruct Hin.
Qed.

(** ** P1: balanced lines commit *)

Lemma validate_balanced (s : session) (db : database) (ev : trigger_event) :
  sees_lines s db (v_tx_id ev) ->
  (2 <= line_count db (v_tx_id ev))%Z ->
  Numeric.is_zero (line_sum db (v_tx_id ev)) = true ->
  validate_transaction_entries s db ev = RETURN_NULL.
Proof.
  intros Hs Hc Hz.
  destruct (validate_cases s db ev) as [[Hlt _]|[(_ & Hnz & _)|(_ & _ & Hv)]].
  - rewrite (sees_v_count s db _ Hs) in Hlt. lia.
  - rewrite (sees_v_sum s db _ Hs) in Hnz. congruence.
  - exact Hv.
Qed.

(** C4. Whatever the statements of an ambient transaction were, if every
    header whose lines they wrote ends with at least two lines and a sum of
    amounts equal to zero (exact decimal equality), no queued check raises and
    the transaction commits with its writes. *)
Theorem C4_balanced_commit (s : session) (db : database) (sts : list statement) (t : txn) :
  exec_all s (mktxn db []) sts = OK t ->
  (forall ev, In ev (pending t) ->
     (2 <= line_count (cur t) (v_tx_id ev))%Z
     /\ Numeric.is_zero (line_sum (cur t) (v_tx_id ev)) = true) ->
  (forall ev, In ev (pending t) ->
     validate_transaction_entries s (cur t) ev = RETURN_NULL)
  /\ snd (fire_deferred s (cur t) (pending t)) = RETURN_NULL
  /\ run_transaction s db sts = (Committed, cur t).
Proof.
  intros He H.
  assert (Hv : forall ev, In ev (pending t) ->
                 validate_transaction_entries s (cur t) ev = RETURN_NULL).
  { intros ev Hin. destruct (H ev Hin) as (Hc & Hz).
    apply validate_balanced; try assumption.
    now apply (pending_headers_seen s db sts t He). }
  split; [exact Hv|]. split.
  - now rewrite (fire_deferred_pass s (cur t) (pending t) Hv).
  - now apply run_transaction_commit.
Qed.

Lemma C4_witness :
  run_transaction Sample.service_role Sample.db0 Sample.setup = (Committed, Sample.db1).
Proof.
  refine (proj2 (proj2 (C4_balanced_commit Sample.service_role Sample.db0 Sample.setup
                          (mktxn Sample.db1 _) eq_refl _))).
  intros ev Hin. vm_compute in Hin.
  repeat (destruct Hin as [<-|Hin]; [vm_compute; split; [discriminate|reflexivity]|]).
  destruct Hin.
Defined.

(** ** P2 and P3: rejection and rollback *)

Lemma validate_too_few (s : session) (db : database) (ev : trigger_event) :
  sees_lines s db (v_tx_id ev) ->
  (line_count db (v_tx_id ev) < 2)%Z ->
  validate_transaction_entries s db ev = RAISE_EXCEPTION msg_too_few_lines.
Proof.
  intros Hs Hc.
  destruct (validate_cases s db ev) as [[_ Hv]|[(Hge & _)|(Hge & _)]];
    [exact Hv| |]; rewrite (sees_v_count s db _ Hs) in Hge; lia.
Qed.

Lemma validate_unbalanced (s : session) (db : database) (ev : trigger_event) :
  sees_lines s db (v_tx_id ev) ->
  (2 <= line_count db (v_tx_id ev))%Z ->
  Numeric.is_zero (line_sum db (v_tx_id ev)) = false ->
  validate_transaction_entries s db ev = RAISE_EXCEPTION msg_unbalanced.
Proof.
  intros Hs Hc Hz.
  destruct (validate_cases s db ev) as [[Hlt _]|[(_ & _ & Hv)|(_ & Hnz & _)]].
  - rewrite (sees_v_count s db _ Hs) in Hlt. lia.
  - exact Hv.
  - rewrite (sees_v_sum s db _ Hs) in Hnz. congruence.
Qed.

(** What the check does for the headers it is run for: the header of a
    queued row event with fewer than two final lines raises the too-few-lines
    exception whatever the sum, one with two or more lines and a non-zero sum
    the unbalanced one; either way the commit is rejected, with exactly that
    violation when no other header fails, and a rejected transaction leaves
    the database as it was before its first statement. *)
Lemma queued_header_is_rejected
  (s : session) (db : database) (sts : list statement) (t : txn) (ev : trigger_event) :
  exec_all s (mktxn db []) sts = OK t ->
  In ev (pending t) ->
  ((line_count (cur t) (v_tx_id ev) < 2)%Z ->
     validate_transaction_entries s (cur t) ev = RAISE_EXCEPTION msg_too_few_lines
     /\ (exists e, run_transaction s db sts = (Aborted e, db))
     /\ ((forall ev', In ev' (pending t) ->
            v_tx_id ev' = v_tx_id ev
            \/ validate_transaction_entries s (cur t) ev' = RETURN_NULL) ->
         run_transaction s db sts = (Aborted (surfaced TooFewLines), db)))
  /\ ((2 <= line_count (cur t) (v_tx_id ev))%Z ->
      Numeric.is_zero (line_sum (cur t) (v_tx_id ev)) = false ->
      validate_transaction_entries s (cur t) ev = RAISE_EXCEPTION msg_unbalanced
      /\ (exists e, run_transaction s db sts = (Aborted e, db))
      /\ ((forall ev', In ev' (pending t) ->
             v_tx_id ev' = v_tx_id ev
             \/ validate_transaction_entries s (cur t) ev' = RETURN_NULL) ->
          run_transaction s db sts = (Aborted (surfaced Unbalanced), db)))
  /\ (forall s' sts' e db',
        run_transaction s' db sts' = (Aborted e, db') -> db' = db).
Proof.
  intros He Hin.
  pose proof (pending_headers_seen s db sts t He ev Hin) as Hs.
  split; [|split].
  - intros Hc. pose proof (validate_too_few s (cur t) ev Hs Hc) as Hv.
    split; [exact Hv|]. split.
    + destruct (run_transaction_abort s db sts t ev _ He Hin Hv) as (m' & Hrun & _).
      eauto.
    + intros Honly. now apply (run_transaction_abort_only s db sts t ev).
  - intros Hc Hz. pose proof (validate_unbalanced s (cur t) ev Hs Hc Hz) as Hv.
    split; [exact Hv|]. split.
    + destruct (run_transaction_abort s db sts t ev _ He Hin Hv) as (m' & Hrun & _).
      eauto.
    + intros Honly. now apply (run_transaction_abort_only s db sts t ev).
  - intros s' sts' e db'. apply run_transaction_rollback.
Qed.

(** C3. The stored state [Sample.db1], one transaction of the service role
    with the single UPDATE of [Sample.move_line]: it takes line 1 away from
    header 1, so it wrote the lines of header 1, and header 1 ends with one
    line, of -100.00.  The only row event queued carries header 2, the header
    of the new row, so header 1 is not checked and the commit is not
    rejected.  Taking the same line away from header 1 by a DELETE is
    rejected with the too-few-lines exception. *)
Theorem C3_moved_from_header_is_not_rejected :
  exists t,
    exec_all Sample.service_role (mktxn Sample.db1 []) Sample.move_line = OK t
    /\ In (Sample.line 1%N 1%N 1%N 10%N (Numeric.Fin 10000 2)) (all_lines Sample.db1 1%N)
    /\ (forall e, In e (all_lines (cur t) 1%N) -> transaction_entries.id e <> 1%N)
    /\ (line_count (cur t) 1%N < 2)%Z
    /\ Numeric.is_zero (line_sum (cur t) 1%N) = false
    /\ map v_tx_id (pending t) = [2%N]
    /\ validate_transaction_entries Sample.service_role (cur t)
         (ev_DELETE (Sample.line 1%N 1%N 1%N 10%N (Numeric.Fin 10000 2)))
       = RAISE_EXCEPTION msg_too_few_lines
    /\ run_transaction Sample.service_role Sample.db1 Sample.move_line
       = (Committed, cur t)
    /\ run_transaction Sample.service_role Sample.db1
         [DELETE_transaction_entries (Sample.id_is 1%N)]
       = (Aborted (surfaced TooFewLines), Sample.db1).
Proof.
  eexists. split; [vm_compute; reflexivity|].
  split; [vm_compute; now left|].
  split.
  { intros e He. vm_compute in He. destruct He as [<-|[]]. discriminate. }
  repeat split; vm_compute; reflexivity.
Qed.

(** ** P4: the transient state of an edit is not validated *)

(** C2. A header whose stored lines balance; one ambient transaction that
    deletes every line of it and then inserts a new set of at least two lines
    summing to zero.  After the DELETE the header has no line, and a check
    run there would raise; the queued checks run at commit only, see the new
    lines, and the transaction commits. *)
Theorem C2_replace_lines_commits
  (s : session) (db : database) (h : uuid) (w : entry -> bool)
  (new : list entry) (t2 : txn) :
  (2 <= line_count db h)%Z ->
  Numeric.is_zero (line_sum db h) = true ->
  (forall e, w e = true -> transaction_entries.transaction_id e = h) ->
  (forall e, In e (all_lines db h) -> w e = true) ->
  (forall r, In r new -> transaction_entries.transaction_id r = h) ->
  (2 <= COUNT new)%Z ->
  Numeric.is_zero (COALESCE (SUM (map transaction_entries.amount new)) Numeric.zero) = true ->
  exec_all s (mktxn db [])
    [DELETE_transaction_entries w; INSERT_transaction_entries new] = OK t2 ->
  (exists t1,
      exec s (mktxn db []) (DELETE_transaction_entries w) = OK t1
      /\ all_lines (cur t1) h = []
      /\ pending t1 <> []
      /\ forall ev, In ev (pending t1) ->
           validate_transaction_entries s (cur t1) ev
           = RAISE_EXCEPTION msg_too_few_lines)
  /\ all_lines (cur t2) h = new
  /\ run_transaction s db
       [DELETE_transaction_entries w; INSERT_transaction_entries new]
     = (Committed, cur t2).
Proof.
  intros Hcount _ Hw_only Hw_all Hnew Hn Hz Hexec.
  assert (Hb : bypass_rls s = true).
  { cbn [exec_all bind exec] in Hexec. unfold delete_entries in Hexec.
    cbn [bind] in Hexec.
    match type of Hexec with
    | context [insert_all ?i ?t0 new] =>
        destruct (insert_all i t0 new) as [t2'|] eqn:Hins; [|discriminate]
    end.
    match type of Hins with
    | insert_all _ ?t0 _ = _ =>
        destruct (insert_entries_ok s new t0 t2' Hins) as (_ & _ & _ & _ & _ & _ & Hwr)
    end.
    destruct new as [|r new']; [cbn in Hn; lia|].
    specialize (Hwr r (or_introl eq_refl)). now rewrite entry_writable_eq in Hwr. }
  pose proof (bypass_sees_lines s db h Hb) as Hsees.
  set (hit := fun e => w e && entry_visible s db e).
  set (t1 := mktxn (with_entries db (filter (fun e => negb (hit e)) (entries_tbl db)))
                   ([] ++ map ev_DELETE (filter hit (entries_tbl db)))).
  assert (Hdel : exec s (mktxn db []) (DELETE_transaction_entries w) = OK t1)
    by reflexivity.
  assert (Hgone : all_lines (cur t1) h = []).
  { unfold all_lines, t1. cbn [cur entries_tbl with_entries].
    apply filter_filter_none. intros x Hx Hnh.
    apply N.eqb_neq. intros Hxh.
    assert (Hl : In x (all_lines db h)) by (apply in_all_lines; auto).
    unfold hit in Hnh. rewrite (Hw_all x Hl), (Hsees x Hl) in Hnh. discriminate. }
  assert (Hq1 : forall ev, In ev (pending t1) -> v_tx_id ev = h).
  { intros ev Hev. unfold t1 in Hev. cbn [pending app] in Hev.
    apply in_map_iff in Hev. destruct Hev as (e & <- & He).
    apply filter_In in He. destruct He as [_ He]. unfold hit in He.
    apply andb_true_iff in He. cbn [v_tx_id]. now apply Hw_only. }
  cbn [exec_all bind] in Hexec. rewrite Hdel in Hexec. cbn [bind exec] in Hexec.
  destruct (insert_all (insert_entry s) t1 new) as [t2'|] eqn:Hins; [|discriminate].
  cbn [bind] in Hexec. injection Hexec as <-.
  destruct (insert_entries_ok s new t1 t2' Hins) as (Hes & Hq & _ & _ & _ & _ & Hwr).
  assert (Hlines : all_lines (cur t2') h = new).
  { unfold all_lines. rewrite Hes, filter_app.
    change (filter _ (entries_tbl (cur t1))) with (all_lines (cur t1) h).
    rewrite Hgone. cbn [app]. apply filter_all.
    intros r Hr. apply N.eqb_eq. now apply Hnew. }
  split; [|split].
  - exists t1. repeat split; try assumption.
    + unfold t1. cbn [pending app]. intros Hnil.
      apply map_eq_nil in Hnil.
      assert (Hex : exists e, In e (all_lines db h)).
      { unfold line_count, COUNT in Hcount.
        destruct (all_lines db h) as [|e l]; [simpl in Hcount; lia|].
        exists e. now left. }
      destruct Hex as [e Hl].
      assert (He : In e (filter hit (entries_tbl db))).
      { apply filter_In. split; [now apply in_all_lines in Hl|].
        unfold hit. now rewrite (Hw_all e Hl), (Hsees e Hl). }
      rewrite Hnil in He. destruct He.
    + intros ev Hev. apply validate_no_lines. now rewrite (Hq1 ev Hev).
  - exact Hlines.
  - apply run_transaction_commit.
    + cbn [exec_all bind]. rewrite Hdel. cbn [bind exec]. now rewrite Hins.
    + intros ev Hev.
      assert (Hh : v_tx_id ev = h).
      { rewrite Hq in Hev. apply in_app_or in Hev. destruct Hev as [Hev|Hev].
        - now apply Hq1.
        - apply in_map_iff in Hev. destruct Hev as (r & <- & Hr). now apply Hnew. }
      apply validate_balanced; rewrite Hh.
      * intros e He. rewrite Hlines in He. specialize (Hwr e He).
        rewrite entry_writable_eq in Hwr. now rewrite entry_visible_eq.
      * unfold line_count. now rewrite Hlines.
      * unfold line_sum. now rewrite Hlines.
Qed.

(** When the two statements of the edit are accepted: for a session exempt
    from row security, new rows with fresh, distinct keys that name an existing
    header and existing accounts. *)
Lemma mem_app (x : uuid) (l l' : list uuid) : mem x (l ++ l') = mem x l || mem x l'.
Proof. unfold mem. apply existsb_app. Qed.

Lemma insert_entries_accepted (s : session) (rows : list entry) :
  bypass_rls s = true ->
  distinct (map transaction_entries.id rows) = true ->
  forall t,
    (forall r, In r rows ->
       mem (transaction_entries.id r) (entry_ids (cur t)) = false
       /\ references_ok (cur t) r = true) ->
    insert_all (insert_entry s) t rows
    = OK (mktxn (with_entries (cur t) (entries_tbl (cur t) ++ rows))
                (pending t ++ map ev_INSERT rows)).
Proof.
  intros Hb. induction rows as [|r rows IH]; intros Hd t H; cbn [insert_all bind].
  - cbn [map]. rewrite !app_nil_r. now destruct t as [[? ? ? ? ?] ?].
  - cbn [map distinct] in Hd. apply andb_true_iff in Hd. destruct Hd as [Hr Hd].
    apply negb_true_iff in Hr.
    destruct (H r (or_introl eq_refl)) as [Hfresh Href].
    unfold insert_entry at 1. rewrite entry_writable_eq, Hb, Hfresh, Href.
    cbn [negb bind]. rewrite (IH Hd).
    + unfold with_entries.
      cbn [cur pending entries_tbl user_roles_tbl company_users_tbl
           accounts_tbl transactions_tbl map].
      now rewrite <- !app_assoc.
    + intros r' Hr'. destruct (H r' (or_intror Hr')) as [Hfresh' Href'].
      split; [|exact Href'].
      unfold entry_ids. cbn [cur with_entries entries_tbl].
      rewrite map_app, mem_app. cbn [map mem existsb].
      unfold entry_ids in Hfresh'. fold (mem (transaction_entries.id r')
        (map transaction_entries.id (entries_tbl (cur t)))). rewrite Hfresh'.
      cbn [orb]. rewrite orb_false_r. apply N.eqb_neq. intros E.
      assert (Hm : mem (transaction_entries.id r) (map transaction_entries.id rows) = true).
      { apply mem_In. rewrite <- E. now apply in_map. }
      rewrite Hm in Hr. discriminate.
Qed.

Lemma replace_lines_accepted
  (s : session) (db : database) (w : entry -> bool) (new : list entry) :
  bypass_rls s = true ->
  distinct (map transaction_entries.id new) = true ->
  (forall r, In r new ->
     mem (transaction_entries.id r)
         (map transaction_entries.id
              (filter (fun e => negb (w e)) (entries_tbl db))) = false
     /\ references_ok db r = true) ->
  exists t2,
    exec_all s (mktxn db [])
      [DELETE_transaction_entries w; INSERT_transaction_entries new] = OK t2.
Proof.
  intros Hb Hd H. cbn [exec_all exec bind]. unfold delete_entries. cbn [bind].
  rewrite (insert_entries_accepted s new Hb Hd); [eexists; reflexivity|].
  intros r Hr. destruct (H r Hr) as [Hfresh Href]. split; [|exact Href].
  unfold entry_ids. cbn [cur entries_tbl with_entries].
  rewrite (filter_ext _ (fun e => negb (w e))); [exact Hfresh|].
  intros e. now rewrite entry_visible_eq, Hb, andb_true_r.
Qed.

Lemma C2_witness :
  run_transaction Sample.service_role Sample.db1 Sample.replace_lines
  = (Committed,
     with_entries Sample.db1
       (all_lines Sample.db1 2%N ++ Sample.new_lines)).
Proof.
  refine (proj2 (proj2 (C2_replace_lines_commits Sample.service_role Sample.db1 1%N
            (Sample.tx_is 1%N) Sample.new_lines (mktxn _ _) _ _ _ _ _ _ _ eq_refl))).
  - vm_compute. discriminate.
  - vm_compute. reflexivity.
  - intros e He. now apply N.eqb_eq.
  - intros e He. apply in_all_lines in He. apply N.eqb_eq. tauto.
  - intros r Hr. vm_compute in Hr.
    repeat (destruct Hr as [<-|Hr]; [reflexivity|]). destruct Hr.
  - vm_compute. discriminate.
  - vm_compute. reflexivity.
Defined.

(** ** Amounts are unconstrained *)

Lemma SUM_map_zeros (l : list entry) :
  (forall e, In e l -> Numeric.is_zero (transaction_entries.amount e) = true) ->
  Numeric.is_zero (COALESCE (SUM (map transaction_entries.amount l)) Numeric.zero) = true.
Proof.
  intros H. apply SUM_zeros. apply Forall_forall.
  intros a Ha. apply in_map_iff in Ha. destruct Ha as (e & <- & He). now apply H.
Qed.

Lemma insert_entry_any_amount (s : session) (t t' : txn) (r : entry) (a : Numeric.t) :
  insert_entry s t r = OK t' ->
  insert_entry s t (with_amount r a)
  = OK (mktxn (with_entries (cur t) (entries_tbl (cur t) ++ [with_amount r a]))
              (pending t ++ [ev_INSERT (with_amount r a)])).
Proof.
  unfold insert_entry. rewrite !entry_writable_eq.
  unfold references_ok, with_amount. cbn [transaction_entries.id
    transaction_entries.transaction_id transaction_entries.account_id].
  destruct (negb (bypass_rls s)); [discriminate|].
  destruct (mem (transaction_entries.id r) (entry_ids (cur t))); [discriminate|].
  destruct (negb _); [discriminate|]. reflexivity.
Qed.

(** C10. Lines of amount zero are accepted: a transaction whose written
    headers end with at least two lines, every one of amount zero, commits.
    Nor does the store look at the amount of a row it inserts: a row accepted
    with one amount is accepted with any other, of any sign, scale or value. *)
Theorem C10_zero_amounts_commit
  (s : session) (db : database) (sts : list statement) (t : txn) :
  exec_all s (mktxn db []) sts = OK t ->
  (forall ev, In ev (pending t) ->
     (2 <= line_count (cur t) (v_tx_id ev))%Z
     /\ forall e, In e (all_lines (cur t) (v_tx_id ev)) ->
          Numeric.is_zero (transaction_entries.amount e) = true) ->
  run_transaction s db sts = (Committed, cur t)
  /\ (forall s' t0 t0' r a,
        insert_entry s' t0 r = OK t0' ->
        exists t1, insert_entry s' t0 (with_amount r a) = OK t1
                   /\ In (with_amount r a) (entries_tbl (cur t1))).
Proof.
  intros He H. split.
  - apply run_transaction_commit; [exact He|].
    intros ev Hin. destruct (H ev Hin) as (Hc & Hz).
    apply validate_balanced; try assumption.
    + now apply (pending_headers_seen s db sts t He).
    + unfold line_sum. now apply SUM_map_zeros.
  - intros s' t0 t0' r a Hi. eexists. split.
    + apply (insert_entry_any_amount s' t0 t0' r a Hi).
    + cbn [cur entries_tbl with_entries]. apply in_or_app. right. now left.
Qed.

Lemma C10_witness :
  fst (run_transaction Sample.service_role Sample.db1 Sample.zero_lines) = Committed.
Proof.
  refine (f_equal fst (proj1 (C10_zero_amounts_commit Sample.service_role Sample.db1
            Sample.zero_lines (mktxn _ _) eq_refl _))).
  intros ev Hin. vm_compute in Hin.
  repeat (destruct Hin as [<-|Hin];
          [split; [vm_compute; discriminate|];
           intros e He; vm_compute in He;
           repeat (destruct He as [<-|He]; [reflexivity|]); destruct He|]).
  destruct Hin.
Defined.

Example thousandths_commit :
  fst (run_transaction Sample.service_role Sample.db1 Sample.thousandths) = Committed.
Proof. reflexivity. Qed.

(** ** The header a line is moved away from *)

(** C1. The stored state [Sample.db1] is reached from a state without lines
    by one committed transaction and satisfies the core contract.  The UPDATE
    of [Sample.move_line] then moves line 1 from header 1 to header 2 (with
    amount 0): the only check queued is for header 2, the new header of the
    row, the transaction commits, and header 1 is left with a single line of
    -100.00. *)
Theorem C1_moved_line_leaves_unchecked_header :
  ledger_invariant Sample.db0 = true
  /\ run_history Sample.db0 [(Sample.service_role, Sample.setup)] = Sample.db1
  /\ ledger_invariant Sample.db1 = true
  /\ fst (run_transaction Sample.service_role Sample.db1 Sample.move_line) = Committed
  /\ invocations Sample.service_role Sample.db1 Sample.move_line = [2%N]
  /\ (let db2 := run_history Sample.db0
                   [(Sample.service_role, Sample.setup);
                    (Sample.service_role, Sample.move_line)] in
      ledger_invariant db2 = false
      /\ line_count db2 1%N = 1%Z
      /\ line_sum db2 1%N = Numeric.Fin (-10000) 2
      /\ header_ok db2 2%N = true).
Proof. vm_compute. repeat split; reflexivity. Qed.

(** What the check does secure: as long as no UPDATE moves a line to another
    header, every committed transaction keeps the core contract. *)

Lemma exec_untouched (s : session) (t t' : txn) (st : statement) (h : uuid) :
  keeps_header st ->
  exec s t st = OK t' ->
  (forall ev, In ev (pending t') -> v_tx_id ev <> h) ->
  all_lines (cur t') h = all_lines (cur t) h
  /\ (forall ev, In ev (pending t) -> v_tx_id ev <> h).
Proof.
  intros Hk He Hq. unfold all_lines.
  destruct st as [rows|w f|w|rows|w f|w]; cbn [exec keeps_header] in *.
  - destruct (insert_entries_ok s rows t t' He) as (Hes & Hp & _).
    rewrite Hp in Hq. split.
    + rewrite Hes, filter_app, (filter_none _ rows); [apply app_nil_r|].
      intros r Hr. apply N.eqb_neq.
      apply (Hq (ev_INSERT r)). apply in_or_app. right. now apply in_map.
    + intros ev Hev. apply Hq. apply in_or_app. now left.
  - unfold update_entries in He.
    destruct (negb (forallb _ _)); [discriminate|].
    destruct (negb (distinct _)); [discriminate|].
    destruct (negb (forallb _ _)); [discriminate|].
    injection He as <-. cbn [cur pending entries_tbl with_entries] in *. split.
    + apply filter_map_unaffected. intros x Hx.
      destruct (w x && entry_visible s (cur t) x) eqn:Eh; [right|now left].
      assert (Hne : transaction_entries.transaction_id (f x) <> h).
      { apply (Hq (ev_UPDATE x (f x))). apply in_or_app. right.
        apply (in_map (fun e => ev_UPDATE e (f e))). apply filter_In. auto. }
      split; apply N.eqb_neq; [rewrite <- (Hk x)|]; exact Hne.
    + intros ev Hev. apply Hq. apply in_or_app. now left.
  - unfold delete_entries in He. injection He as <-.
    cbn [cur pending entries_tbl with_entries] in *. split.
    + apply (filter_filter_unaffected
               (fun e => (transaction_entries.transaction_id e =? h)%N)
               (fun e => w e && entry_visible s (cur t) e)).
      intros x Hx Eh. apply N.eqb_neq.
      apply (Hq (ev_DELETE x)). apply in_or_app. right.
      apply in_map. apply filter_In. auto.
    + intros ev Hev. apply Hq. apply in_or_app. now left.
  - destruct (insert_headers_ok s rows t t' He) as [Hes Hp].
    rewrite Hes. rewrite Hp in Hq. auto.
  - unfold update_headers in He.
    destruct (negb (forallb _ _)); [discriminate|].
    destruct (negb (distinct _)); [discriminate|].
    destruct (existsb _ _); [discriminate|].
    injection He as <-. cbn [cur pending entries_tbl with_transactions] in *. auto.
  - unfold delete_headers in He. injection He as <-.
    cbn [cur pending entries_tbl] in *. split.
    + match goal with
      | |- filter ?p (filter (fun e => negb (@?c e)) _) = _ =>
          apply (filter_filter_unaffected p c)
      end.
      intros x Hx Eh. apply N.eqb_neq.
      apply (Hq (ev_DELETE x)). apply in_or_app. right.
      apply in_map. apply filter_In. auto.
    + intros ev Hev. apply Hq. apply in_or_app. now left.
Qed.

Lemma exec_pending_incl (s : session) (t t' : txn) (st : statement) :
  exec s t st = OK t' ->
  forall ev, In ev (pending t) -> In ev (pending t').
Proof.
  intros He ev Hev.
  destruct st as [rows|w f|w|rows|w f|w]; cbn [exec] in He.
  - destruct (insert_entries_ok s rows t t' He) as (_ & Hp & _).
    rewrite Hp. apply in_or_app. now left.
  - unfold update_entries in He.
    destruct (negb (forallb _ _)); [discriminate|].
    destruct (negb (distinct _)); [discriminate|].
    destruct (negb (forallb _ _)); [discriminate|].
    injection He as <-. cbn [pending]. apply in_or_app. now left.
  - unfold delete_entries in He. injection He as <-.
    cbn [pending]. apply in_or_app. now left.
  - destruct (insert_headers_ok s rows t t' He) as [_ Hp]. now rewrite Hp.
  - unfold update_headers in He.
    destruct (negb (forallb _ _)); [discriminate|].
    destruct (negb (distinct _)); [discriminate|].
    destruct (existsb _ _); [discriminate|].
    now injection He as <-.
  - unfold delete_headers in He. injection He as <-.
    cbn [pending]. apply in_or_app. now left.
Qed.

Lemma exec_all_pending_incl (s : session) (sts : list statement) :
  forall t t', exec_all s t sts = OK t' ->
    forall ev, In ev (pending t) -> In ev (pending t').
Proof.
  induction sts as [|st sts IH]; intros t t'; cbn [exec_all bind].
  - now intros [= <-].
  - destruct (exec s t st) as [t1|] eqn:E1; cbn [bind]; [|discriminate].
    intros He ev Hev. apply (IH t1 t' He). now apply (exec_pending_incl s t t1 st).
Qed.

Lemma exec_all_untouched (s : session) (sts : list statement) (h : uuid) :
  Forall keeps_header sts ->
  forall t t',
    exec_all s t sts = OK t' ->
    (forall ev, In ev (pending t') -> v_tx_id ev <> h) ->
    all_lines (cur t') h = all_lines (cur t) h.
Proof.
  induction 1 as [|st sts Hst _ IH]; intros t t'; cbn [exec_all bind].
  - now intros [= <-].
  - destruct (exec s t st) as [t1|] eqn:E1; cbn [bind]; [|discriminate].
    intros He Hq. rewrite (IH t1 t' He Hq).
    apply (exec_untouched s t t1 st h Hst E1).
    intros ev Hev. apply Hq. now apply (exec_all_pending_incl s sts t1 t').
Qed.

Lemma fire_deferred_passed (s : session) (db : database) (q : list trigger_event) :
  snd (fire_deferred s db q) = RETURN_NULL ->
  forall ev, In ev q -> validate_transaction_entries s db ev = RETURN_NULL.
Proof.
  induction q as [|ev0 q IH]; cbn [fire_deferred]; [intros _ ev []|].
  destruct (validate_transaction_entries s db ev0) as [|m] eqn:E0; [|discriminate].
  destruct (fire_deferred s db q) as [log r]. cbn [snd] in *.
  intros Hr ev [<-|Hev]; auto.
Qed.

Lemma header_ok_spec (db : database) (h : uuid) :
  header_ok db h = true
  <-> all_lines db h = []
      \/ ((2 <= line_count db h)%Z /\ Numeric.is_zero (line_sum db h) = true).
Proof.
  unfold header_ok. destruct (all_lines db h) as [|e l] eqn:El.
  - split; auto.
  - rewrite andb_true_iff, Z.leb_le. split; [auto|].
    intros [H|H]; [discriminate|exact H].
Qed.

Lemma header_ok_lines (db db' : database) (h : uuid) :
  all_lines db h = all_lines db' h -> header_ok db h = header_ok db' h.
Proof. unfold header_ok, line_count, line_sum. now intros ->. Qed.

Lemma ledger_invariant_spec (db : database) :
  ledger_invariant db = true <-> forall h, header_ok db h = true.
Proof.
  unfold ledger_invariant. rewrite forallb_forall. split.
  - intros H h. destruct (all_lines db h) as [|e l] eqn:El.
    + apply header_ok_spec. now left.
    + assert (He : In e (all_lines db h)) by (rewrite El; now left).
      apply in_all_lines in He. destruct He as [He <-]. now apply H.
  - intros H e _. apply H.
Qed.

Lemma validate_pass_header_ok (s : session) (db : database) (ev : trigger_event) :
  validate_transaction_entries s db ev = RETURN_NULL ->
  header_ok db (v_tx_id ev) = true.
Proof.
  intros Hv. apply header_ok_spec.
  destruct (bypass_rls s) eqn:Hb.
  - right. pose proof (bypass_sees_lines s db (v_tx_id ev) Hb) as Hs.
    rewrite <- (sees_v_count s db _ Hs), <- (sees_v_sum s db _ Hs).
    destruct (validate_cases s db ev) as [[_ H]|[(_ & _ & H)|(Hc & Hz & _)]];
      [congruence|congruence|auto].
  - left. destruct (all_lines db (v_tx_id ev)) as [|e l] eqn:El; [reflexivity|].
    exfalso. unfold validate_transaction_entries, v_count, lines_of in Hv.
    rewrite (filter_none (entry_visible s db)) in Hv; [discriminate|].
    intros x _. now rewrite entry_visible_eq.
Qed.

Lemma ledger_invariant_preserved (s : session) (db : database) (sts : list statement) :
  Forall keeps_header sts ->
  ledger_invariant db = true ->
  ledger_invariant (snd (run_transaction s db sts)) = true.
Proof.
  intros Hk Hinv. unfold run_transaction.
  destruct (exec_all s (mktxn db []) sts) as [t|e] eqn:He; [|exact Hinv].
  destruct (snd (fire_deferred s (cur t) (pending t))) as [|m] eqn:Hf; [|exact Hinv].
  cbn [snd]. apply ledger_invariant_spec. intros h.
  destruct (in_dec N.eq_dec h (map v_tx_id (pending t))) as [Hin|Hout].
  - apply in_map_iff in Hin. destruct Hin as (ev & <- & Hev).
    apply (validate_pass_header_ok s).
    now apply (fire_deferred_passed s (cur t) (pending t) Hf).
  - rewrite (header_ok_lines (cur t) db h).
    + now apply ledger_invariant_spec.
    + apply (exec_all_untouched s sts h Hk (mktxn db []) t He).
      intros ev Hev Heq. apply Hout. rewrite <- Heq. now apply in_map.
Qed.

(** Every state reached from one that satisfies the core contract, through
    transactions of any sessions whose UPDATEs keep [transaction_id],
    satisfies it. *)
Lemma ledger_invariant_history (h : list (session * list statement)) :
  Forall (fun p => Forall keeps_header (snd p)) h ->
  forall db, ledger_invariant db = true -> ledger_invariant (run_history db h) = true.
Proof.
  induction 1 as [|[s sts] h Hp _ IH]; intros db Hinv; cbn [run_history].
  - exact Hinv.
  - apply IH. now apply ledger_invariant_preserved.
Qed.

(** ** Deleting a header *)

Lemma fire_deferred_all_raise (s : session) (db : database)
  (q : list trigger_event) (m : string) :
  q <> [] ->
  (forall ev, In ev q -> validate_transaction_entries s db ev = RAISE_EXCEPTION m) ->
  snd (fire_deferred s db q) = RAISE_EXCEPTION m.
Proof.
  destruct q as [|ev q]; [congruence|]. intros _ H. cbn [fire_deferred].
  now rewrite (H ev (or_introl eq_refl)).
Qed.

(** Any transaction that is the delete of a header with lines is rejected:
    the cascade queues a check per deleted line, and each finds no line. *)
Lemma delete_header_with_lines_aborts
  (s : session) (db : database) (w : header -> bool) (h : header) :
  In h (transactions_tbl db) ->
  w h = true ->
  header_visible s db h = true ->
  all_lines db (transactions.id h) <> [] ->
  run_transaction s db [DELETE_transactions w] = (Aborted (surfaced TooFewLines), db).
Proof.
  intros Hin Hw Hvis Hlines.
  unfold run_transaction. cbn [exec_all exec bind delete_headers cur pending app].
  set (hit := fun h0 => w h0 && header_visible s db h0).
  set (gone := map transactions.id (filter hit (transactions_tbl db))).
  set (cascaded := fun e => mem (transaction_entries.transaction_id e) gone).
  rewrite (fire_deferred_all_raise s _ _ msg_too_few_lines); [reflexivity| |].
  - destruct (all_lines db (transactions.id h)) as [|e l] eqn:El; [congruence|].
    assert (He : In e (all_lines db (transactions.id h))) by (rewrite El; now left).
    apply in_all_lines in He. destruct He as [He Htx].
    assert (Hc : In e (filter cascaded (entries_tbl db))).
    { apply filter_In. split; [assumption|]. unfold cascaded. apply mem_In.
      rewrite Htx. unfold gone. apply in_map. apply filter_In.
      split; [assumption|]. unfold hit. now rewrite Hw, Hvis. }
    intros Hnil. apply map_eq_nil in Hnil. rewrite Hnil in Hc. destruct Hc.
  - intros ev Hev. apply in_map_iff in Hev. destruct Hev as (e & <- & He).
    apply filter_In in He. destruct He as [_ Hc].
    apply validate_no_lines. cbn [v_tx_id]. unfold all_lines. cbn [entries_tbl].
    apply filter_filter_none. intros x _ Hx. apply N.eqb_neq. intros Hxe.
    unfold cascaded in Hx, Hc. rewrite Hxe, Hc in Hx. discriminate.
Qed.

(** C7. Header 1 of [Sample.db1] has two balancing lines.  The transaction
    that only deletes that header is rejected, for the service role and for a
    member of the company alike: the cascade removes both lines, the two
    queued checks find no line, and the rollback restores header and lines. *)
Theorem C7_header_delete_is_rejected :
  all_lines Sample.db1 1%N <> []
  /\ run_transaction Sample.service_role Sample.db1 Sample.delete_header
     = (Aborted (surfaced TooFewLines), Sample.db1)
  /\ run_transaction Sample.member Sample.db1 Sample.delete_header
     = (Aborted (surfaced TooFewLines), Sample.db1).
Proof.
  split; [vm_compute; discriminate|]. split.
  - apply (delete_header_with_lines_aborts Sample.service_role Sample.db1
             (Sample.header_is 1%N) (Sample.head 1%N 1%N)).
    + vm_compute. now left.
    + reflexivity.
    + reflexivity.
    + vm_compute. discriminate.
  - apply (delete_header_with_lines_aborts Sample.member Sample.db1
             (Sample.header_is 1%N) (Sample.head 1%N 1%N)).
    + vm_compute. now left.
    + reflexivity.
    + reflexivity.
    + vm_compute. discriminate.
Qed.

(** ** How often the check runs *)

Lemma validate_is_check (s : session) (db : database) (ev : trigger_event) :
  validate_transaction_entries s db ev = as_result (Spec.check s db (v_tx_id ev)).
Proof.
  unfold validate_transaction_entries, Spec.check.
  destruct (v_count s db (v_tx_id ev) <? 2)%Z; [reflexivity|].
  now destruct (Numeric.neqb (v_sum s db (v_tx_id ev)) Numeric.zero).
Qed.

Lemma fire_deferred_dirty (s : session) (db : database) (q : list trigger_event) :
  forall seen,
    (forall h, In h seen -> Spec.check s db h = None) ->
    snd (fire_deferred s db q)
    = as_result (Spec.committing s db (Spec.dirty_from seen q)).
Proof.
  induction q as [|ev q IH]; intros seen Hseen; cbn [fire_deferred Spec.dirty_from].
  - reflexivity.
  - rewrite validate_is_check.
    destruct (mem (v_tx_id ev) seen) eqn:Em.
    + apply mem_In in Em. rewrite (Hseen _ Em). cbn [as_result].
      specialize (IH seen Hseen).
      destruct (fire_deferred s db q) as [log r]. exact IH.
    + cbn [Spec.committing].
      destruct (Spec.check s db (v_tx_id ev)) as [v|] eqn:Ec.
      * destruct v; reflexivity.
      * cbn [as_result].
        assert (Hseen' : forall h, In h (v_tx_id ev :: seen) -> Spec.check s db h = None).
        { intros h [<-|Hh]; auto. }
        specialize (IH (v_tx_id ev :: seen) Hseen').
        destruct (fire_deferred s db q) as [log r]. exact IH.
Qed.

Lemma fire_deferred_log (s : session) (db : database) (q : list trigger_event) :
  match snd (fire_deferred s db q) with
  | RETURN_NULL => fst (fire_deferred s db q) = map v_tx_id q
  | RAISE_EXCEPTION _ => exists rest, map v_tx_id q = fst (fire_deferred s db q) ++ rest
  end.
Proof.
  induction q as [|ev q IH]; cbn [fire_deferred].
  - reflexivity.
  - destruct (validate_transaction_entries s db ev) as [|m].
    + destruct (fire_deferred s db q) as [log r]. cbn [fst snd map] in *.
      destruct r as [|m'].
      * now rewrite IH.
      * destruct IH as [rest Hrest]. exists rest. cbn [app]. now rewrite Hrest.
    + cbn [fst snd map]. exists (map v_tx_id q). reflexivity.
Qed.

(** C6, as the code has it.  At commit the validation function runs once for
    every queued row event, in queue order, up to the first exception: a commit
    that passes has run it once per mutated row.  Every one of these runs is
    the check of the event's header on the rows present at commit, so the
    result is that of checking each distinct affected header once, in the
    order the headers were first touched. *)
Theorem C6_one_check_per_row_event (s : session) (db : database) (q : list trigger_event) :
  match snd (fire_deferred s db q) with
  | RETURN_NULL => fst (fire_deferred s db q) = map v_tx_id q
  | RAISE_EXCEPTION _ => exists rest, map v_tx_id q = fst (fire_deferred s db q) ++ rest
  end
  /\ Forall (fun ev => validate_transaction_entries s db ev
                       = as_result (Spec.check s db (v_tx_id ev))) q
  /\ snd (fire_deferred s db q)
     = as_result (Spec.committing s db (Spec.dirty_headers q)).
Proof.
  split; [apply fire_deferred_log|]. split.
  - apply Forall_forall. intros ev _. apply validate_is_check.
  - apply fire_deferred_dirty. intros h [].
Qed.

(** The replacement of the lines of header 1 (two rows deleted, three
    inserted) commits after five runs of the check, all for header 1. *)
Lemma C6_counterexample :
  fst (run_transaction Sample.service_role Sample.db1 Sample.replace_lines) = Committed
  /\ invocations Sample.service_role Sample.db1 Sample.replace_lines
     = [1; 1; 1; 1; 1]%N
  /\ ~ Spec.checked_once_per_header Sample.service_role Sample.db1 Sample.replace_lines.
Proof.
  split; [reflexivity|]. split; [reflexivity|].
  intros H. specialize (H 1%N). vm_compute in H.
  specialize (H (or_introl eq_refl)). discriminate.
Qed.

(** ** What the exception says *)

Lemma eqb_two_values (x : Numeric.t) (u v : Z) (k : nat) :
  u <> v ->
  Numeric.eqb x (Numeric.Fin u k) = true ->
  Numeric.eqb x (Numeric.Fin v k) = true -> False.
Proof.
  intros Hne. destruct x as [a r| | |]; try discriminate.
  cbn [Numeric.eqb]. intros H1 H2.
  apply Z.eqb_eq in H1, H2. rewrite H1 in H2. unfold Numeric.rescale in H2.
  apply Z.mul_cancel_r in H2; [congruence|].
  apply Z.pow_nonzero; lia.
Qed.

(** C8, as the code has it.  The validation function has three results: no
    exception, or one of two fixed, distinct texts; which one depends on the
    kind of violation alone, so the surfaced failure tells too-few-lines from
    unbalanced and nothing more. *)
Theorem C8_two_fixed_messages (s : session) (db : database) (ev : trigger_event) :
  validate_transaction_entries s db ev = as_result (Spec.check s db (v_tx_id ev))
  /\ (validate_transaction_entries s db ev = RETURN_NULL
      \/ validate_transaction_entries s db ev = RAISE_EXCEPTION msg_too_few_lines
      \/ validate_transaction_entries s db ev = RAISE_EXCEPTION msg_unbalanced)
  /\ msg_too_few_lines <> msg_unbalanced
  /\ (forall s' db' ev',
        Spec.check s' db' (v_tx_id ev') = Spec.check s db (v_tx_id ev) ->
        validate_transaction_entries s' db' ev' = validate_transaction_entries s db ev).
Proof.
  split; [apply validate_is_check|]. split; [|split].
  - destruct (validate_cases s db ev) as [[_ H]|[(_ & _ & H)|(_ & _ & H)]]; auto.
  - exact msg_distinct.
  - intros s' db' ev' H. now rewrite !validate_is_check, H.
Qed.

(** Headers 3 and 4 fail with the same exception, and so do sums of 10.00
    and 20.00: no reading of the message gives back the header or the sum. *)
Lemma C8_counterexample :
  run_transaction Sample.service_role Sample.db1 Sample.off_by_ten
  = (Aborted (raise_exception msg_unbalanced), Sample.db1)
  /\ run_transaction Sample.service_role Sample.db1 Sample.off_by_twenty
     = (Aborted (raise_exception msg_unbalanced), Sample.db1)
  /\ ~ Spec.failure_names_header
  /\ ~ Spec.failure_includes_sum.
Proof.
  split; [reflexivity|]. split; [reflexivity|].
  set (l8 := Sample.line 8%N 3%N 1%N 10%N (Numeric.Fin 10000 2)).
  set (l9 := Sample.line 9%N 3%N 1%N 11%N (Numeric.Fin (-9000) 2)).
  set (m8 := Sample.line 8%N 4%N 1%N 10%N (Numeric.Fin 10000 2)).
  set (m9 := Sample.line 9%N 4%N 1%N 11%N (Numeric.Fin (-8000) 2)).
  set (dbA := with_entries Sample.db1 (entries_tbl Sample.db1 ++ [l8; l9])).
  set (dbB := with_entries Sample.db1 (entries_tbl Sample.db1 ++ [m8; m9])).
  split.
  - intros [header_of H].
    pose proof (H Sample.service_role dbA (ev_INSERT l8) msg_unbalanced eq_refl) as HA.
    pose proof (H Sample.service_role dbB (ev_INSERT m8) msg_unbalanced eq_refl) as HB.
    cbn in HA, HB. congruence.
  - intros [sum_of H].
    pose proof (H Sample.service_role dbA (ev_INSERT l8) eq_refl) as HA.
    pose proof (H Sample.service_role dbB (ev_INSERT m8) eq_refl) as HB.
    change (v_sum Sample.service_role dbA (v_tx_id (ev_INSERT l8)))
      with (Numeric.Fin 1000 2) in HA.
    change (v_sum Sample.service_role dbB (v_tx_id (ev_INSERT m8)))
      with (Numeric.Fin 2000 2) in HB.
    apply (eqb_two_values (sum_of msg_unbalanced) 1000 2000 2); [lia|assumption..].
Qed.

(** ** The denormalised tenant of a line *)

Lemma tenant_consistent_spec (db : database) :
  tenant_consistent db = true
  <-> (forall e h, In e (entries_tbl db) -> In h (transactions_tbl db) ->
         transactions.id h = transaction_entries.transaction_id e ->
         transaction_entries.company_id e = transactions.company_id h).
Proof.
  unfold tenant_consistent. rewrite forallb_forall. split.
  - intros H e h He Hh Hid. specialize (H e He). rewrite forallb_forall in H.
    specialize (H h Hh). apply orb_true_iff in H. destruct H as [H|H].
    + apply negb_true_iff, N.eqb_neq in H. contradiction.
    + now apply N.eqb_eq.
  - intros H e He. apply forallb_forall. intros h Hh.
    destruct (N.eqb_spec (transactions.id h) (transaction_entries.transaction_id e)) as [E|E].
    + cbn [negb orb]. apply N.eqb_eq. now apply H.
    + reflexivity.
Qed.

Lemma onSubmit_rows_tenant (gen : nat -> uuid) (transactionId currentCompany_id : uuid)
  (signedLines : list signedLine) :
  forall k r, In r (onSubmit_rows gen k transactionId currentCompany_id signedLines) ->
    transaction_entries.transaction_id r = transactionId
    /\ transaction_entries.company_id r = currentCompany_id.
Proof.
  induction signedLines as [|line rest IH]; intros k r; cbn [onSubmit_rows].
  - intros [].
  - intros [<-|Hr]; [now split|]. now apply (IH (S k)).
Qed.

(** C9, as the code has it.  The store checks nothing about a line's
    [company_id]; it stays equal to the header's through the statements that
    keep it so: an INSERT whose rows carry the tenant of the header they name
    (the rows [onSubmit] builds for a header of the current company are
    such), an UPDATE that changes neither [transaction_id] nor [company_id],
    and any DELETE of lines. *)
Theorem C9_tenant_kept_by_matching_writes
  (s : session) (t t' : txn) (st : statement) :
  tenant_consistent (cur t) = true ->
  keeps_tenant (cur t) st ->
  exec s t st = OK t' ->
  tenant_consistent (cur t') = true
  /\ (forall gen k transactionId currentCompany_id signedLines,
        (forall h, In h (transactions_tbl (cur t)) ->
           transactions.id h = transactionId ->
           transactions.company_id h = currentCompany_id) ->
        keeps_tenant (cur t)
          (INSERT_transaction_entries
             (onSubmit_rows gen k transactionId currentCompany_id signedLines))).
Proof.
  intros Hc Hk He. split.
  - rewrite tenant_consistent_spec in *.
    destruct st as [rows|w f|w|rows|w f|w]; cbn [keeps_tenant exec] in *;
      try contradiction.
    + destruct (insert_entries_ok s rows t t' He) as (Hes & _ & Hts & _).
      rewrite Hes, Hts. intros e h Hin Hh Hid.
      apply in_app_or in Hin. destruct Hin as [Hin|Hin]; [now apply Hc|].
      now apply (Hk e h).
    + unfold update_entries in He.
      destruct (negb (forallb _ _)); [discriminate|].
      destruct (negb (distinct _)); [discriminate|].
      destruct (negb (forallb _ _)); [discriminate|].
      injection He as <-. cbn [cur entries_tbl transactions_tbl with_entries].
      intros e' h Hin Hh Hid. apply in_map_iff in Hin.
      destruct Hin as (e & <- & Hin).
      destruct (w e && entry_visible s (cur t) e).
      * destruct (Hk e) as [Htx Hco]. rewrite Hco. apply Hc; congruence.
      * now apply Hc.
    + unfold delete_entries in He. injection He as <-.
      cbn [cur entries_tbl transactions_tbl with_entries].
      intros e h Hin Hh Hid. apply filter_In in Hin. destruct Hin as [Hin _].
      now apply Hc.
  - intros gen k transactionId currentCompany_id signedLines Hh.
    cbn [keeps_tenant]. intros r h Hr Hin Hid.
    destruct (onSubmit_rows_tenant gen transactionId currentCompany_id signedLines k r Hr)
      as [Htx Hco].
    rewrite Hco. symmetry. apply Hh; congruence.
Qed.

Lemma C9_witness :
  tenant_consistent
    (with_entries Sample.db1
       (entries_tbl Sample.db1
        ++ onSubmit_rows (fun k => N.of_nat (20 + k)) 0 2%N 1%N
             [mksignedLine 10%N None (Numeric.Fin 2500 2);
              mksignedLine 11%N None (Numeric.Fin (-2500) 2)])) = true.
Proof.
  refine (proj1 (C9_tenant_kept_by_matching_writes Sample.service_role
            (mktxn Sample.db1 []) (mktxn _ _)
            (INSERT_transaction_entries
               (onSubmit_rows (fun k => N.of_nat (20 + k)) 0 2%N 1%N
                  [mksignedLine 10%N None (Numeric.Fin 2500 2);
                   mksignedLine 11%N None (Numeric.Fin (-2500) 2)]))
            eq_refl _ eq_refl)).
  cbn [keeps_tenant]. intros r h Hr Hh Hid.
  vm_compute in Hr. vm_compute in Hh.
  destruct Hr as [<-|[<-|[]]]; destruct Hh as [<-|[<-|[]]];
    first [reflexivity | discriminate Hid].
Defined.

(** A header of company 1 receives two balancing lines tagged with company 2
    and the transaction commits; a committed UPDATE re-tags stored lines.  The
    policy's WITH CHECK expression holds of such a row for a user who belongs
    to both companies. *)
Lemma C9_counterexample :
  tenant_consistent Sample.db1 = true
  /\ fst (run_transaction Sample.service_role Sample.db1 Sample.foreign_lines) = Committed
  /\ tenant_consistent
       (snd (run_transaction Sample.service_role Sample.db1 Sample.foreign_lines)) = false
  /\ fst (run_transaction Sample.service_role Sample.db1 Sample.retag) = Committed
  /\ tenant_consistent
       (snd (run_transaction Sample.service_role Sample.db1 Sample.retag)) = false
  /\ WITH_CHECK Company_members_manage_transaction_entries Sample.member Sample.db1
       (Sample.line 8%N 3%N 2%N 10%N (Numeric.Fin 10000 2)) = true.
Proof. vm_compute. repeat split; reflexivity. Qed.

(** ** Who reaches a ledger line *)

Lemma combine_restrictive {R : Type} (ps : list (policy R)) (p : policy R)
  (qual : policy R -> bool) :
  In p ps -> permissive p = false -> combine ps qual = true -> qual p = true.
Proof.
  intros Hin Hp H. unfold combine in H. apply andb_true_iff in H.
  destruct H as [_ H]. rewrite forallb_forall in H.
  specialize (H p Hin). now rewrite Hp in H.
Qed.

Lemma entry_visible_member (s : session) (db : database) (e : entry) :
  bypass_rls s = false ->
  entry_visible s db e = true ->
  company_member db (transaction_entries.company_id e) (auth_uid s) = true.
Proof.
  intros Hb H. unfold entry_visible, row_security_using in H.
  rewrite Hb in H. cbn [orb] in H.
  apply (combine_restrictive transaction_entries_policies
           Company_members_manage_transaction_entries _ (or_introl eq_refl) eq_refl H).
Qed.

Lemma entry_writable_member (s : session) (db : database) (e : entry) :
  bypass_rls s = false ->
  entry_writable s db e = true ->
  company_member db (transaction_entries.company_id e) (auth_uid s) = true.
Proof.
  intros Hb H. unfold entry_writable, row_security_with_check in H.
  rewrite Hb in H. cbn [orb] in H.
  apply (combine_restrictive transaction_entries_policies
           Company_members_manage_transaction_entries _ (or_introl eq_refl) eq_refl H).
Qed.

Lemma company_member_spec (db : database) (company : uuid) (uid : option uuid) :
  company_member db company uid = true
  <-> exists u cu, uid = Some u /\ In cu (company_users_tbl db)
                   /\ company_users.company_id cu = company
                   /\ company_users.user_id cu = u.
Proof.
  unfold company_member. destruct uid as [u|].
  - rewrite existsb_exists. split.
    + intros (cu & Hin & H). apply andb_true_iff in H. destruct H as [H1 H2].
      apply N.eqb_eq in H1, H2. exists u, cu. auto.
    + intros (u' & cu & [= <-] & Hin & H1 & H2). exists cu. split; [assumption|].
      apply andb_true_iff. split; now apply N.eqb_eq.
  - split; [discriminate|]. intros (u & cu & H & _). discriminate.
Qed.

Lemma not_member_neq (db : database) (company c : uuid) (uid : option uuid) :
  company_member db company uid = false ->
  company_member db c uid = true ->
  (c =? company)%N = false.
Proof.
  intros Hn Hm. apply N.eqb_neq. intros ->. congruence.
Qed.

(** No statement on the ledger lines issued by a session under row security
    changes the lines of a company it has no membership in. *)
Lemma exec_keeps_foreign_tenant
  (s : session) (t t' : txn) (st : statement) (company : uuid) :
  bypass_rls s = false ->
  on_transaction_entries st = true ->
  company_member (cur t) company (auth_uid s) = false ->
  exec s t st = OK t' ->
  tenant_lines (cur t') company = tenant_lines (cur t) company.
Proof.
  intros Hb Hon Hn He. unfold tenant_lines.
  destruct st as [rows|w f|w|rows|w f|w]; try discriminate; cbn [exec] in He.
  - destruct (insert_entries_ok s rows t t' He) as (Hes & _ & _ & _ & _ & _ & Hwr).
    rewrite Hes, filter_app.
    rewrite (filter_none _ rows); [apply app_nil_r|].
    intros r Hr. apply (not_member_neq (cur t) company _ (auth_uid s) Hn).
    apply entry_writable_member; auto.
  - unfold update_entries in He.
    destruct (forallb (fun e => entry_writable s (cur t) (f e))
                (filter (fun e => w e && entry_visible s (cur t) e) (entries_tbl (cur t))))
      eqn:Ewr; cbn [negb] in He; [|discriminate].
    destruct (negb (distinct _)); [discriminate|].
    destruct (negb (forallb _ _)); [discriminate|].
    injection He as <-. cbn [cur entries_tbl with_entries].
    apply filter_map_unaffected. intros x Hx.
    destruct (w x && entry_visible s (cur t) x) eqn:Eh; [right|now left].
    rewrite forallb_forall in Ewr.
    assert (Hin : In x (filter (fun e => w e && entry_visible s (cur t) e)
                          (entries_tbl (cur t)))) by (apply filter_In; auto).
    apply andb_true_iff in Eh. destruct Eh as [_ Ev]. split.
    + apply (not_member_neq (cur t) company _ (auth_uid s) Hn).
      now apply entry_visible_member.
    + apply (not_member_neq (cur t) company _ (auth_uid s) Hn).
      apply entry_writable_member; auto.
  - unfold delete_entries in He. injection He as <-.
    cbn [cur entries_tbl with_entries].
    apply (filter_filter_unaffected
             (fun e => (transaction_entries.company_id e =? company)%N)
             (fun e => w e && entry_visible s (cur t) e)).
    intros x _ Eh. apply andb_true_iff in Eh. destruct Eh as [_ Ev].
    apply (not_member_neq (cur t) company _ (auth_uid s) Hn).
    now apply entry_visible_member.
Qed.

(** The contract of the specification is the qualification of the policy on
    [companies]. *)
Lemma canAccess_is_companies_policy (s : session) (db : database) (company : uuid) :
  Spec.canAccess s db company = Company_members_manage_companies_qual s db company.
Proof. reflexivity. Qed.

(** A restrictive policy adds its test to whatever the other policies of
    the table decide. *)
Lemma combine_cons_restrictive {R : Type} (p : policy R) (ps : list (policy R))
  (qual : policy R -> bool) :
  permissive p = false ->
  combine (p :: ps) qual = qual p && combine ps qual.
Proof.
  intros Hp. unfold combine. cbn [existsb forallb]. rewrite Hp. cbn [andb orb].
  destruct (qual p); cbn [andb]; [reflexivity|apply andb_false_r].
Qed.

(** C5, as the code has it.  For a session under row security the policy of
    the ledger lines tests exactly whether a [company_users] row (of any role)
    links [auth.uid()] to the line's [company_id], and as a restrictive policy
    its test is required besides whatever other policies of the table decide:
    the decision, for reading and for writing, is that membership together
    with the decision of the other policies, so it is true only if the
    membership exists.  [user_roles], and with it the global admin role, is
    not consulted.  So a principal without membership in a company, global
    admin or not, passes for none of its lines, gets none of them from a
    SELECT and changes none of them by an INSERT, UPDATE or DELETE on the
    table. *)
Theorem C5_membership_is_required
  (s : session) (db : database) (others : list (policy entry)) :
  bypass_rls s = false ->
  (forall e,
     row_security_using (transaction_entries_policies ++ others) s db e
     = company_member db (transaction_entries.company_id e) (auth_uid s)
       && combine others (fun p => USING p s db e)
     /\ row_security_with_check (transaction_entries_policies ++ others) s db e
        = company_member db (transaction_entries.company_id e) (auth_uid s)
          && combine others (fun p => WITH_CHECK p s db e))
  /\ (forall e, entry_visible s db e = true \/ entry_writable s db e = true ->
        company_member db (transaction_entries.company_id e) (auth_uid s) = true)
  /\ (forall urs e,
        USING Company_members_manage_transaction_entries s (with_user_roles db urs) e
        = USING Company_members_manage_transaction_entries s db e
        /\ WITH_CHECK Company_members_manage_transaction_entries s
             (with_user_roles db urs) e
           = WITH_CHECK Company_members_manage_transaction_entries s db e)
  /\ (forall company,
        company_member db company (auth_uid s) = false ->
        (forall e, transaction_entries.company_id e = company ->
           row_security_using (transaction_entries_policies ++ others) s db e = false
           /\ row_security_with_check (transaction_entries_policies ++ others) s db e
              = false)
        /\ (forall w e, In e (SELECT_transaction_entries s db w) ->
              transaction_entries.company_id e <> company)
        /\ (forall q st t',
              on_transaction_entries st = true ->
              exec s (mktxn db q) st = OK t' ->
              tenant_lines (cur t') company = tenant_lines db company)).
Proof.
  intros Hb.
  assert (Hdec : forall e,
            row_security_using (transaction_entries_policies ++ others) s db e
            = company_member db (transaction_entries.company_id e) (auth_uid s)
              && combine others (fun p => USING p s db e)
            /\ row_security_with_check (transaction_entries_policies ++ others) s db e
               = company_member db (transaction_entries.company_id e) (auth_uid s)
                 && combine others (fun p => WITH_CHECK p s db e)).
  { intros e. unfold row_security_using, row_security_with_check.
    rewrite Hb. cbn [orb transaction_entries_policies app].
    now rewrite !combine_cons_restrictive by reflexivity. }
  split; [exact Hdec|]. split; [|split].
  - intros e [H|H]; [now apply entry_visible_member|now apply entry_writable_member].
  - intros urs e. split; reflexivity.
  - intros company Hn. split; [|split].
    + intros e <-. destruct (Hdec e) as [-> ->]. now rewrite Hn.
    + intros w e He Hc. unfold SELECT_transaction_entries in He.
      apply filter_In in He. destruct He as [_ He].
      apply andb_true_iff in He. destruct He as [_ Hv].
      apply (entry_visible_member s db e Hb) in Hv. congruence.
    + intros q st t' Hon He.
      apply (exec_keeps_foreign_tenant s (mktxn db q) t' st company Hb Hon Hn He).
Qed.

(** With a policy that grants every row beside the declared one, the member
    of company 1 passes for a line of company 1 and the global admin without
    membership does not. *)
Lemma C5_witness :
  row_security_using
    (transaction_entries_policies
     ++ [mkpolicy true (fun _ _ _ => true) (fun _ _ _ => true)])
    Sample.member Sample.db1 (Sample.line 1%N 1%N 1%N 10%N (Numeric.Fin 10000 2))
  = true
  /\ row_security_using
       (transaction_entries_policies
        ++ [mkpolicy true (fun _ _ _ => true) (fun _ _ _ => true)])
       Sample.global_admin Sample.db1
       (Sample.line 1%N 1%N 1%N 10%N (Numeric.Fin 10000 2))
     = false.
Proof.
  split.
  - destruct (C5_membership_is_required Sample.member Sample.db1
                [mkpolicy true (fun _ _ _ => true) (fun _ _ _ => true)] eq_refl)
      as (H & _).
    rewrite (proj1 (H (Sample.line 1%N 1%N 1%N 10%N (Numeric.Fin 10000 2)))).
    reflexivity.
  - destruct (C5_membership_is_required Sample.global_admin Sample.db1
                [mkpolicy true (fun _ _ _ => true) (fun _ _ _ => true)] eq_refl)
      as (_ & _ & _ & H).
    destruct (H 1%N eq_refl) as (H1 & _).
    apply (H1 (Sample.line 1%N 1%N 1%N 10%N (Numeric.Fin 10000 2)) eq_refl).
Defined.

(** The claim fails in both directions.  The user with the global admin role
    and no membership: [canAccess] of the specification holds for company 1,
    the policy does not.  The member of company 1: [canAccess] holds, and the
    decision on a line of company 1 is false all the same, for the table has
    no permissive policy. *)
Lemma C5_counterexample :
  has_role Sample.db1 (auth_uid Sample.global_admin) admin = true
  /\ Spec.canAccess Sample.global_admin Sample.db1 1%N = true
  /\ In (Sample.line 1%N 1%N 1%N 10%N (Numeric.Fin 10000 2)) (entries_tbl Sample.db1)
  /\ USING Company_members_manage_transaction_entries Sample.global_admin Sample.db1
       (Sample.line 1%N 1%N 1%N 10%N (Numeric.Fin 10000 2)) = false
  /\ entry_visible Sample.global_admin Sample.db1
       (Sample.line 1%N 1%N 1%N 10%N (Numeric.Fin 10000 2)) = false
  /\ entry_writable Sample.global_admin Sample.db1
       (Sample.line 1%N 1%N 1%N 10%N (Numeric.Fin 10000 2)) = false
  /\ SELECT_transaction_entries Sample.global_admin Sample.db1 (fun _ => true) = []
  /\ company_member Sample.db1 1%N (auth_uid Sample.member) = true
  /\ Spec.canAccess Sample.member Sample.db1 1%N = true
  /\ entry_visible Sample.member Sample.db1
       (Sample.line 1%N 1%N 1%N 10%N (Numeric.Fin 10000 2)) = false
  /\ entry_writable Sample.member Sample.db1
       (Sample.line 1%N 1%N 1%N 10%N (Numeric.Fin 10000 2)) = false
  /\ ~ (forall s db e,
          bypass_rls s = false ->
          entry_visible s db e
          = Spec.canAccess s db (transaction_entries.company_id e)).
Proof.
  repeat (split; [vm_compute; auto; reflexivity|]).
  intros H.
  specialize (H Sample.global_admin Sample.db1
                (Sample.line 1%N 1%N 1%N 10%N (Numeric.Fin 10000 2)) eq_refl).
  vm_compute in H. discriminate.
Qed.

(** * Further properties of the ledger rules *)

(** ** The core contract over histories *)

(** X1. From a stored state that satisfies the core contract, every history
    of transactions, of any sessions, in which no UPDATE changes the
    [transaction_id] of a line ends in a state that satisfies it: every
    header with a line has at least two lines and a sum of zero. *)
Theorem X1_contract_kept_without_moves
  (h : list (session * list statement)) (db : database) :
  no_moves h ->
  ledger_invariant db = true ->
  ledger_invariant (run_history db h) = true.
Proof. intros Hn. now apply ledger_invariant_history. Qed.

Lemma X1_witness :
  ledger_invariant
    (run_history Sample.db0
       [(Sample.service_role, Sample.setup);
        (Sample.service_role, Sample.replace_lines);
        (Sample.member, Sample.delete_header)]) = true.
Proof.
  apply X1_contract_kept_without_moves; [|reflexivity].
  repeat constructor.
Defined.

(** ** Lines do not vanish *)

Lemma lines_of_sub (s : session) (db : database) (h : uuid) :
  all_lines db h = [] -> lines_of s db h = [].
Proof. unfold lines_of. now intros ->. Qed.

Lemma validate_pass_has_lines (s : session) (db : database) (ev : trigger_event) :
  validate_transaction_entries s db ev = RETURN_NULL ->
  all_lines db (v_tx_id ev) <> [].
Proof.
  intros Hv Hnil. rewrite (validate_no_lines s db ev Hnil) in Hv. discriminate.
Qed.

Lemma lines_kept (s : session) (db : database) (sts : list statement) (h : uuid) :
  Forall keeps_header sts ->
  all_lines db h <> [] ->
  all_lines (snd (run_transaction s db sts)) h <> [].
Proof.
  intros Hk Hl. unfold run_transaction.
  destruct (exec_all s (mktxn db []) sts) as [t|e] eqn:He; [|exact Hl].
  destruct (snd (fire_deferred s (cur t) (pending t))) as [|m] eqn:Hf; [|exact Hl].
  cbn [snd].
  destruct (in_dec N.eq_dec h (map v_tx_id (pending t))) as [Hin|Hout].
  - apply in_map_iff in Hin. destruct Hin as (ev & <- & Hev).
    apply (validate_pass_has_lines s).
    now apply (fire_deferred_passed s (cur t) (pending t) Hf).
  - rewrite (exec_all_untouched s sts h Hk (mktxn db []) t He); [exact Hl|].
    intros ev Hev Heq. apply Hout. rewrite <- Heq. now apply in_map.
Qed.

(** ** Keys and references *)

Lemma distinct_app_single (l : list uuid) (x : uuid) :
  distinct l = true -> mem x l = false -> distinct (l ++ [x]) = true.
Proof.
  induction l as [|y l IH]; cbn [app distinct]; intros Hd Hx.
  - reflexivity.
  - apply andb_true_iff in Hd. destruct Hd as [Hy Hd].
    cbn [mem existsb] in Hx. apply orb_false_iff in Hx. destruct Hx as [Hxy Hx].
    apply andb_true_iff. split; [|now apply IH].
    rewrite mem_app. cbn [mem existsb]. rewrite orb_false_r.
    apply negb_true_iff. apply orb_false_iff. split; [now apply negb_true_iff|].
    rewrite N.eqb_sym. exact Hxy.
Qed.

Lemma mem_map_filter {A : Type} (f : A -> uuid) (p : A -> bool) (l : list A) (x : uuid) :
  mem x (map f l) = false -> mem x (map f (filter p l)) = false.
Proof.
  induction l as [|a l IH]; cbn [map filter mem existsb]; [auto|].
  intros H. apply orb_false_iff in H. destruct H as [Ha Hl].
  destruct (p a); cbn [map mem existsb]; [|now apply IH].
  apply orb_false_iff. split; [exact Ha|now apply IH].
Qed.

Lemma distinct_map_filter {A : Type} (f : A -> uuid) (p : A -> bool) (l : list A) :
  distinct (map f l) = true -> distinct (map f (filter p l)) = true.
Proof.
  induction l as [|a l IH]; cbn [map filter distinct]; [auto|].
  intros H. apply andb_true_iff in H. destruct H as [Ha Hl].
  destruct (p a); cbn [map distinct]; [|now apply IH].
  apply andb_true_iff. split; [|now apply IH].
  apply negb_true_iff. apply mem_map_filter. now apply negb_true_iff.
Qed.

Lemma insert_all_preserves {R : Type} (ins : txn -> R -> result txn) (P : txn -> Prop) :
  (forall t r t', ins t r = OK t' -> P t -> P t') ->
  forall rows t t', insert_all ins t rows = OK t' -> P t -> P t'.
Proof.
  intros Hstep. induction rows as [|r rows IH]; intros t t'; cbn [insert_all bind].
  - now intros [= <-].
  - destruct (ins t r) as [t1|] eqn:E1; cbn [bind]; [|discriminate].
    intros He Hp. apply (IH t1 t' He). now apply (Hstep t r t1).
Qed.

Lemma references_ok_spec (db : database) (e : entry) :
  references_ok db e = true
  <-> In (transaction_entries.transaction_id e) (header_ids db)
      /\ In (transaction_entries.account_id e) (accounts_tbl db).
Proof. unfold references_ok. now rewrite andb_true_iff, !mem_In. Qed.

Lemma insert_entry_integrity (s : session) (t t' : txn) (r : entry) :
  insert_entry s t r = OK t' -> integrity (cur t) -> integrity (cur t').
Proof.
  unfold insert_entry.
  destruct (negb (entry_writable s (cur t) r)); [discriminate|].
  destruct (mem (transaction_entries.id r) (entry_ids (cur t))) eqn:Ef; [discriminate|].
  destruct (references_ok (cur t) r) eqn:Er; cbn [negb]; [|discriminate].
  intros [= <-] (Hd & Hh & Hr). cbn [cur]. repeat split.
  - unfold entry_ids. cbn [entries_tbl with_entries]. rewrite map_app.
    now apply distinct_app_single.
  - exact Hh.
  - intros e He. cbn [entries_tbl with_entries] in He.
    apply in_app_or in He. destruct He as [He|[<-|[]]]; [now apply Hr|exact Er].
Qed.

Lemma insert_header_integrity (s : session) (t t' : txn) (r : header) :
  insert_header s t r = OK t' -> integrity (cur t) -> integrity (cur t').
Proof.
  unfold insert_header.
  destruct (negb (header_writable s (cur t) r)); [discriminate|].
  destruct (mem (transactions.id r) (header_ids (cur t))) eqn:Ef; [discriminate|].
  intros [= <-] (Hd & Hh & Hr). cbn [cur]. repeat split.
  - exact Hd.
  - unfold header_ids. cbn [transactions_tbl with_transactions]. rewrite map_app.
    now apply distinct_app_single.
  - intros e He. cbn [entries_tbl with_transactions] in He.
    specialize (Hr e He). apply references_ok_spec in Hr. destruct Hr as [H1 H2].
    apply references_ok_spec. split; [|exact H2].
    unfold header_ids. cbn [transactions_tbl with_transactions].
    rewrite map_app. apply in_or_app. now left.
Qed.

(** Every accepted statement keeps the keys unique and the references of the
    lines valid; the cascade of a header delete leaves no line behind. *)
Lemma exec_integrity (s : session) (t t' : txn) (st : statement) :
  exec s t st = OK t' -> integrity (cur t) -> integrity (cur t').
Proof.
  destruct st as [rows|w f|w|rows|w f|w]; cbn [exec].
  - apply (insert_all_preserves (insert_entry s) (fun t => integrity (cur t))).
    intros t0 r t1. apply insert_entry_integrity.
  - unfold update_entries.
    destruct (negb (forallb _ _)); [discriminate|].
    destruct (distinct _) eqn:Ed; cbn [negb]; [|discriminate].
    destruct (forallb (fun e => references_ok (cur t) (f e)) _) eqn:Er;
      cbn [negb]; [|discriminate].
    intros [= <-] (Hd & Hh & Hr). cbn [cur]. repeat split.
    + exact Ed.
    + exact Hh.
    + intros e' He'. cbn [entries_tbl with_entries] in He'.
      apply in_map_iff in He'. destruct He' as (e & <- & He).
      destruct (w e && entry_visible s (cur t) e) eqn:Eh.
      * rewrite forallb_forall in Er.
        apply (Er e). apply filter_In. auto.
      * now apply Hr.
  - unfold delete_entries. intros [= <-] (Hd & Hh & Hr). cbn [cur]. repeat split.
    + unfold entry_ids. cbn [entries_tbl with_entries]. now apply distinct_map_filter.
    + exact Hh.
    + intros e He. cbn [entries_tbl with_entries] in He.
      apply filter_In in He. destruct He as [He _]. now apply Hr.
  - apply (insert_all_preserves (insert_header s) (fun t => integrity (cur t))).
    intros t0 r t1. apply insert_header_integrity.
  - unfold update_headers.
    destruct (negb (forallb _ _)); [discriminate|].
    destruct (distinct _) eqn:Ed; cbn [negb]; [|discriminate].
    destruct (existsb _ _) eqn:Ex; [discriminate|].
    intros [= <-] (Hd & Hh & Hr). cbn [cur]. repeat split.
    + exact Hd.
    + exact Ed.
    + intros e He. cbn [entries_tbl with_transactions] in He.
      specialize (Hr e He). apply references_ok_spec in Hr. destruct Hr as [H1 H2].
      apply references_ok_spec. split; [|exact H2].
      unfold header_ids in *. cbn [transactions_tbl with_transactions].
      apply in_map_iff in H1. destruct H1 as (h0 & Hid & Hh0).
      apply in_map_iff.
      destruct (w h0 && header_visible s (cur t) h0) eqn:Eh.
      * exists (f h0). split; [|apply in_map_iff; exists h0; now rewrite Eh].
        rewrite <- Hid.
        assert (Hnone : forall x, In x (filter (fun h => w h && header_visible s (cur t) h)
                                          (transactions_tbl (cur t))) ->
                  (negb (transactions.id (f x) =? transactions.id x)%N
                   && negb (match all_lines (cur t) (transactions.id x) with
                            | [] => true | _ => false end)) = false).
        { intros x Hx. destruct (negb _ && negb _) eqn:E; [|reflexivity].
          assert (Hc : existsb (fun h => negb (transactions.id (f h) =? transactions.id h)%N
                      && negb (match all_lines (cur t) (transactions.id h) with
                               | [] => true | _ => false end))
                    (filter (fun h => w h && header_visible s (cur t) h)
                       (transactions_tbl (cur t))) = true).
          { apply existsb_exists. exists x. auto. }
          congruence. }
        specialize (Hnone h0). rewrite filter_In in Hnone.
        specialize (Hnone (conj Hh0 Eh)).
        assert (Hl : In e (all_lines (cur t) (transactions.id h0)))
          by (apply in_all_lines; auto).
        destruct (all_lines (cur t) (transactions.id h0)) as [|x l]; [destruct Hl|].
        cbn [negb] in Hnone. rewrite andb_true_r in Hnone.
        apply negb_false_iff, N.eqb_eq in Hnone. exact Hnone.
      * exists h0. split; [exact Hid|]. apply in_map_iff. exists h0. now rewrite Eh.
  - unfold delete_headers. intros [= <-] (Hd & Hh & Hr). cbn [cur]. repeat split.
    + unfold entry_ids. cbn [entries_tbl]. now apply distinct_map_filter.
    + unfold header_ids. cbn [transactions_tbl]. now apply distinct_map_filter.
    + intros e He. cbn [entries_tbl] in He. apply filter_In in He.
      destruct He as [He Hkeep]. apply negb_true_iff in Hkeep.
      specialize (Hr e He). apply references_ok_spec in Hr. destruct Hr as [H1 H2].
      apply references_ok_spec. split; [|exact H2].
      unfold header_ids in *. cbn [transactions_tbl].
      apply in_map_iff in H1. destruct H1 as (h0 & Hid & Hh0).
      apply in_map_iff. exists h0. split; [exact Hid|].
      apply filter_In. split; [exact Hh0|]. apply negb_true_iff.
      destruct (w h0 && header_visible s (cur t) h0) eqn:Eh; [|reflexivity].
      exfalso.
      assert (Hm : mem (transaction_entries.transaction_id e)
                     (map transactions.id
                        (filter (fun h => w h && header_visible s (cur t) h)
                           (transactions_tbl (cur t)))) = true).
      { apply mem_In. rewrite <- Hid. apply in_map. apply filter_In. auto. }
      congruence.
Qed.

Lemma exec_all_integrity (s : session) (sts : list statement) :
  forall t t', exec_all s t sts = OK t' -> integrity (cur t) -> integrity (cur t').
Proof.
  induction sts as [|st sts IH]; intros t t'; cbn [exec_all bind].
  - now intros [= <-].
  - destruct (exec s t st) as [t1|] eqn:E1; cbn [bind]; [|discriminate].
    intros He Hi. apply (IH t1 t' He). now apply (exec_integrity s t t1 st).
Qed.

Lemma run_transaction_integrity (s : session) (db : database) (sts : list statement) :
  integrity db -> integrity (snd (run_transaction s db sts)).
Proof.
  intros Hi. unfold run_transaction.
  destruct (exec_all s (mktxn db []) sts) as [t|e] eqn:He; [|exact Hi].
  destruct (snd (fire_deferred s (cur t) (pending t))); [|exact Hi].
  cbn [snd]. now apply (exec_all_integrity s sts (mktxn db []) t).
Qed.

Lemma run_history_integrity (h : list (session * list statement)) :
  forall db, integrity db -> integrity (run_history db h).
Proof.
  induction h as [|[s sts] h IH]; intros db Hi; cbn [run_history].
  - exact Hi.
  - apply IH. now apply run_transaction_integrity.
Qed.

(** X2. Whatever transactions are run, by whatever sessions, a stored state
    with unique keys, in which every line names a stored header and a stored
    account, stays so: no statement is accepted that duplicates a key or
    points a line at a missing row, and deleting a header takes its lines
    with it. *)
Theorem X2_keys_and_references_kept
  (h : list (session * list statement)) (db : database) :
  integrity db ->
  integrity (run_history db h)
  /\ forall e, In e (entries_tbl (run_history db h)) ->
       In (transaction_entries.transaction_id e) (header_ids (run_history db h)).
Proof.
  intros Hi. pose proof (run_history_integrity h db Hi) as Hi'.
  split; [exact Hi'|]. intros e He.
  destruct Hi' as (_ & _ & Hr). now apply (references_ok_spec _ e), Hr.
Qed.

Lemma sample_db0_integrity : integrity Sample.db0.
Proof. repeat split. intros e []. Qed.

Lemma X2_witness :
  integrity
    (run_history Sample.db0
       [(Sample.service_role, Sample.setup);
        (Sample.service_role, Sample.move_line);
        (Sample.service_role, Sample.foreign_lines)]).
Proof.
  exact (proj1 (X2_keys_and_references_kept
                  [(Sample.service_role, Sample.setup);
                   (Sample.service_role, Sample.move_line);
                   (Sample.service_role, Sample.foreign_lines)]
                  Sample.db0 sample_db0_integrity)).
Defined.

Lemma run_history_lines_kept (h : list (session * list statement)) (tx : uuid) :
  no_moves h ->
  forall db, all_lines db tx <> [] -> all_lines (run_history db h) tx <> [].
Proof.
  induction 1 as [|[s sts] h Hp _ IH]; intros db Hl; cbn [run_history].
  - exact Hl.
  - apply IH. now apply lines_kept.
Qed.

(** X3. A header that has a line keeps having lines, and stays stored,
    through every history in which no UPDATE changes the [transaction_id] of a
    line: no committed transaction deletes the last lines of a header, and
    none deletes a header that has lines. *)
Theorem X3_header_with_lines_stays
  (h : list (session * list statement)) (db : database) (tx : uuid) :
  no_moves h ->
  integrity db ->
  all_lines db tx <> [] ->
  all_lines (run_history db h) tx <> []
  /\ In tx (header_ids (run_history db h)).
Proof.
  intros Hn Hi Hl.
  pose proof (run_history_lines_kept h tx Hn db Hl) as Hl'.
  split; [exact Hl'|].
  destruct (all_lines (run_history db h) tx) as [|e l] eqn:El; [congruence|].
  assert (He : In e (all_lines (run_history db h) tx)) by (rewrite El; now left).
  apply in_all_lines in He. destruct He as [He <-].
  destruct (run_history_integrity h db Hi) as (_ & _ & Hr).
  now apply (references_ok_spec _ e), Hr.
Qed.

Lemma sample_db1_integrity : integrity Sample.db1.
Proof.
  repeat split. intros e He. vm_compute in He.
  repeat (destruct He as [<-|He]; [reflexivity|]). destruct He.
Qed.

Lemma X3_witness :
  all_lines
    (run_history Sample.db1
       [(Sample.member, Sample.delete_header);
        (Sample.service_role, Sample.delete_header);
        (Sample.service_role, [DELETE_transaction_entries (Sample.tx_is 1%N)])]) 1%N <> []
  /\ In 1%N (header_ids
       (run_history Sample.db1
          [(Sample.member, Sample.delete_header);
           (Sample.service_role, Sample.delete_header);
           (Sample.service_role, [DELETE_transaction_entries (Sample.tx_is 1%N)])])).
Proof.
  apply X3_header_with_lines_stays.
  - repeat constructor.
  - exact sample_db1_integrity.
  - vm_compute. discriminate.
Defined.

(** ** No change of the lines without a check *)

Lemma filter_nil_all {A : Type} (f : A -> bool) (l : list A) :
  filter f l = [] -> forall x, In x l -> f x = false.
Proof.
  intros H x Hx. destruct (f x) eqn:E; [|reflexivity].
  assert (Hin : In x (filter f l)) by (apply filter_In; auto).
  rewrite H in Hin. destruct Hin.
Qed.

Lemma map_unhit {A : Type} (hit : A -> bool) (f : A -> A) (l : list A) :
  filter hit l = [] -> map (fun x => if hit x then f x else x) l = l.
Proof.
  intros H. rewrite <- (map_id l) at 2. apply map_ext_in.
  intros x Hx. now rewrite (filter_nil_all hit l H x Hx).
Qed.

Lemma filter_unhit {A : Type} (hit : A -> bool) (l : list A) :
  filter hit l = [] -> filter (fun x => negb (hit x)) l = l.
Proof.
  intros H. apply filter_all. intros x Hx.
  now rewrite (filter_nil_all hit l H x Hx).
Qed.

(** The events a statement queues; when it queues none it has changed no
    line. *)
Lemma exec_events (s : session) (t t' : txn) (st : statement) :
  exec s t st = OK t' ->
  exists new, pending t' = pending t ++ new
              /\ (new = [] -> entries_tbl (cur t') = entries_tbl (cur t)).
Proof.
  destruct st as [rows|w f|w|rows|w f|w]; cbn [exec]; intros He.
  - destruct (insert_entries_ok s rows t t' He) as (Hes & Hp & _).
    exists (map ev_INSERT rows). split; [exact Hp|].
    intros Hn. apply map_eq_nil in Hn. subst rows. now rewrite Hes, app_nil_r.
  - unfold update_entries in He.
    destruct (negb (forallb _ _)); [discriminate|].
    destruct (negb (distinct _)); [discriminate|].
    destruct (negb (forallb _ _)); [discriminate|].
    injection He as <-. cbn [cur pending entries_tbl with_entries].
    eexists. split; [reflexivity|].
    intros Hn. apply map_eq_nil in Hn. now apply map_unhit.
  - unfold delete_entries in He. injection He as <-.
    cbn [cur pending entries_tbl with_entries].
    eexists. split; [reflexivity|].
    intros Hn. apply map_eq_nil in Hn. now apply filter_unhit.
  - destruct (insert_headers_ok s rows t t' He) as [Hes Hp].
    exists []. rewrite app_nil_r. auto.
  - unfold update_headers in He.
    destruct (negb (forallb _ _)); [discriminate|].
    destruct (negb (distinct _)); [discriminate|].
    destruct (existsb _ _); [discriminate|].
    injection He as <-. cbn [cur pending entries_tbl with_transactions].
    exists []. rewrite app_nil_r. auto.
  - unfold delete_headers in He. injection He as <-.
    cbn [cur pending entries_tbl].
    eexists. split; [reflexivity|].
    intros Hn. apply map_eq_nil in Hn.
    match goal with
    | |- filter (fun e => negb (@?c e)) _ = _ => now apply (filter_unhit c)
    end.
Qed.

Lemma exec_all_events (s : session) (sts : list statement) :
  forall t t', exec_all s t sts = OK t' ->
    exists new, pending t' = pending t ++ new
                /\ (new = [] -> entries_tbl (cur t') = entries_tbl (cur t)).
Proof.
  induction sts as [|st sts IH]; intros t t'; cbn [exec_all bind].
  - intros [= <-]. exists []. rewrite app_nil_r. auto.
  - destruct (exec s t st) as [t1|] eqn:E1; cbn [bind]; [|discriminate].
    intros He. destruct (exec_events s t t1 st E1) as (n1 & Hp1 & Hs1).
    destruct (IH t1 t' He) as (n2 & Hp2 & Hs2).
    exists (n1 ++ n2). split; [now rewrite Hp2, Hp1, app_assoc|].
    intros Hn. apply app_eq_nil in Hn. destruct Hn as [-> ->].
    now rewrite Hs2, Hs1.
Qed.

Lemma validate_under_row_security (s : session) (db : database) (ev : trigger_event) :
  bypass_rls s = false ->
  validate_transaction_entries s db ev = RAISE_EXCEPTION msg_too_few_lines.
Proof.
  intros Hb. unfold validate_transaction_entries, v_count, lines_of.
  rewrite (filter_none (entry_visible s db)); [reflexivity|].
  intros x _. now rewrite entry_visible_eq.
Qed.

(** X4. A session under row security never changes [transaction_entries]:
    whatever statements its transaction holds, on lines or on headers, the
    lines stored after it are the lines stored before, and a SELECT on the
    table gives it no row.  (The one policy of the table is restrictive, and
    the check at commit, reading under the same policy, rejects every
    cascade.) *)
Theorem X4_no_line_written_under_row_security
  (s : session) (db : database) (sts : list statement) :
  bypass_rls s = false ->
  entries_tbl (snd (run_transaction s db sts)) = entries_tbl db
  /\ forall w, SELECT_transaction_entries s db w = [].
Proof.
  intros Hb. split.
  - unfold run_transaction.
    destruct (exec_all s (mktxn db []) sts) as [t|e] eqn:He; [|reflexivity].
    destruct (snd (fire_deferred s (cur t) (pending t))) as [|m] eqn:Hf; [|reflexivity].
    cbn [snd]. destruct (exec_all_events s sts (mktxn db []) t He) as (new & Hp & Hs).
    cbn [pending cur app] in Hp, Hs. apply Hs.
    destruct new as [|ev new]; [reflexivity|]. exfalso.
    pose proof (fire_deferred_passed s (cur t) (pending t) Hf ev) as Hv.
    rewrite Hp in Hv. specialize (Hv (or_introl eq_refl)).
    now rewrite (validate_under_row_security s (cur t) ev Hb) in Hv.
  - intros w. unfold SELECT_transaction_entries. apply filter_none.
    intros x _. rewrite entry_visible_eq, Hb. apply andb_false_r.
Qed.

Lemma X4_witness :
  entries_tbl
    (snd (run_transaction Sample.member Sample.db1
            [DELETE_transaction_entries (fun _ => true);
             DELETE_transactions (Sample.header_is 2%N)]))
  = entries_tbl Sample.db1.
Proof.
  exact (proj1 (X4_no_line_written_under_row_security Sample.member Sample.db1
                  [DELETE_transaction_entries (fun _ => true);
                   DELETE_transactions (Sample.header_is 2%N)] eq_refl)).
Defined.

(** X5. Every header whose set of lines a committed transaction has changed
    was checked at that commit, provided no UPDATE changed the
    [transaction_id] of a line; and a transaction that queued no check has
    changed no line at all. *)
Theorem X5_changed_headers_are_checked
  (s : session) (db db' : database) (sts : list statement) (tx : uuid) :
  Forall keeps_header sts ->
  run_transaction s db sts = (Committed, db') ->
  (all_lines db' tx <> all_lines db tx -> In tx (invocations s db sts))
  /\ (invocations s db sts = [] -> entries_tbl db' = entries_tbl db).
Proof.
  intros Hk Hrun. unfold run_transaction, invocations in *.
  destruct (exec_all s (mktxn db []) sts) as [t|e] eqn:He; [|discriminate].
  pose proof (fire_deferred_log s (cur t) (pending t)) as Hlog.
  destruct (snd (fire_deferred s (cur t) (pending t))) as [|m]; [|discriminate].
  injection Hrun as <-. rewrite Hlog. split.
  - intros Hchg.
    destruct (in_dec N.eq_dec tx (map v_tx_id (pending t))) as [Hin|Hout]; [exact Hin|].
    exfalso. apply Hchg.
    apply (exec_all_untouched s sts tx Hk (mktxn db []) t He).
    intros ev Hev Heq. apply Hout. rewrite <- Heq. now apply in_map.
  - intros Hnil. apply map_eq_nil in Hnil.
    destruct (exec_all_events s sts (mktxn db []) t He) as (new & Hp & Hs).
    cbn [pending cur app] in Hp, Hs. apply Hs. congruence.
Qed.

Lemma X5_witness :
  In 1%N (invocations Sample.service_role Sample.db1 Sample.replace_lines).
Proof.
  refine (proj1 (X5_changed_headers_are_checked Sample.service_role Sample.db1 _
                   Sample.replace_lines 1%N _ eq_refl) _).
  - repeat constructor.
  - vm_compute. discriminate.
Defined.

(** ** Who reaches a header *)

Lemma header_visible_member (s : session) (db : database) (h : header) :
  bypass_rls s = false ->
  header_visible s db h = company_member db (transactions.company_id h) (auth_uid s).
Proof.
  intros Hb. unfold header_visible, row_security_using, combine. rewrite Hb.
  cbn. now destruct (company_member db (transactions.company_id h) (auth_uid s)).
Qed.

Lemma header_writable_member (s : session) (db : database) (h : header) :
  bypass_rls s = false ->
  header_writable s db h = company_member db (transactions.company_id h) (auth_uid s).
Proof.
  intros Hb. unfold header_writable, row_security_with_check, combine. rewrite Hb.
  cbn. now destruct (company_member db (transactions.company_id h) (auth_uid s)).
Qed.

Lemma insert_header_foreign (s : session) (company : uuid) (t t' : txn) (r : header) :
  bypass_rls s = false ->
  insert_header s t r = OK t' ->
  company_member (cur t) company (auth_uid s) = false ->
  company_member (cur t') company (auth_uid s) = false
  /\ tenant_headers (cur t') company = tenant_headers (cur t) company.
Proof.
  intros Hb. unfold insert_header.
  destruct (header_writable s (cur t) r) eqn:Ew; cbn [negb]; [|discriminate].
  destruct (mem (transactions.id r) (header_ids (cur t))); [discriminate|].
  intros [= <-] Hn. split; [exact Hn|].
  unfold tenant_headers. cbn [cur transactions_tbl with_transactions].
  rewrite filter_app. cbn [filter].
  rewrite header_writable_member in Ew by assumption.
  rewrite (not_member_neq (cur t) company _ (auth_uid s) Hn Ew). apply app_nil_r.
Qed.

Lemma exec_keeps_foreign_headers
  (s : session) (t t' : txn) (st : statement) (company : uuid) :
  bypass_rls s = false ->
  company_member (cur t) company (auth_uid s) = false ->
  exec s t st = OK t' ->
  company_member (cur t') company (auth_uid s) = false
  /\ tenant_headers (cur t') company = tenant_headers (cur t) company.
Proof.
  intros Hb Hn He. unfold tenant_headers.
  destruct st as [rows|w f|w|rows|w f|w]; cbn [exec] in He.
  - destruct (insert_entries_ok s rows t t' He) as (_ & _ & Hts & Hcu & _).
    rewrite Hts. split; [|reflexivity].
    unfold company_member in *. now rewrite Hcu.
  - unfold update_entries in He.
    destruct (negb (forallb _ _)); [discriminate|].
    destruct (negb (distinct _)); [discriminate|].
    destruct (negb (forallb _ _)); [discriminate|].
    injection He as <-. now split.
  - unfold delete_entries in He. injection He as <-. now split.
  - fold (tenant_headers (cur t') company) (tenant_headers (cur t) company).
    apply (insert_all_preserves (insert_header s)
             (fun t0 => company_member (cur t0) company (auth_uid s) = false
                        /\ tenant_headers (cur t0) company = tenant_headers (cur t) company)
             (fun t0 r t1 H0 P0 =>
                let (Hm, Hh) := insert_header_foreign s company t0 t1 r Hb H0 (proj1 P0) in
                conj Hm (eq_trans Hh (proj2 P0))) rows t t' He).
    now split.
  - unfold update_headers in He.
    destruct (forallb (fun h => header_writable s (cur t) (f h))
                (filter (fun h => w h && header_visible s (cur t) h)
                   (transactions_tbl (cur t)))) eqn:Ewr; cbn [negb] in He; [|discriminate].
    destruct (negb (distinct _)); [discriminate|].
    destruct (existsb _ _); [discriminate|].
    injection He as <-. split; [exact Hn|].
    cbn [cur transactions_tbl with_transactions].
    apply filter_map_unaffected. intros x Hx.
    destruct (w x && header_visible s (cur t) x) eqn:Eh; [right|now left].
    rewrite forallb_forall in Ewr.
    assert (Hin : In x (filter (fun h => w h && header_visible s (cur t) h)
                          (transactions_tbl (cur t)))) by (apply filter_In; auto).
    apply andb_true_iff in Eh. destruct Eh as [_ Ev]. split.
    + apply (not_member_neq (cur t) company _ (auth_uid s) Hn).
      now rewrite <- header_visible_member.
    + apply (not_member_neq (cur t) company _ (auth_uid s) Hn).
      rewrite <- header_writable_member by assumption. now apply Ewr.
  - unfold delete_headers in He. injection He as <-. split; [exact Hn|].
    cbn [cur transactions_tbl].
    apply (filter_filter_unaffected
             (fun h => (transactions.company_id h =? company)%N)
             (fun h => w h && header_visible s (cur t) h)).
    intros x _ Eh. apply andb_true_iff in Eh. destruct Eh as [_ Ev].
    apply (not_member_neq (cur t) company _ (auth_uid s) Hn).
    now rewrite <- header_visible_member.
Qed.

Lemma exec_all_keeps_foreign_headers
  (s : session) (company : uuid) (sts : list statement) :
  bypass_rls s = false ->
  forall t t',
    company_member (cur t) company (auth_uid s) = false ->
    exec_all s t sts = OK t' ->
    tenant_headers (cur t') company = tenant_headers (cur t) company.
Proof.
  intros Hb. induction sts as [|st sts IH]; intros t t' Hn; cbn [exec_all bind].
  - now intros [= <-].
  - destruct (exec s t st) as [t1|] eqn:E1; cbn [bind]; [|discriminate].
    intros He.
    destruct (exec_keeps_foreign_headers s t t1 st company Hb Hn E1) as [Hn1 H1].
    now rewrite (IH t1 t' Hn1 He).
Qed.

(** X6. For transaction headers the decision of the policy, for a session
    under row security, is exactly the membership test on the header's
    company, for reading and for writing.  A principal who is not a member of
    a company gets none of its headers from a SELECT on [transactions], has
    every INSERT of a header for it refused, reaches none of them with the
    WHERE clause of an UPDATE or DELETE on [transactions], and changes none
    of them by a transaction made of INSERTs and UPDATEs on [transactions]
    and of statements on [transaction_entries].  (A DELETE is stated by the
    rows it reaches: the rows it takes along by cascade are another
    matter.) *)
Theorem X6_headers_belong_to_members (s : session) (db : database) :
  bypass_rls s = false ->
  (forall h,
     header_visible s db h = company_member db (transactions.company_id h) (auth_uid s)
     /\ header_writable s db h = company_member db (transactions.company_id h) (auth_uid s))
  /\ (forall company,
        company_member db company (auth_uid s) = false ->
        (forall w h, In h (SELECT_transactions s db w) ->
           transactions.company_id h <> company)
        /\ (forall q h, transactions.company_id h = company ->
              exists e, insert_header s (mktxn db q) h = Error e)
        /\ (forall w,
              filter (fun h => w h && header_visible s db h) (tenant_headers db company)
              = [])
        /\ (forall sts,
              Forall no_header_delete sts ->
              tenant_headers (snd (run_transaction s db sts)) company
              = tenant_headers db company)).
Proof.
  intros Hb. split.
  - intros h. split; [now apply header_visible_member|now apply header_writable_member].
  - intros company Hn. split; [|split; [|split]].
    + intros w h Hh Hc. unfold SELECT_transactions in Hh.
      apply filter_In in Hh. destruct Hh as [_ Hh].
      apply andb_true_iff in Hh. destruct Hh as [_ Hv].
      rewrite (header_visible_member s db h Hb), Hc in Hv. congruence.
    + intros q h Hc. unfold insert_header. cbn [cur].
      rewrite (header_writable_member s db h Hb), Hc, Hn. cbn [negb]. eauto.
    + intros w. apply filter_none. intros h Hh. unfold tenant_headers in Hh.
      apply filter_In in Hh. destruct Hh as [_ Hc]. apply N.eqb_eq in Hc.
      rewrite (header_visible_member s db h Hb), Hc, Hn. apply andb_false_r.
    + intros sts _. unfold run_transaction.
      destruct (exec_all s (mktxn db []) sts) as [t|e] eqn:He; [|reflexivity].
      destruct (snd (fire_deferred s (cur t) (pending t))); [|reflexivity].
      cbn [snd].
      apply (exec_all_keeps_foreign_headers s company sts Hb (mktxn db []) t Hn He).
Qed.

Lemma X6_witness :
  tenant_headers
    (snd (run_transaction Sample.global_admin Sample.db1
            [UPDATE_transactions (fun _ => true)
               (fun h => transactions.mk (transactions.id h) 2%N
                           (transactions.amount h) (transactions.description h));
             INSERT_transactions [Sample.head 9%N 1%N]])) 1%N
  = tenant_headers Sample.db1 1%N.
Proof.
  destruct (X6_headers_belong_to_members Sample.global_admin Sample.db1 eq_refl)
    as (_ & H).
  destruct (H 1%N eq_refl) as (_ & _ & _ & Hk).
  apply Hk. repeat constructor.
Defined.

(** ** Roles, memberships and companies *)

Lemma realm_db_eta (db : database) :
  mkdb (user_roles_tbl db) (company_users_tbl db) (accounts_tbl db)
       (transactions_tbl db) (entries_tbl db) = db.
Proof. now destruct db. Qed.

Lemma with_user_roles_in_same (a : realm) :
  with_user_roles_in a (user_roles_tbl (realm_db a)) = a.
Proof.
  unfold with_user_roles_in, with_db, with_user_roles.
  rewrite realm_db_eta. now destruct a.
Qed.

Lemma with_company_users_in_same (a : realm) :
  with_company_users_in a (company_users_tbl (realm_db a)) = a.
Proof.
  unfold with_company_users_in, with_db, with_company_users.
  rewrite realm_db_eta. now destruct a.
Qed.

(** No policy of [user_roles] is for a writing command. *)
Lemma user_roles_read_only (s : session) (db : database) (r : user_roles.row) (ret : bool) :
  bypass_rls s = false ->
  can_insert user_roles_policies ret s db r = false
  /\ can_update_old user_roles_policies s db r = false
  /\ can_delete user_roles_policies s db r = false.
Proof.
  intros Hb. unfold can_insert, can_update_old, can_delete. rewrite Hb.
  repeat split; reflexivity.
Qed.

(** Writing [company_users] is for the global admin. *)
Lemma company_users_for_admins (s : session) (db : database) (r : company_users.row) :
  bypass_rls s = false ->
  can_insert company_users_policies false s db r = has_role db (auth_uid s) admin
  /\ (can_update_old company_users_policies s db r = true ->
      has_role db (auth_uid s) admin = true)
  /\ (can_delete company_users_policies s db r = true ->
      has_role db (auth_uid s) admin = true).
Proof.
  intros Hb. unfold can_insert, can_update_old, can_delete, policies_pass. rewrite Hb.
  cbn. destruct (has_role db (auth_uid s) admin); repeat split; try reflexivity;
    cbn; rewrite ?andb_false_r; intros H; discriminate H.
Qed.

Lemma company_member_In (db : database) (company u : uuid) :
  company_member db company (Some u) = true ->
  exists cu, In cu (company_users_tbl db)
             /\ company_users.company_id cu = company
             /\ company_users.user_id cu = u.
Proof.
  intros H. apply company_member_spec in H.
  destruct H as (u' & cu & [= <-] & Hin & H1 & H2). now exists cu.
Qed.

Lemma companies_insert_refused (s : session) (a : realm) (ret : bool) (c : companies.row) :
  bypass_rls s = false ->
  has_role (realm_db a) (auth_uid s) admin = false ->
  links_reference_companies a ->
  exists e, exec_realm s a (INSERT_companies ret c) = Failed e.
Proof.
  intros Hb Ha Hl. cbn [exec_realm].
  destruct (negb (default_regime_ok c)); [eauto|].
  destruct (can_insert companies_policies ret s (realm_db a) c) eqn:Ec;
    cbn [negb]; [|eauto].
  assert (Hm : company_member (realm_db a) (companies.id c) (auth_uid s) = true).
  { unfold can_insert, policies_pass in Ec. rewrite Hb in Ec. cbn in Ec.
    unfold Company_members_manage_companies_qual in Ec. rewrite Ha in Ec.
    destruct (company_member (realm_db a) (companies.id c) (auth_uid s));
      [reflexivity|]. cbn in Ec. discriminate Ec. }
  destruct (auth_uid s) as [u|]; [|discriminate Hm].
  destruct (company_member_In _ _ _ Hm) as (cu & Hin & Hc & _).
  assert (Hin' : mem (companies.id c) (company_ids a) = true).
  { apply mem_In. rewrite <- Hc. now apply Hl. }
  rewrite Hin'. eauto.
Qed.

(** One request of a principal who is not a global admin: refused, or
    accepted without effect. *)
Lemma exec_realm_without_admin (s : session) (a : realm) (st : realm_statement) :
  bypass_rls s = false ->
  has_role (realm_db a) (auth_uid s) admin = false ->
  links_reference_companies a ->
  (exists e, exec_realm s a st = Failed e) \/ exec_realm s a st = Done a.
Proof.
  intros Hb Ha Hl.
  assert (Hcu : forall (w : company_users.row -> bool) (chk : company_users.row -> bool),
            (forall r, chk r = true -> has_role (realm_db a) (auth_uid s) admin = true) ->
            filter (fun r => w r && chk r) (company_users_tbl (realm_db a)) = []).
  { intros w chk Hchk. apply filter_none. intros r _.
    destruct (chk r) eqn:E; [|apply andb_false_r].
    rewrite (Hchk r E) in Ha. discriminate. }
  assert (Hur : forall (w : user_roles.row -> bool) (chk : user_roles.row -> bool),
            (forall r, chk r = false) ->
            filter (fun r => w r && chk r) (user_roles_tbl (realm_db a)) = []).
  { intros w chk Hchk. apply filter_none. intros r _. rewrite Hchk. apply andb_false_r. }
  destruct st as [r|w f|w|r|w f|w|ret c].
  - left. cbn [exec_realm].
    rewrite (proj1 (user_roles_read_only s (realm_db a) r false Hb)). cbn [negb]. eauto.
  - cbn [exec_realm].
    rewrite (Hur w _ (fun r => proj1 (proj2 (user_roles_read_only s (realm_db a) r false Hb)))).
    cbn [forallb negb].
    rewrite (map_unhit _ f _
               (Hur w _ (fun r => proj1 (proj2 (user_roles_read_only s (realm_db a) r false Hb))))).
    destruct (negb (unique_by _ _)); [left; eauto|].
    right. now rewrite with_user_roles_in_same.
  - right. cbn [exec_realm].
    rewrite (filter_unhit _ _
               (Hur w _ (fun r => proj2 (proj2 (user_roles_read_only s (realm_db a) r false Hb))))).
    now rewrite with_user_roles_in_same.
  - left. cbn [exec_realm].
    rewrite (proj1 (company_users_for_admins s (realm_db a) r Hb)), Ha. cbn [negb]. eauto.
  - cbn [exec_realm].
    rewrite (Hcu w _ (fun r => proj1 (proj2 (company_users_for_admins s (realm_db a) r Hb)))).
    cbn [forallb negb].
    rewrite (map_unhit _ f _
               (Hcu w _ (fun r => proj1 (proj2 (company_users_for_admins s (realm_db a) r Hb))))).
    destruct (negb (unique_by _ _)); [left; eauto|].
    right. now rewrite with_company_users_in_same.
  - right. cbn [exec_realm].
    rewrite (filter_unhit _ _
               (Hcu w _ (fun r => proj2 (proj2 (company_users_for_admins s (realm_db a) r Hb))))).
    now rewrite with_company_users_in_same.
  - left. now apply companies_insert_refused.
Qed.

Lemma exec_realm_user_roles (s : session) (a a' : realm) (st : realm_statement) :
  bypass_rls s = false ->
  exec_realm s a st = Done a' ->
  user_roles_tbl (realm_db a') = user_roles_tbl (realm_db a).
Proof.
  intros Hb.
  assert (Hur : forall (w : user_roles.row -> bool) (chk : user_roles.row -> bool),
            (forall r, chk r = false) ->
            filter (fun r => w r && chk r) (user_roles_tbl (realm_db a)) = []).
  { intros w chk Hchk. apply filter_none. intros r _. rewrite Hchk. apply andb_false_r. }
  destruct st as [r|w f|w|r|w f|w|ret c]; cbn [exec_realm].
  - rewrite (proj1 (user_roles_read_only s (realm_db a) r false Hb)). discriminate.
  - rewrite (map_unhit _ f _
               (Hur w _ (fun r => proj1 (proj2 (user_roles_read_only s (realm_db a) r false Hb))))).
    destruct (negb (forallb _ _)); [discriminate|].
    destruct (negb (unique_by _ _)); [discriminate|].
    destruct (negb (forallb _ _)); [discriminate|].
    now intros [= <-].
  - rewrite (filter_unhit _ _
               (Hur w _ (fun r => proj2 (proj2 (user_roles_read_only s (realm_db a) r false Hb))))).
    now intros [= <-].
  - destruct (negb _); [discriminate|]. destruct (existsb _ _); [discriminate|].
    destruct (negb _); [discriminate|]. now intros [= <-].
  - destruct (negb (forallb _ _)); [discriminate|].
    destruct (negb (unique_by _ _)); [discriminate|].
    destruct (negb (forallb _ _)); [discriminate|].
    now intros [= <-].
  - now intros [= <-].
  - destruct (negb _); [discriminate|]. destruct (negb _); [discriminate|].
    destruct (mem _ _); [discriminate|]. now intros [= <-].
Qed.

(** X7. The requests here are INSERT, UPDATE and DELETE on [user_roles] and
    on [company_users] and INSERT on [companies].  Under row security none of
    them changes [user_roles], the global admin's included; and for a
    principal who does not hold the admin role every one of them is refused
    or reaches no row, so that a sequence of them leaves the three tables as
    they were: the principal can give itself neither a role, nor a
    membership, nor a new company.  (UPDATE and DELETE on [companies], which
    the policy of that table also grants to the members of a company, are not
    among these requests.) *)
Theorem X7_no_self_granted_access (s : session) (a : realm) :
  bypass_rls s = false ->
  (forall st a', exec_realm s a st = Done a' ->
     user_roles_tbl (realm_db a') = user_roles_tbl (realm_db a))
  /\ (has_role (realm_db a) (auth_uid s) admin = false ->
      links_reference_companies a ->
      forall sts, exec_realm_all s a sts = a).
Proof.
  intros Hb. split.
  - intros st a'. now apply exec_realm_user_roles.
  - intros Ha Hl sts. induction sts as [|st sts IH]; cbn [exec_realm_all].
    + reflexivity.
    + destruct (exec_realm_without_admin s a st Hb Ha Hl) as [[e ->]| ->]; exact IH.
Qed.

Lemma sample_realm1_links : links_reference_companies SampleRealm.realm1.
Proof.
  intros cu Hcu. vm_compute in Hcu.
  destruct Hcu as [<-|[<-|[]]]; vm_compute; auto.
Qed.

Lemma X7_witness :
  exec_realm_all SampleRealm.newcomer SampleRealm.realm1 SampleRealm.attempts
  = SampleRealm.realm1.
Proof.
  exact (proj2 (X7_no_self_granted_access SampleRealm.newcomer SampleRealm.realm1 eq_refl)
               eq_refl sample_realm1_links SampleRealm.attempts).
Defined.

(** ** The first company of a user *)

Lemma select_own_links (s : session) (db : database) (u : uuid) :
  auth_uid s = Some u ->
  SELECT_company_users s db (fun r => (company_users.user_id r =? u)%N)
  = filter (fun r => (company_users.user_id r =? u)%N) (company_users_tbl db).
Proof.
  intros Hu. unfold SELECT_company_users. apply filter_ext. intros r.
  destruct (company_users.user_id r =? u)%N eqn:E; [|reflexivity].
  cbn [andb]. unfold can_select, policies_pass. cbn. unfold uid_is. rewrite Hu.
  rewrite N.eqb_sym, E. cbn. apply orb_true_r.
Qed.

(** X8. The set-up of a first company when a user signs in ([init] of the
    auth provider) does nothing for a principal who is not a global admin:
    the INSERT into [companies] is refused and nothing is stored.  For a
    global admin without a membership it stores the company "Empresa
    Principal" and the admin's membership in it. *)
Theorem X8_first_company_needs_global_admin
  (s : session) (a : realm) (u new_company_id : uuid) :
  bypass_rls s = false ->
  auth_uid s = Some u ->
  links_reference_companies a ->
  mem new_company_id (company_ids a) = false ->
  (has_role (realm_db a) (Some u) admin = false ->
   init_companies s a new_company_id = a)
  /\ (has_role (realm_db a) (Some u) admin = true ->
      In u (auth_users_tbl a) ->
      (forall cu, In cu (company_users_tbl (realm_db a)) -> company_users.user_id cu <> u) ->
      let a' := init_companies s a new_company_id in
      In new_company_id (company_ids a')
      /\ In (company_users.mk new_company_id u admin) (company_users_tbl (realm_db a'))
      /\ company_member (realm_db a') new_company_id (Some u) = true).
Proof.
  intros Hb Hu Hl Hnew. split.
  - intros Ha. unfold init_companies. rewrite Hu.
    destruct (SELECT_company_users s (realm_db a) _); [|reflexivity].
    rewrite <- Hu in Ha.
    destruct (companies_insert_refused s a true
                (companies.mk new_company_id "Empresa Principal" (Some "cash"%string))
                Hb Ha Hl) as [e ->].
    reflexivity.
  - intros Ha Hin Hnone.
    set (c := companies.mk new_company_id "Empresa Principal" (Some "cash"%string)).
    set (link := company_users.mk new_company_id u admin).
    set (a1 := mkrealm (realm_db a) (auth_users_tbl a) (companies_tbl a ++ [c])).
    assert (H1 : exec_realm s a (INSERT_companies true c) = Done a1).
    { cbn [exec_realm].
      assert (Hins : can_insert companies_policies true s (realm_db a) c = true).
      { unfold can_insert, policies_pass. rewrite Hb. cbn.
        unfold Company_members_manage_companies_qual. rewrite Hu, Ha.
        cbn. now rewrite !orb_true_r. }
      rewrite Hins. cbn [negb default_regime_ok]. unfold c at 1 2.
      cbn [companies.default_regime companies.id]. rewrite Hnew. reflexivity. }
    assert (H2 : exec_realm s a1 (INSERT_company_users link)
                 = Done (with_company_users_in a1
                           (company_users_tbl (realm_db a) ++ [link]))).
    { cbn [exec_realm]. change (realm_db a1) with (realm_db a).
      change (auth_users_tbl a1) with (auth_users_tbl a).
      rewrite (proj1 (company_users_for_admins s (realm_db a) link Hb)), Hu, Ha.
      cbn [negb].
      assert (Hk : existsb (link_key_eqb (company_users_key link))
                     (map company_users_key (company_users_tbl (realm_db a))) = false).
      { destruct (existsb _ _) eqn:Ex; [|reflexivity].
        apply existsb_exists in Ex. destruct Ex as (k & Hk & Heq).
        apply in_map_iff in Hk. destruct Hk as (cu & <- & Hcu).
        unfold link_key_eqb, company_users_key in Heq. cbn in Heq.
        apply andb_true_iff in Heq. destruct Heq as [_ Heq].
        apply N.eqb_eq in Heq. exfalso. now apply (Hnone cu Hcu). }
      rewrite Hk.
      assert (Hfk : mem (company_users.company_id link) (company_ids a1)
                    && mem (company_users.user_id link) (auth_users_tbl a) = true).
      { apply andb_true_iff. split; apply mem_In.
        - unfold company_ids, a1. cbn [companies_tbl]. rewrite map_app.
          apply in_or_app. right. now left.
        - exact Hin. }
      rewrite Hfk. reflexivity. }
    assert (Hres : init_companies s a new_company_id
                   = with_company_users_in a1 (company_users_tbl (realm_db a) ++ [link])).
    { unfold init_companies. rewrite Hu, (select_own_links s (realm_db a) u Hu).
      rewrite (filter_none _ (company_users_tbl (realm_db a))).
      2:{ intros cu Hcu. apply N.eqb_neq. now apply Hnone. }
      fold c. rewrite H1. fold link. now rewrite H2. }
    cbv zeta. rewrite Hres.
    unfold with_company_users_in, with_db, with_company_users, company_ids, a1.
    cbn [realm_db companies_tbl company_users_tbl auth_users_tbl].
    repeat split.
    + rewrite map_app. apply in_or_app. right. now left.
    + apply in_or_app. right. now left.
    + apply company_member_spec. exists u, link.
      repeat split. apply in_or_app. right. now left.
Qed.

Lemma X8_witness :
  init_companies SampleRealm.newcomer SampleRealm.realm1 9%N = SampleRealm.realm1
  /\ company_member
       (realm_db (init_companies Sample.global_admin SampleRealm.realm1 9%N))
       9%N (Some 200%N) = true.
Proof.
  split.
  - exact (proj1 (X8_first_company_needs_global_admin SampleRealm.newcomer
                    SampleRealm.realm1 300%N 9%N eq_refl eq_refl
                    sample_realm1_links eq_refl) eq_refl).
  - refine (proj2 (proj2 (proj2 (X8_first_company_needs_global_admin Sample.global_admin
                    SampleRealm.realm1 200%N 9%N eq_refl eq_refl
                    sample_realm1_links eq_refl) eq_refl _ _))).
    + vm_compute. auto.
    + intros cu Hcu. vm_compute in Hcu.
      destruct Hcu as [<-|[<-|[]]]; discriminate.
Defined.

(** ** New users *)

Lemma fresh_user_has_no_link (a : realm) (c u : uuid) (r : app_role) :
  (forall cu, In cu (company_users_tbl (realm_db a)) -> company_users.user_id cu <> u) ->
  existsb (link_key_eqb (company_users_key (company_users.mk c u r)))
    (map company_users_key (company_users_tbl (realm_db a))) = false.
Proof.
  intros Hnone. destruct (existsb _ _) eqn:Ex; [|reflexivity].
  apply existsb_exists in Ex. destruct Ex as (k & Hk & Heq).
  apply in_map_iff in Hk. destruct Hk as (cu & <- & Hcu).
  unfold link_key_eqb, company_users_key in Heq. cbn in Heq.
  apply andb_true_iff in Heq. destruct Heq as [_ Heq].
  apply N.eqb_eq in Heq. exfalso. now apply (Hnone cu Hcu).
Qed.

(** X9. A user created with a [company_id] in the metadata becomes a member
    of that company, with the role the metadata names or as collaborator when
    it names none: the trigger function asks only that the text reads as a
    uuid of a stored company and the role as a label of the enum.  From then
    on the policy lets that user read and write the headers of the company;
    [user_roles] is not touched. *)
Theorem X9_metadata_makes_member
  (uuid_in : string -> option uuid) (a : realm) (NEW : auth_users.row)
  (t : string) (c : uuid) (r : option app_role) :
  mem (auth_users.id NEW) (auth_users_tbl a) = false ->
  (forall cu, In cu (company_users_tbl (realm_db a)) ->
     company_users.user_id cu <> auth_users.id NEW) ->
  auth_users.raw_user_meta_data NEW "company_id" = Some t ->
  uuid_in t = Some c ->
  In c (company_ids a) ->
  cast_app_role (auth_users.raw_user_meta_data NEW "role") = Done r ->
  exists a',
    create_user uuid_in a NEW = Done a'
    /\ company_users_tbl (realm_db a')
       = company_users_tbl (realm_db a)
         ++ [company_users.mk c (auth_users.id NEW) (COALESCE r collaborator)]
    /\ user_roles_tbl (realm_db a') = user_roles_tbl (realm_db a)
    /\ company_member (realm_db a') c (Some (auth_users.id NEW)) = true
    /\ forall h, transactions.company_id h = c ->
         header_visible (mksession (Some (auth_users.id NEW)) false) (realm_db a') h = true
         /\ header_writable (mksession (Some (auth_users.id NEW)) false) (realm_db a') h = true.
Proof.
  intros Hfresh Hnone Hc Hu Hin Hr.
  unfold create_user, handle_new_user_company_link. rewrite Hfresh, Hc.
  unfold cast_uuid. rewrite Hu, Hr.
  cbn [realm_db auth_users_tbl companies_tbl].
  rewrite (fresh_user_has_no_link a c (auth_users.id NEW) _ Hnone).
  assert (Hfk : mem c (company_ids
                  (mkrealm (realm_db a) (auth_users_tbl a ++ [auth_users.id NEW])
                     (companies_tbl a)))
                && mem (auth_users.id NEW) (auth_users_tbl a ++ [auth_users.id NEW]) = true).
  { apply andb_true_iff. split; apply mem_In.
    - exact Hin.
    - apply in_or_app. right. now left. }
  rewrite Hfk. cbn [negb]. eexists. split; [reflexivity|].
  unfold with_company_users_in, with_db, with_company_users.
  cbn [realm_db company_users_tbl user_roles_tbl].
  assert (Hm : company_member
                 (mkdb (user_roles_tbl (realm_db a))
                    (company_users_tbl (realm_db a)
                     ++ [company_users.mk c (auth_users.id NEW) (COALESCE r collaborator)])
                    (accounts_tbl (realm_db a)) (transactions_tbl (realm_db a))
                    (entries_tbl (realm_db a)))
                 c (Some (auth_users.id NEW)) = true).
  { apply company_member_spec.
    exists (auth_users.id NEW),
      (company_users.mk c (auth_users.id NEW) (COALESCE r collaborator)).
    repeat split. cbn [company_users_tbl]. apply in_or_app. right. now left. }
  repeat split; try reflexivity; try exact Hm.
  - rewrite header_visible_member by reflexivity. cbn [auth_uid]. now rewrite H.
  - rewrite header_writable_member by reflexivity. cbn [auth_uid]. now rewrite H.
Qed.

Lemma X9_witness :
  exists a',
    create_user SampleRealm.toy_uuid_in SampleRealm.realm1
      (auth_users.mk 400%N
         (SampleRealm.meta (Some "00000000-0000-0000-0000-000000000002"%string)
                           (Some "accountant"%string))) = Done a'
    /\ company_member (realm_db a') 2%N (Some 400%N) = true.
Proof.
  destruct (X9_metadata_makes_member SampleRealm.toy_uuid_in SampleRealm.realm1
              (auth_users.mk 400%N
                 (SampleRealm.meta (Some "00000000-0000-0000-0000-000000000002"%string)
                                   (Some "accountant"%string)))
              "00000000-0000-0000-0000-000000000002" 2%N (Some accountant))
    as (a' & H1 & _ & _ & H2 & _).
  - reflexivity.
  - intros cu Hcu. vm_compute in Hcu. destruct Hcu as [<-|[<-|[]]]; discriminate.
  - reflexivity.
  - reflexivity.
  - vm_compute. auto.
  - reflexivity.
  - exists a'. now split.
Defined.

(** X10. Creating a user fails, and stores nothing, when the metadata names
    a role that is not a label of [app_role], with or without a company; when
    the [company_id] does not read as a uuid; and when it names no stored
    company.  Without [company_id], and with no role or a valid one, the user
    is created and no membership is. *)
Theorem X10_new_user_failures
  (uuid_in : string -> option uuid) (a : realm) (NEW : auth_users.row) :
  (forall label,
     auth_users.raw_user_meta_data NEW "role" = Some label ->
     app_role_in label = None ->
     exists e, create_user uuid_in a NEW = Failed e)
  /\ (forall t,
        auth_users.raw_user_meta_data NEW "company_id" = Some t ->
        uuid_in t = None ->
        exists e, create_user uuid_in a NEW = Failed e)
  /\ (forall t c,
        auth_users.raw_user_meta_data NEW "company_id" = Some t ->
        uuid_in t = Some c ->
        ~ In c (company_ids a) ->
        exists e, create_user uuid_in a NEW = Failed e)
  /\ (forall r,
        auth_users.raw_user_meta_data NEW "company_id" = None ->
        cast_app_role (auth_users.raw_user_meta_data NEW "role") = Done r ->
        mem (auth_users.id NEW) (auth_users_tbl a) = false ->
        create_user uuid_in a NEW
        = Done (mkrealm (realm_db a) (auth_users_tbl a ++ [auth_users.id NEW])
                        (companies_tbl a))).
Proof.
  repeat split.
  - intros label Hl Hn. unfold create_user, handle_new_user_company_link.
    destruct (mem _ _); [eauto|].
    destruct (cast_uuid uuid_in _); [|eauto].
    rewrite Hl. unfold cast_app_role. rewrite Hn. eauto.
  - intros t Ht Hn. unfold create_user, handle_new_user_company_link.
    destruct (mem _ _); [eauto|].
    rewrite Ht. unfold cast_uuid. rewrite Hn. eauto.
  - intros t c Ht Hu Hnot. unfold create_user, handle_new_user_company_link.
    destruct (mem _ _); [eauto|].
    rewrite Ht. unfold cast_uuid. rewrite Hu.
    destruct (cast_app_role _); [|eauto].
    destruct (existsb _ _); [eauto|].
    assert (Hm : mem c (company_ids
                   (mkrealm (realm_db a) (auth_users_tbl a ++ [auth_users.id NEW])
                      (companies_tbl a))) = false).
    { destruct (mem c _) eqn:E; [|reflexivity]. apply mem_In in E. contradiction. }
    rewrite Hm. cbn [andb negb]. eauto.
  - intros r Hc Hr Hf. unfold create_user, handle_new_user_company_link.
    rewrite Hf, Hc, Hr. reflexivity.
Qed.

(** ** The Users page *)

(** X11. For a principal who is not a global admin the Users page changes no
    membership: creating one shows "Erro ao criar vínculo", while editing and
    removing show their success titles, "Vínculo atualizado" and "Vínculo
    removido", with nothing updated and nothing removed. *)
Theorem X11_users_page_without_admin
  (s : session) (a : realm) :
  bypass_rls s = false ->
  has_role (realm_db a) (auth_uid s) admin = false ->
  (forall currentCompany user_id role,
     Users_onSubmit_new s a currentCompany user_id role
     = ("Erro ao criar vínculo"%string, a))
  /\ (forall editing role,
        unique_by link_key_eqb
          (map company_users_key (company_users_tbl (realm_db a))) = true ->
        Users_onSubmit_edit s a editing role = ("Vínculo atualizado"%string, a))
  /\ (forall deleteId,
        Users_confirmDelete s a deleteId = ("Vínculo removido"%string, a)).
Proof.
  intros Hb Ha.
  assert (Hcu : forall (w : company_users.row -> bool) (chk : company_users.row -> bool),
            (forall r, chk r = true -> has_role (realm_db a) (auth_uid s) admin = true) ->
            filter (fun r => w r && chk r) (company_users_tbl (realm_db a)) = []).
  { intros w chk Hchk. apply filter_none. intros r _.
    destruct (chk r) eqn:E; [|apply andb_false_r].
    rewrite (Hchk r E) in Ha. discriminate. }
  repeat split.
  - intros c u role. unfold Users_onSubmit_new. cbn [exec_realm].
    now rewrite (proj1 (company_users_for_admins s (realm_db a) _ Hb)), Ha.
  - intros w role Huniq. unfold Users_onSubmit_edit. cbn [exec_realm].
    rewrite (Hcu w _ (fun r => proj1 (proj2 (company_users_for_admins s (realm_db a) r Hb)))).
    cbn [forallb negb].
    rewrite (map_unhit _ _ _
               (Hcu w _ (fun r => proj1 (proj2 (company_users_for_admins s (realm_db a) r Hb))))).
    rewrite Huniq. cbn [negb]. now rewrite with_company_users_in_same.
  - intros w. unfold Users_confirmDelete. cbn [exec_realm].
    rewrite (filter_unhit _ _
               (Hcu w _ (fun r => proj2 (proj2 (company_users_for_admins s (realm_db a) r Hb))))).
    now rewrite with_company_users_in_same.
Qed.

Lemma X11_witness :
  Users_confirmDelete Sample.member SampleRealm.realm1 (fun _ => true)
  = ("Vínculo removido"%string, SampleRealm.realm1).
Proof.
  exact (proj2 (proj2 (X11_users_page_without_admin Sample.member SampleRealm.realm1
                         eq_refl eq_refl)) (fun _ => true)).
Defined.

(** ** The transactions page *)

Lemma with_entries_same (db : database) : with_entries db (entries_tbl db) = db.
Proof. now destruct db. Qed.

Lemma with_transactions_same (db : database) :
  with_transactions db (transactions_tbl db) = db.
Proof. now destruct db. Qed.

(** The request that deletes every line of a header, for a session exempt
    from row security: rejected at commit. *)
Lemma delete_lines_request_exempt
  (s : session) (db : database) (id company : uuid) :
  bypass_rls s = true ->
  all_lines db id <> [] ->
  (forall e, In e (all_lines db id) -> transaction_entries.company_id e = company) ->
  run_transaction s db
    [DELETE_transaction_entries
       (fun e => (transaction_entries.transaction_id e =? id)%N
                 && (transaction_entries.company_id e =? company)%N)]
  = (Aborted (surfaced TooFewLines), db).
Proof.
  intros Hb Hl Hc. unfold run_transaction.
  cbn [exec_all exec bind delete_entries cur pending app].
  set (w := fun e => (transaction_entries.transaction_id e =? id)%N
                     && (transaction_entries.company_id e =? company)%N).
  set (hit := fun e => w e && entry_visible s db e).
  assert (Hhit : forall e, In e (all_lines db id) -> hit e = true).
  { intros e He. unfold hit, w. rewrite entry_visible_eq, Hb, (Hc e He).
    apply in_all_lines in He. destruct He as [_ ->]. now rewrite !N.eqb_refl. }
  rewrite (fire_deferred_all_raise s _ _ msg_too_few_lines); [reflexivity| |].
  - assert (Hex : exists e, In e (all_lines db id)).
    { destruct (all_lines db id) as [|e l]; [congruence|]. exists e. now left. }
    destruct Hex as [e He].
    assert (Hin : In e (filter hit (entries_tbl db))).
    { apply filter_In. split; [now apply in_all_lines in He|]. now apply Hhit. }
    intros Hnil. apply map_eq_nil in Hnil.
    change (filter hit (entries_tbl db) = []) in Hnil.
    rewrite Hnil in Hin. destruct Hin.
  - intros ev Hev. apply in_map_iff in Hev. destruct Hev as (e & <- & He).
    apply filter_In in He. destruct He as [_ He].
    assert (Htx : transaction_entries.transaction_id e = id).
    { unfold w in He. apply andb_true_iff in He. destruct He as [He _].
      apply andb_true_iff in He. destruct He as [He _]. now apply N.eqb_eq. }
    apply validate_no_lines. cbn [v_tx_id]. rewrite Htx.
    unfold all_lines. cbn [entries_tbl with_entries].
    apply filter_filter_none. intros x Hx Hnh. apply N.eqb_neq. intros Hxid.
    assert (Hx' : In x (all_lines db id)) by (apply in_all_lines; auto).
    change (hit x = true) in Hnh || idtac.
    change (negb (hit x) = true) in Hnh.
    rewrite (Hhit x Hx') in Hnh. discriminate.
Qed.

(** Under row security the same request reaches no line and commits. *)
Lemma delete_lines_request_rls
  (s : session) (db : database) (w : entry -> bool) :
  bypass_rls s = false ->
  run_transaction s db [DELETE_transaction_entries w] = (Committed, db).
Proof.
  intros Hb. unfold run_transaction.
  cbn [exec_all exec bind delete_entries cur pending app].
  assert (Hn : filter (fun e => w e && entry_visible s db e) (entries_tbl db) = []).
  { apply filter_none. intros e _. rewrite entry_visible_eq, Hb. apply andb_false_r. }
  rewrite Hn. cbn [map fire_deferred snd].
  now rewrite (filter_unhit _ _ Hn), with_entries_same.
Qed.

Lemma insert_lines_request_rls
  (s : session) (db : database) (rows : list entry) :
  bypass_rls s = false ->
  rows <> [] ->
  run_transaction s db [INSERT_transaction_entries rows]
  = (Aborted row_security_violation, db).
Proof.
  intros Hb Hr. destruct rows as [|r rows]; [congruence|].
  unfold run_transaction. cbn [exec_all exec bind insert_all].
  unfold insert_entry. rewrite entry_writable_eq, Hb. reflexivity.
Qed.







Lemma header_update_request_keeps_lines
  (s : session) (db db1 : database) (w : header -> bool) (f : header -> header)
  (o : outcome) :
  run_transaction s db [UPDATE_transactions w f] = (o, db1) ->
  entries_tbl db1 = entries_tbl db.
Proof.
  unfold run_transaction. cbn [exec_all exec bind].
  unfold update_headers. cbn [cur pending].
  destruct (negb (forallb _ _)); cbn [bind]; [now intros [= _ <-]|].
  destruct (negb (distinct _)); cbn [bind]; [now intros [= _ <-]|].
  destruct (existsb _ _); cbn [bind]; [now intros [= _ <-]|].
  cbn [cur pending fire_deferred snd]. now intros [= _ <-].
Qed.

Lemma onSubmit_rows_nonempty (gen : nat -> uuid) (k : nat) (tx c : uuid)
  (signedLines : list signedLine) :
  signedLines <> [] -> onSubmit_rows gen k tx c signedLines <> [].
Proof. destruct signedLines; [congruence|discriminate]. Qed.

(** X13. Saving an edit never succeeds for a session under row security,
    nor for a session exempt from it when the transaction has lines and all
    of them carry the current company: [onSubmit] in edit mode ends in one of
    its error toasts and leaves the stored lines as they were.  The exempt
    session fails at the request that deletes the old lines, which is
    rejected at its own commit; the session under row security fails at the
    INSERT of the new ones, if not already at the header. *)
Theorem X13_edit_of_a_transaction_with_lines_fails
  (s : session) (db : database) (company id : uuid)
  (totalDebits : Numeric.t) (description : string)
  (new_id : uuid) (gen : nat -> uuid) (signedLines : list signedLine) :
  signedLines <> [] ->
  (bypass_rls s = true ->
   all_lines db id <> []
   /\ forall e, In e (all_lines db id) -> transaction_entries.company_id e = company) ->
  entries_tbl (snd (onSubmit_requests s db company mode_edit (Some id)
                      totalDebits description new_id gen signedLines))
  = entries_tbl db
  /\ (fst (onSubmit_requests s db company mode_edit (Some id)
             totalDebits description new_id gen signedLines)
      = "Erro ao atualizar lançamento"%string
      \/ (bypass_rls s = true
          /\ fst (onSubmit_requests s db company mode_edit (Some id)
                    totalDebits description new_id gen signedLines)
             = "Erro ao atualizar linhas do lançamento"%string)
      \/ (bypass_rls s = false
          /\ fst (onSubmit_requests s db company mode_edit (Some id)
                    totalDebits description new_id gen signedLines)
             = "Erro ao salvar linhas do lançamento"%string)).
Proof.
  intros Hs Hex. unfold onSubmit_requests.
  destruct (numeric_14_2 totalDebits) as [amount|];
    [|cbn [fst snd]; split; [reflexivity|now left]].
  destruct (run_transaction s db [UPDATE_transactions _ _]) as [o db1] eqn:E1.
  pose proof (header_update_request_keeps_lines s db db1 _ _ o E1) as He1.
  destruct o as [|e].
  - destruct (bypass_rls s) eqn:Hb.
    + destruct (Hex eq_refl) as [Hl Hc].
      assert (Hl1 : all_lines db1 id <> [])
        by (now rewrite (all_lines_entries db1 db id He1)).
      assert (Hc1 : forall e, In e (all_lines db1 id) ->
                      transaction_entries.company_id e = company).
      { intros e He. apply Hc. now rewrite <- (all_lines_entries db1 db id He1). }
      rewrite (delete_lines_request_exempt s db1 id company Hb Hl1 Hc1).
      cbn [fst snd]. split; [exact He1|]. right. left. now split.
    + rewrite (delete_lines_request_rls s db1 _ Hb).
      rewrite (insert_lines_request_rls s db1 _ Hb
                 (onSubmit_rows_nonempty gen 0 id company signedLines Hs)).
      cbn [fst snd]. split; [exact He1|]. right. right. now split.
  - cbn [fst snd]. split; [exact He1|]. now left.
Qed.

Lemma X13_witness :
  entries_tbl
    (snd (onSubmit_requests Sample.service_role Sample.db1 1%N mode_edit (Some 1%N)
            (Numeric.Fin 30000 2) "compra" 9%N (fun k => N.of_nat (20 + k))
            [mksignedLine 10%N None (Numeric.Fin 30000 2);
             mksignedLine 11%N None (Numeric.Fin (-30000) 2)]))
  = entries_tbl Sample.db1.
Proof.
  refine (proj1 (X13_edit_of_a_transaction_with_lines_fails Sample.service_role
                   Sample.db1 1%N 1%N (Numeric.Fin 30000 2) "compra" 9%N
                   (fun k => N.of_nat (20 + k))
                   [mksignedLine 10%N None (Numeric.Fin 30000 2);
                    mksignedLine 11%N None (Numeric.Fin (-30000) 2)] _ _)).
  - discriminate.
  - intros _. split.
    + vm_compute. discriminate.
    + intros e He. vm_compute in He. destruct He as [<-|[<-|[]]]; reflexivity.
Defined.

(** The edit above leaves the header changed although it failed. *)
Example edit_is_not_atomic :
  let r := onSubmit_requests Sample.service_role Sample.db1 1%N mode_edit (Some 1%N)
             (Numeric.Fin 30000 2) "compra" 9%N (fun k => N.of_nat (20 + k))
             [mksignedLine 10%N None (Numeric.Fin 30000 2);
              mksignedLine 11%N None (Numeric.Fin (-30000) 2)] in
  fst r = "Erro ao atualizar linhas do lançamento"%string
  /\ In (transactions.mk 1%N 1%N (Numeric.Fin 30000 2) "compra") (transactions_tbl (snd r))
  /\ ~ In (transactions.mk 1%N 1%N (Numeric.Fin 30000 2) "compra")
          (transactions_tbl Sample.db1).
Proof.
  vm_compute. repeat split; auto.
  intros [H|[H|[]]]; discriminate H.
Qed.

(** X14. A member of the current company who creates a transaction through
    the form, with a total the header column takes, is left with a header
    without lines: the header request commits,
    the request for the lines is refused by the policy of
    [transaction_entries], the toast is "Erro ao salvar linhas do lançamento"
    and nothing removes the header. *)
Theorem X14_create_by_member_leaves_bare_header
  (s : session) (db : database) (company : uuid) (mode : dialogMode)
  (totalDebits amount : Numeric.t) (description : string)
  (new_id : uuid) (gen : nat -> uuid) (signedLines : list signedLine) :
  bypass_rls s = false ->
  company_member db company (auth_uid s) = true ->
  mem new_id (header_ids db) = false ->
  all_lines db new_id = [] ->
  numeric_14_2 totalDebits = Some amount ->
  signedLines <> [] ->
  onSubmit_requests s db company mode None totalDebits description new_id gen signedLines
  = ("Erro ao salvar linhas do lançamento"%string,
     with_transactions db
       (transactions_tbl db ++ [transactions.mk new_id company amount description]))
  /\ In new_id (header_ids
       (snd (onSubmit_requests s db company mode None totalDebits description
               new_id gen signedLines)))
  /\ all_lines
       (snd (onSubmit_requests s db company mode None totalDebits description
               new_id gen signedLines)) new_id = [].
Proof.
  intros Hb Hm Hf Hn Ha Hs.
  set (hdr := transactions.mk new_id company amount description).
  assert (H1 : run_transaction s db [INSERT_transactions [hdr]]
               = (Committed, with_transactions db (transactions_tbl db ++ [hdr]))).
  { unfold run_transaction. cbn [exec_all exec bind insert_all].
    unfold insert_header. cbn [cur pending].
    rewrite (header_writable_member s db hdr Hb). unfold hdr at 1 2.
    cbn [transactions.company_id transactions.id]. rewrite Hm, Hf. reflexivity. }
  assert (Hres : onSubmit_requests s db company mode None totalDebits description
                   new_id gen signedLines
                 = ("Erro ao salvar linhas do lançamento"%string,
                    with_transactions db (transactions_tbl db ++ [hdr]))).
  { unfold onSubmit_requests.
    destruct mode; rewrite Ha; fold hdr; rewrite H1;
      now rewrite (insert_lines_request_rls s _ _ Hb
                     (onSubmit_rows_nonempty gen 0 new_id company signedLines Hs)). }
  rewrite Hres. cbn [snd]. split; [reflexivity|]. split.
  - unfold header_ids. cbn [transactions_tbl with_transactions].
    rewrite map_app. apply in_or_app. right. now left.
  - exact Hn.
Qed.

Lemma X14_witness :
  onSubmit_requests Sample.member Sample.db1 1%N mode_create None
    (Numeric.Fin 2500 2) "compra" 9%N (fun k => N.of_nat (20 + k))
    [mksignedLine 10%N None (Numeric.Fin 2500 2);
     mksignedLine 11%N None (Numeric.Fin (-2500) 2)]
  = ("Erro ao salvar linhas do lançamento"%string,
     with_transactions Sample.db1
       (transactions_tbl Sample.db1
        ++ [transactions.mk 9%N 1%N (Numeric.Fin 2500 2) "compra"])).
Proof.
  refine (proj1 (X14_create_by_member_leaves_bare_header Sample.member Sample.db1 1%N
                   mode_create (Numeric.Fin 2500 2) (Numeric.Fin 2500 2) "compra" 9%N
                   (fun k => N.of_nat (20 + k))
                   [mksignedLine 10%N None (Numeric.Fin 2500 2);
                    mksignedLine 11%N None (Numeric.Fin (-2500) 2)]
                   eq_refl eq_refl eq_refl eq_refl eq_refl _)); discriminate.
Defined.

(** ** The check reads a bag of lines *)

Lemma rescale_add (x y : Z) (a b : nat) :
  Numeric.rescale (x + y) a b = (Numeric.rescale x a b + Numeric.rescale y a b)%Z.
Proof. unfold Numeric.rescale. lia. Qed.

Lemma rescale_rescale (u : Z) (s m1 m : nat) :
  (s <= m1)%nat -> (m1 <= m)%nat ->
  Numeric.rescale (Numeric.rescale u s m1) m1 m = Numeric.rescale u s m.
Proof.
  intros H1 H2. unfold Numeric.rescale.
  replace (Z.of_nat (m - s)) with (Z.of_nat (m1 - s) + Z.of_nat (m - m1))%Z by lia.
  rewrite Z.pow_add_r by lia. lia.
Qed.

Lemma add_comm (a b : Numeric.t) : Numeric.add a b = Numeric.add b a.
Proof.
  destruct a as [u s| | |], b as [v r| | |]; cbn [Numeric.add]; try reflexivity.
  rewrite (Nat.max_comm r s). f_equal. lia.
Qed.

Lemma add_assoc (a b c : Numeric.t) :
  Numeric.add (Numeric.add a b) c = Numeric.add a (Numeric.add b c).
Proof.
  destruct a as [u s| | |], b as [v r| | |], c as [w t| | |];
    cbn [Numeric.add]; try reflexivity.
  rewrite !rescale_add, !rescale_rescale by lia.
  rewrite Nat.max_assoc. f_equal. lia.
Qed.

Lemma add_zero_l (a : Numeric.t) : Numeric.add Numeric.zero a = a.
Proof.
  destruct a as [u s| | |]; cbn [Numeric.add Numeric.zero]; try reflexivity.
  cbn [Nat.max]. now rewrite rescale_zero, rescale_same.
Qed.

Lemma fold_add_shift (l : list Numeric.t) :
  forall x y, fold_left Numeric.add l (Numeric.add x y)
              = Numeric.add x (fold_left Numeric.add l y).
Proof.
  induction l as [|a l IH]; intros x y; cbn [fold_left]; [reflexivity|].
  now rewrite add_assoc, IH.
Qed.

Lemma SUM_fold (l : list Numeric.t) :
  COALESCE (SUM l) Numeric.zero = fold_left Numeric.add l Numeric.zero.
Proof.
  destruct l as [|x r]; cbn [SUM COALESCE fold_left]; [reflexivity|].
  now rewrite add_zero_l.
Qed.

Lemma fold_add_perm (l l' : list Numeric.t) :
  Permutation l l' ->
  forall x, fold_left Numeric.add l x = fold_left Numeric.add l' x.
Proof.
  induction 1 as [|a l l' _ IH|a b l|l1 l2 l3 _ IH1 _ IH2]; intros x; cbn [fold_left].
  - reflexivity.
  - apply IH.
  - f_equal. rewrite !add_assoc. f_equal. apply add_comm.
  - now rewrite IH1.
Qed.

Lemma filter_perm {A : Type} (f : A -> bool) (l l' : list A) :
  Permutation l l' -> Permutation (filter f l) (filter f l').
Proof.
  induction 1 as [|a l l' _ IH|a b l|l1 l2 l3 _ IH1 _ IH2]; cbn [filter].
  - constructor.
  - destruct (f a); [now constructor|exact IH].
  - destruct (f a), (f b); try apply Permutation_refl. constructor.
  - now transitivity (filter f l2).
Qed.

Lemma lines_of_perm (s : session) (db db' : database) (tx : uuid) :
  Permutation (entries_tbl db) (entries_tbl db') ->
  Permutation (lines_of s db tx) (lines_of s db' tx).
Proof.
  intros H. unfold lines_of, all_lines.
  rewrite (filter_ext (entry_visible s db) (fun _ => bypass_rls s))
    by (intros; apply entry_visible_eq).
  rewrite (filter_ext (entry_visible s db') (fun _ => bypass_rls s))
    by (intros; apply entry_visible_eq).
  now do 2 apply filter_perm.
Qed.

Lemma validate_perm (s : session) (db db' : database) (ev : trigger_event) :
  Permutation (entries_tbl db) (entries_tbl db') ->
  validate_transaction_entries s db ev = validate_transaction_entries s db' ev.
Proof.
  intros H. unfold validate_transaction_entries, v_count, v_sum, COUNT.
  pose proof (lines_of_perm s db db' (v_tx_id ev) H) as Hp.
  rewrite (Permutation_length Hp), !SUM_fold.
  now rewrite (fold_add_perm _ _
                 (Permutation_map transaction_entries.amount Hp)).
Qed.

(** X15. The check reads its lines as a bag: the result of the validation
    function does not depend on the order in which the lines are stored and
    summed, and whether a commit passes depends neither on that order nor on
    the order in which the row events were queued. *)
Theorem X15_verdict_ignores_order
  (s : session) (db db' : database) (q q' : list trigger_event) :
  Permutation (entries_tbl db) (entries_tbl db') ->
  Permutation q q' ->
  (forall ev, validate_transaction_entries s db ev
              = validate_transaction_entries s db' ev)
  /\ (forall tx, v_count s db tx = v_count s db' tx
                 /\ v_sum s db tx = v_sum s db' tx)
  /\ (snd (fire_deferred s db q) = RETURN_NULL
      <-> snd (fire_deferred s db' q') = RETURN_NULL).
Proof.
  intros Hdb Hq. split; [|split].
  - intros ev. now apply validate_perm.
  - intros tx. pose proof (lines_of_perm s db db' tx Hdb) as Hp.
    unfold v_count, v_sum, COUNT. rewrite (Permutation_length Hp), !SUM_fold.
    split; [reflexivity|].
    apply fold_add_perm. now apply Permutation_map.
  - split; intros H.
    + rewrite (fire_deferred_pass s db' q'); [reflexivity|].
      intros ev Hev. rewrite <- (validate_perm s db db' ev Hdb).
      apply (fire_deferred_passed s db q H).
      now apply (Permutation_in ev (Permutation_sym Hq)).
    + rewrite (fire_deferred_pass s db q); [reflexivity|].
      intros ev Hev. rewrite (validate_perm s db db' ev Hdb).
      apply (fire_deferred_passed s db' q' H).
      now apply (Permutation_in ev Hq).
Qed.

Lemma X15_witness :
  validate_transaction_entries Sample.service_role
    (with_entries Sample.db1 (rev (entries_tbl Sample.db1)))
    (ev_DELETE (Sample.line 1%N 1%N 1%N 10%N (Numeric.Fin 10000 2)))
  = validate_transaction_entries Sample.service_role Sample.db1
      (ev_DELETE (Sample.line 1%N 1%N 1%N 10%N (Numeric.Fin 10000 2))).
Proof.
  refine (proj1 (X15_verdict_ignores_order Sample.service_role
                   (with_entries Sample.db1 (rev (entries_tbl Sample.db1)))
                   Sample.db1 [] [] _ (Permutation_refl _)) _).
  apply Permutation_sym, Permutation_rev.
Defined.

(** ** Invitations *)

Lemma invite_data_company (t l : string) : invite_data t l "company_id" = Some t.
Proof. reflexivity. Qed.

Lemma invite_data_role (t l : string) : invite_data t l "role" = Some l.
Proof. reflexivity. Qed.

(** X16. The invite function changes nothing for a caller who does not hold
    the global admin role, whatever the request: it stores no user and no
    membership, and answers with no user.  Apart from the OPTIONS preflight
    its status is never 200. *)
Theorem X16_invite_needs_global_admin
  (uuid_in getUser : string -> option uuid) (trim toLowerCase : string -> string)
  (js_length : string -> nat)
  (a : realm) (req : request) (new_user : option uuid) :
  (forall h u, Authorization req = Some h -> getUser (token_of h) = Some u ->
     has_role (realm_db a) (Some u) admin = false) ->
  snd (serve uuid_in getUser trim toLowerCase js_length a req new_user) = a
  /\ (forall id,
        body (fst (serve uuid_in getUser trim toLowerCase js_length a req new_user))
        <> user_body id)
  /\ (method req <> "OPTIONS"%string ->
      status (fst (serve uuid_in getUser trim toLowerCase js_length a req new_user))
      <> 200%nat).
Proof.
  intros Hna. unfold serve.
  destruct (String.eqb (method req) "OPTIONS") eqn:Em.
  { cbn [fst snd body status]. repeat split; [discriminate|].
    intros Hm. apply String.eqb_eq in Em. contradiction. }
  destruct (negb (String.eqb (method req) "POST"));
    [cbn [fst snd body status]; repeat split; [discriminate|intros _; lia]|].
  destruct (Authorization req) as [h|] eqn:Eh;
    [|cbn [fst snd body status]; repeat split; [discriminate|intros _; lia]].
  destruct (negb (String.prefix "Bearer " h));
    [cbn [fst snd body status]; repeat split; [discriminate|intros _; lia]|].
  destruct (getUser (token_of h)) as [u|] eqn:Eu;
    [|cbn [fst snd body status]; repeat split; [discriminate|intros _; lia]].
  destruct (json req) as [b|];
    [|cbn [fst snd body status]; repeat split; [discriminate|intros _; lia]].
  rewrite (Hna h u eq_refl Eu). cbn [negb].
  destruct (option_map _ (InvitePayload.email b)) as [e|],
           (InvitePayload.companyId b) as [t|], (InvitePayload.role b) as [l|];
    try (cbn [fst snd body status]; repeat split; [discriminate|intros _; lia]).
  destruct (String.eqb e "" || String.eqb t "" || String.eqb l "");
    [cbn [fst snd body status]; repeat split; [discriminate|intros _; lia]|].
  destruct (255 <? js_length e)%nat;
    cbn [fst snd body status]; repeat split; try discriminate; intros _; lia.
Qed.

Lemma X16_witness :
  snd (serve SampleRealm.toy_uuid_in SampleInvite.getUser (fun t => t) (fun t => t)
         String.length SampleRealm.realm1
         (SampleInvite.invite "t-member" "00000000-0000-0000-0000-000000000001")
         (Some 400%N))
  = SampleRealm.realm1.
Proof.
  refine (proj1 (X16_invite_needs_global_admin SampleRealm.toy_uuid_in
                   SampleInvite.getUser (fun t => t) (fun t => t) String.length
                   SampleRealm.realm1
                   (SampleInvite.invite "t-member" "00000000-0000-0000-0000-000000000001")
                   (Some 400%N) _)).
  intros h u Hh Hu. injection Hh as <-. vm_compute in Hu. injection Hu as <-.
  reflexivity.
Defined.

Lemma create_user_linked
  (uuid_in : string -> option uuid) (a : realm) (n c : uuid) (t l : string)
  (r : app_role) :
  mem n (auth_users_tbl a) = false ->
  (forall cu, In cu (company_users_tbl (realm_db a)) -> company_users.user_id cu <> n) ->
  uuid_in t = Some c ->
  In c (company_ids a) ->
  app_role_in l = Some r ->
  create_user uuid_in a (auth_users.mk n (invite_data t l))
  = Done (with_company_users_in
            (mkrealm (realm_db a) (auth_users_tbl a ++ [n]) (companies_tbl a))
            (company_users_tbl (realm_db a) ++ [company_users.mk c n r])).
Proof.
  intros Hfresh Hnone Hu Hin Hr.
  unfold create_user, handle_new_user_company_link.
  cbn [auth_users.id auth_users.raw_user_meta_data].
  rewrite Hfresh, invite_data_company, invite_data_role.
  unfold cast_uuid, cast_app_role. rewrite Hu, Hr.
  cbn [realm_db auth_users_tbl companies_tbl COALESCE].
  rewrite (fresh_user_has_no_link a c n r Hnone).
  assert (Hfk : mem c (company_ids
                  (mkrealm (realm_db a) (auth_users_tbl a ++ [n]) (companies_tbl a)))
                && mem n (auth_users_tbl a ++ [n]) = true).
  { apply andb_true_iff. split; apply mem_In.
    - exact Hin.
    - apply in_or_app. right. now left. }
  now rewrite Hfk.
Qed.

Lemma create_user_refused
  (uuid_in : string -> option uuid) (a : realm) (n : uuid) (t l : string) :
  app_role_in l = None \/ uuid_in t = None
  \/ (exists c, uuid_in t = Some c /\ ~ In c (company_ids a)) ->
  exists e, create_user uuid_in a (auth_users.mk n (invite_data t l)) = Failed e.
Proof.
  intros H. unfold create_user, handle_new_user_company_link.
  cbn [auth_users.id auth_users.raw_user_meta_data].
  destruct (mem n (auth_users_tbl a)); [now eexists|].
  rewrite invite_data_company, invite_data_role.
  unfold cast_uuid, cast_app_role.
  destruct (uuid_in t) as [c|] eqn:Eu; [|now eexists].
  destruct (app_role_in l) as [r|] eqn:Er; [|now eexists].
  destruct H as [H|[H|(c' & Hc' & Hn)]]; try discriminate.
  injection Hc' as <-.
  destruct (existsb _ _); [now eexists|].
  cbn [realm_db auth_users_tbl companies_tbl].
  assert (Hm : mem c (company_ids
                 (mkrealm (realm_db a) (auth_users_tbl a ++ [n]) (companies_tbl a)))
               = false).
  { destruct (mem c _) eqn:E; [|reflexivity].
    apply mem_In in E. contradiction. }
  rewrite Hm. now eexists.
Qed.

(** X17. An invitation sent by a global admin, for a company the text names
    and a label of the role enum, is answered with 200 and makes the invited
    user a member of that company with that role; the admin need not be a
    member of it.  When the role is no label, or the company text names no
    stored company, the answer is 400 and nothing is stored; so it is when
    the auth service refuses the e-mail. *)
Theorem X17_invite_by_admin_links_invitee
  (uuid_in getUser : string -> option uuid) (trim toLowerCase : string -> string)
  (js_length : string -> nat)
  (a : realm) (h e t l : string) (redirect : option string) (u : uuid) :
  String.prefix "Bearer " h = true ->
  getUser (token_of h) = Some u ->
  has_role (realm_db a) (Some u) admin = true ->
  toLowerCase (trim e) <> ""%string ->
  (js_length (toLowerCase (trim e)) <= 255)%nat ->
  t <> ""%string ->
  l <> ""%string ->
  let req := mkrequest "POST" (Some h)
               (Some (InvitePayload.mk (Some e) (Some l) (Some t) redirect)) in
  (forall n c r,
     mem n (auth_users_tbl a) = false ->
     (forall cu, In cu (company_users_tbl (realm_db a)) ->
        company_users.user_id cu <> n) ->
     uuid_in t = Some c ->
     In c (company_ids a) ->
     app_role_in l = Some r ->
     serve uuid_in getUser trim toLowerCase js_length a req (Some n)
     = (mkresponse 200 (user_body n),
        with_company_users_in
          (mkrealm (realm_db a) (auth_users_tbl a ++ [n]) (companies_tbl a))
          (company_users_tbl (realm_db a) ++ [company_users.mk c n r])))
  /\ (forall n,
        app_role_in l = None \/ uuid_in t = None
        \/ (exists c, uuid_in t = Some c /\ ~ In c (company_ids a)) ->
        status (fst (serve uuid_in getUser trim toLowerCase js_length a req (Some n)))
        = 400%nat
        /\ snd (serve uuid_in getUser trim toLowerCase js_length a req (Some n)) = a)
  /\ serve uuid_in getUser trim toLowerCase js_length a req None
     = (mkresponse 400 (auth_error_body auth_api_error), a).
Proof.
  intros Hp Hu Ha He Hlen Ht Hl req.
  assert (Hpre : forall new_user,
             serve uuid_in getUser trim toLowerCase js_length a req new_user
             = match inviteUserByEmail uuid_in a new_user t l with
               | Failed x => (mkresponse 400 (auth_error_body x), a)
               | Done (id, a') => (mkresponse 200 (user_body id), a')
               end).
  { intros new_user. unfold serve, req.
    cbn [method Authorization json InvitePayload.email InvitePayload.companyId
         InvitePayload.role option_map].
    change (String.eqb "POST" "OPTIONS") with false.
    change (String.eqb "POST" "POST") with true. cbn [negb].
    rewrite Hp, Hu, Ha. cbn [negb].
    apply String.eqb_neq in He, Ht, Hl. rewrite He, Ht, Hl. cbn [orb].
    apply Nat.ltb_ge in Hlen. now rewrite Hlen. }
  split; [|split].
  - intros n c r Hfresh Hnone Hc Hin Hr. rewrite Hpre. unfold inviteUserByEmail.
    now rewrite (create_user_linked uuid_in a n c t l r Hfresh Hnone Hc Hin Hr).
  - intros n H. rewrite Hpre. unfold inviteUserByEmail.
    destruct (create_user_refused uuid_in a n t l H) as (x & ->).
    now split.
  - now rewrite Hpre.
Qed.

Lemma X17_witness :
  serve SampleRealm.toy_uuid_in SampleInvite.getUser (fun t => t) (fun t => t)
    String.length SampleRealm.realm1
    (SampleInvite.invite "t-admin" "00000000-0000-0000-0000-000000000002")
    (Some 400%N)
  = (mkresponse 200 (user_body 400%N),
     with_company_users_in
       (mkrealm (realm_db SampleRealm.realm1)
          (auth_users_tbl SampleRealm.realm1 ++ [400%N])
          (companies_tbl SampleRealm.realm1))
       (company_users_tbl (realm_db SampleRealm.realm1)
        ++ [company_users.mk 2%N 400%N accountant])).
Proof.
  refine (proj1 (X17_invite_by_admin_links_invitee SampleRealm.toy_uuid_in
                   SampleInvite.getUser (fun t => t) (fun t => t) String.length
                   SampleRealm.realm1 "Bearer t-admin" "ana@example.com"
                   "00000000-0000-0000-0000-000000000002" "accountant" None 200%N
                   eq_refl eq_refl eq_refl _ _ _ _)
                400%N 2%N accountant eq_refl _ eq_refl _ eq_refl).
  - discriminate.
  - vm_compute. lia.
  - discriminate.
  - discriminate.
  - intros cu Hcu. vm_compute in Hcu. destruct Hcu as [<-|[<-|[]]]; discriminate.
  - vm_compute. auto.
Defined.

(** ** What the form shows *)

Lemma select_by_key (p : header -> bool) (l : list header) (h : header) :
  distinct (map transactions.id l) = true ->
  In h l ->
  p h = true ->
  (forall x, In x l -> p x = true -> transactions.id x = transactions.id h) ->
  filter p l = [h].
Proof.
  induction l as [|x r IH]; intros Hd Hin Hp Hkey; [destruct Hin|].
  cbn [map distinct] in Hd. apply andb_true_iff in Hd. destruct Hd as [Hx Hr].
  apply negb_true_iff in Hx.
  assert (Hnot : forall y, In y r -> transactions.id y <> transactions.id x).
  { intros y Hy E. rewrite <- E in Hx.
    assert (Hm : mem (transactions.id y) (map transactions.id r) = true)
      by (apply mem_In; now apply in_map).
    congruence. }
  cbn [filter]. destruct Hin as [->|Hin].
  - rewrite Hp. f_equal. apply filter_none. intros y Hy.
    destruct (p y) eqn:E; [|reflexivity].
    exfalso. apply (Hnot y Hy). apply Hkey; [now right|exact E].
  - destruct (p x) eqn:E.
    + exfalso. apply (Hnot h Hin). symmetry. apply Hkey; [now left|exact E].
    + apply IH; auto. intros y Hy. apply Hkey. now right.
Qed.

(** X18. Under row security the form never shows the stored lines of a
    transaction: for a member of the company [loadTransactionIntoForm] opens
    the dialog with the header's description and the two blank lines, one
    debit and one credit, whatever lines are stored; for a principal who is
    not a member it ends in the toast "Erro ao carregar lançamento". *)
Theorem X18_form_shows_blank_lines_under_row_security
  (abs_toLocaleString : Numeric.t -> string)
  (s : session) (db : database) (company id : uuid) (mode : dialogMode)
  (h : header) :
  bypass_rls s = false ->
  distinct (header_ids db) = true ->
  In h (transactions_tbl db) ->
  transactions.id h = id ->
  transactions.company_id h = company ->
  (company_member db company (auth_uid s) = true ->
   loadTransactionIntoForm abs_toLocaleString s db company id mode
   = inr (mkdialog (transactions.description h)
            [ mkformLine None debit None "0,00";
              mkformLine None credit None "0,00" ]
            mode (match mode with mode_edit => Some id | _ => None end)))
  /\ (company_member db company (auth_uid s) = false ->
      loadTransactionIntoForm abs_toLocaleString s db company id mode
      = inl "Erro ao carregar lançamento"%string).
Proof.
  intros Hb Hd Hin Hid Hco. unfold loadTransactionIntoForm. split; intros Hm.
  - unfold SELECT_transactions.
    rewrite (select_by_key _ (transactions_tbl db) h Hd Hin).
    + unfold SELECT_transaction_entries.
      rewrite filter_none; [reflexivity|].
      intros e _. rewrite entry_visible_eq, Hb. apply andb_false_r.
    + rewrite Hid, Hco, !N.eqb_refl, (header_visible_member s db h Hb), Hco.
      now rewrite Hm.
    + intros x _ Hx. apply andb_true_iff in Hx. destruct Hx as [Hx _].
      apply andb_true_iff in Hx. destruct Hx as [Hx _].
      apply N.eqb_eq in Hx. congruence.
  - unfold SELECT_transactions. rewrite filter_none; [reflexivity|].
    intros x _. rewrite (header_visible_member s db x Hb).
    destruct (transactions.company_id x =? company)%N eqn:E.
    + apply N.eqb_eq in E. rewrite E, Hm. apply andb_false_r.
    + now rewrite andb_false_r.
Qed.

Lemma X18_witness :
  loadTransactionIntoForm (fun _ => "1,00"%string) Sample.member Sample.db1
    1%N 1%N mode_edit
  = inr (mkdialog (transactions.description (Sample.head 1%N 1%N))
           [ mkformLine None debit None "0,00";
             mkformLine None credit None "0,00" ]
           mode_edit (Some 1%N)).
Proof.
  refine (proj1 (X18_form_shows_blank_lines_under_row_security
                   (fun _ => "1,00"%string) Sample.member Sample.db1 1%N 1%N
                   mode_edit (Sample.head 1%N 1%N) eq_refl eq_refl _ eq_refl eq_refl)
                eq_refl).
  vm_compute. auto.
Defined.
